(** * AWS RDS relational database resource: lifecycle model

    A shallow embedding of
    [perfkitbenchmarker/providers/aws/aws_relational_db.py]
    (class [AwsRelationalDb]) and proofs about its lifecycle operations:
    creation of dependencies, creation, readiness polling, existence check,
    deletion, teardown of dependencies, post-creation and failover.

    The Python object [self] is a record that is threaded through every
    method; the cloud provider, the wall clock and the heap of subnet objects
    form the [World].  A method is a function from [self] and the world to an
    outcome (a returned value, a raised exception, or exhaustion of the fuel
    that bounds [while True]), the updated [self] and the updated world.
    Attribute assignments made before an exception is raised are kept, as in
    Python. *)

From Stdlib Require Import String Ascii List ZArith Bool Lia Arith.
From Stdlib Require Import DecimalString.
From Stdlib Require Import Permutation.
Import ListNotations.

Set Warnings "-register-all".

Notation "s1 +++ s2" := (String.append s1 s2)
  (at level 60, right associativity) : string_scope.

Local Open Scope Z_scope.
Local Open Scope string_scope.
Local Open Scope list_scope.

(** ** Python values *)

(** The values [json.loads] produces; [JNull] is Python's [None]. *)
Inductive Json : Type :=
| JNull
| JBool (b : bool)
| JNum (z : Z)
| JStr (s : string)
| JList (l : list Json)
| JDict (kv : list (string * Json)).

(** Exceptions raised by the module or passing through it. *)
Inductive Exn : Type :=
| Exception (msg : string)
| IssueCommandError (msg : string)
| RelationalDbEngineNotFoundError (msg : string)
| AwsRelationalDbCrossRegionError (msg : string)
| JSONDecodeError
| KeyError
| IndexError
| TypeError
| ValueError
| ExternalError (origin : string)
| NotImplementedError (msg : string)
| AwsRelationalDbParameterError (msg : string).

(** Truth value of a Python object, as tested by [if x:] and [not x]. *)
Definition truthy (j : Json) : bool :=
  match j with
  | JNull => false
  | JBool b => b
  | JNum z => negb (Z.eqb z 0)
  | JStr s => negb (String.eqb s "")
  | JList l => match l with [] => false | _ => true end
  | JDict kv => match kv with [] => false | _ => true end
  end.

(** A dict built from pairs in which a later pair of the same key replaces
    an earlier one: the value of a key is the one of its last pair. *)
Fixpoint dict_get {A : Type} (kv : list (string * A)) (key : string) : option A :=
  match kv with
  | [] => None
  | (k, v) :: rest =>
      match dict_get rest key with
      | Some v' => Some v'
      | None => if String.eqb k key then Some v else None
      end
  end.

(** [obj[key]] with a string key: only a dict can be subscripted so. *)
Definition getitem (j : Json) (key : string) : Exn + Json :=
  match j with
  | JDict kv => match dict_get kv key with
                | Some v => inr v
                | None => inl KeyError
                end
  | _ => inl TypeError
  end.

(** [obj[0]]: the first item of a list, the first character of a string;
    a dict parsed from JSON has string keys only, so [0] is not one. *)
Definition getitem0 (j : Json) : Exn + Json :=
  match j with
  | JList (x :: _) => inr x
  | JList [] => inl IndexError
  | JStr (String c _) => inr (JStr (String c EmptyString))
  | JStr EmptyString => inl IndexError
  | JDict _ => inl KeyError
  | _ => inl TypeError
  end.

(** ['%s' % x] for an attribute that holds a string or [None]. *)
Definition fmt_s (x : option string) : string :=
  match x with
  | Some s => s
  | None => "None"
  end.

(** ['{0}'.format(n)] for an int. *)
Definition fmt_int (n : Z) : string := NilZero.string_of_int (Z.to_int n).

(** An element of a command list: a string, or [None] when an attribute that
    was never assigned is placed in the list as it is. *)
Definition arg : Type := option string.

Definition argv (l : list string) : list arg := map Some l.

(** ** Data model *)

(** An [aws_network.AwsSubnet] object.  [subnet_obj] is the identity of the
    Python object; [subnet_id] is the provider's id, known once [Create()]
    has returned. *)
Record Subnet := mkSubnet {
  subnet_obj : nat;
  subnet_zone : string;
  subnet_vpc_id : string;
  subnet_cidr : string;
  subnet_id : option string
}.

(** What the module reads of a virtual machine: [vm.region], [vm.ip_address],
    [vm.network.subnet] and, of [vm.network.regional_network.vpc], [id] and
    [default_security_group_id]. *)
Record Vm := mkVm {
  vm_region : string;
  vm_ip_address : string;
  vm_subnet : Subnet;
  vpc_id : string;
  vpc_default_security_group_id : string
}.

(** The fields of [self.spec] the module reads.  [spec_zones] is [None] when
    the spec has no [zones] attribute or it is [None]. *)
Record Spec := mkSpec {
  engine : string;
  engine_version : string;
  high_availability : bool;
  spec_zones : option (list string);
  db_spec_zone : string;
  db_spec_machine_type : string;
  database_username : string;
  database_password : string;
  disk_size : string;
  disk_type : string;
  iops : string;
  db_flags : list string
}.

(** The attributes of an [AwsRelationalDb] object.  [firewall] tells whether
    the attribute of that name has been assigned ([hasattr]). *)
Record AwsRelationalDb := mkAwsRelationalDb {
  spec : Spec;
  is_managed_db : bool;
  client_vm : Vm;
  server_vm : Vm;
  instance_id : string;
  cluster_id : option string;
  all_instance_ids : list string;
  primary_zone : Json;
  secondary_zone : Json;
  parameter_group : option string;
  zones : list string;
  region : string;
  subnets_owned_by_db : list Subnet;
  subnets_used_by_db : list Subnet;
  unmanaged_db_exists : option bool;
  db_subnet_group_name : option string;
  security_group_id : option string;
  firewall : bool;
  endpoint : Json;
  port : option Z
}.

(** Attribute assignment, one function per assigned attribute. *)
Definition set_parameter_group (v : option string) (self : AwsRelationalDb) : AwsRelationalDb :=
  {| spec := spec self; is_managed_db := is_managed_db self; client_vm :=
  client_vm self; server_vm := server_vm self; instance_id := instance_id
  self; cluster_id := cluster_id self; all_instance_ids := all_instance_ids self;
  primary_zone := primary_zone self; secondary_zone := secondary_zone self;
  parameter_group := v; zones := zones self; region :=
  region self; subnets_owned_by_db := subnets_owned_by_db self;
  subnets_used_by_db := subnets_used_by_db self; unmanaged_db_exists :=
  unmanaged_db_exists self; db_subnet_group_name := db_subnet_group_name self;
  security_group_id := security_group_id self; firewall := firewall self;
  endpoint := endpoint self; port := port self |}.

Definition set_cluster_id (v : option string) (self : AwsRelationalDb) : AwsRelationalDb :=
  {| spec := spec self; is_managed_db := is_managed_db self; client_vm :=
  client_vm self; server_vm := server_vm self; instance_id := instance_id
  self; cluster_id := v; all_instance_ids := all_instance_ids self;
  primary_zone := primary_zone self; secondary_zone := secondary_zone self;
  parameter_group := parameter_group self; zones := zones self; region :=
  region self; subnets_owned_by_db := subnets_owned_by_db self;
  subnets_used_by_db := subnets_used_by_db self; unmanaged_db_exists :=
  unmanaged_db_exists self; db_subnet_group_name := db_subnet_group_name self;
  security_group_id := security_group_id self; firewall := firewall self;
  endpoint := endpoint self; port := port self |}.

Definition set_all_instance_ids (v : list string) (self : AwsRelationalDb) : AwsRelationalDb :=
  {| spec := spec self; is_managed_db := is_managed_db self; client_vm :=
  client_vm self; server_vm := server_vm self; instance_id := instance_id
  self; cluster_id := cluster_id self; all_instance_ids := v; primary_zone :=
  primary_zone self; secondary_zone := secondary_zone self; parameter_group :=
  parameter_group self; zones := zones self; region := region self;
  subnets_owned_by_db := subnets_owned_by_db self; subnets_used_by_db :=
  subnets_used_by_db self; unmanaged_db_exists := unmanaged_db_exists self;
  db_subnet_group_name := db_subnet_group_name self; security_group_id :=
  security_group_id self; firewall := firewall self; endpoint := endpoint
  self; port := port self |}.

Definition set_primary_zone (v : Json) (self : AwsRelationalDb) : AwsRelationalDb :=
  {| spec := spec self; is_managed_db := is_managed_db self; client_vm :=
  client_vm self; server_vm := server_vm self; instance_id := instance_id
  self; cluster_id := cluster_id self; all_instance_ids := all_instance_ids
  self; primary_zone := v; secondary_zone := secondary_zone self;
  parameter_group := parameter_group self; zones := zones self; region :=
  region self; subnets_owned_by_db := subnets_owned_by_db self;
  subnets_used_by_db := subnets_used_by_db self; unmanaged_db_exists :=
  unmanaged_db_exists self; db_subnet_group_name := db_subnet_group_name self;
  security_group_id := security_group_id self; firewall := firewall self;
  endpoint := endpoint self; port := port self |}.

Definition set_secondary_zone (v : Json) (self : AwsRelationalDb) : AwsRelationalDb :=
  {| spec := spec self; is_managed_db := is_managed_db self; client_vm :=
  client_vm self; server_vm := server_vm self; instance_id := instance_id
  self; cluster_id := cluster_id self; all_instance_ids := all_instance_ids
  self; primary_zone := primary_zone self; secondary_zone := v;
  parameter_group := parameter_group self; zones := zones self; region :=
  region self; subnets_owned_by_db := subnets_owned_by_db self;
  subnets_used_by_db := subnets_used_by_db self; unmanaged_db_exists :=
  unmanaged_db_exists self; db_subnet_group_name := db_subnet_group_name self;
  security_group_id := security_group_id self; firewall := firewall self;
  endpoint := endpoint self; port := port self |}.

Definition set_subnets_owned_by_db (v : list Subnet) (self : AwsRelationalDb) : AwsRelationalDb :=
  {| spec := spec self; is_managed_db := is_managed_db self; client_vm :=
  client_vm self; server_vm := server_vm self; instance_id := instance_id
  self; cluster_id := cluster_id self; all_instance_ids := all_instance_ids
  self; primary_zone := primary_zone self; secondary_zone := secondary_zone
  self; parameter_group := parameter_group self; zones := zones self; region
  := region self; subnets_owned_by_db := v; subnets_used_by_db :=
  subnets_used_by_db self; unmanaged_db_exists := unmanaged_db_exists self;
  db_subnet_group_name := db_subnet_group_name self; security_group_id :=
  security_group_id self; firewall := firewall self; endpoint := endpoint
  self; port := port self |}.

Definition set_subnets_used_by_db (v : list Subnet) (self : AwsRelationalDb) : AwsRelationalDb :=
  {| spec := spec self; is_managed_db := is_managed_db self; client_vm :=
  client_vm self; server_vm := server_vm self; instance_id := instance_id
  self; cluster_id := cluster_id self; all_instance_ids := all_instance_ids
  self; primary_zone := primary_zone self; secondary_zone := secondary_zone
  self; parameter_group := parameter_group self; zones := zones self; region
  := region self; subnets_owned_by_db := subnets_owned_by_db self;
  subnets_used_by_db := v; unmanaged_db_exists := unmanaged_db_exists self;
  db_subnet_group_name := db_subnet_group_name self; security_group_id :=
  security_group_id self; firewall := firewall self; endpoint := endpoint
  self; port := port self |}.

Definition set_unmanaged_db_exists (v : option bool) (self : AwsRelationalDb) : AwsRelationalDb :=
  {| spec := spec self; is_managed_db := is_managed_db self; client_vm :=
  client_vm self; server_vm := server_vm self; instance_id := instance_id
  self; cluster_id := cluster_id self; all_instance_ids := all_instance_ids
  self; primary_zone := primary_zone self; secondary_zone := secondary_zone
  self; parameter_group := parameter_group self; zones := zones self; region
  := region self; subnets_owned_by_db := subnets_owned_by_db self;
  subnets_used_by_db := subnets_used_by_db self; unmanaged_db_exists := v;
  db_subnet_group_name := db_subnet_group_name self; security_group_id :=
  security_group_id self; firewall := firewall self; endpoint := endpoint
  self; port := port self |}.

Definition set_db_subnet_group_name (v : option string) (self : AwsRelationalDb) : AwsRelationalDb :=
  {| spec := spec self; is_managed_db := is_managed_db self; client_vm :=
  client_vm self; server_vm := server_vm self; instance_id := instance_id
  self; cluster_id := cluster_id self; all_instance_ids := all_instance_ids
  self; primary_zone := primary_zone self; secondary_zone := secondary_zone
  self; parameter_group := parameter_group self; zones := zones self; region
  := region self; subnets_owned_by_db := subnets_owned_by_db self;
  subnets_used_by_db := subnets_used_by_db self; unmanaged_db_exists :=
  unmanaged_db_exists self; db_subnet_group_name := v; security_group_id :=
  security_group_id self; firewall := firewall self; endpoint := endpoint
  self; port := port self |}.

Definition set_security_group_id (v : option string) (self : AwsRelationalDb) : AwsRelationalDb :=
  {| spec := spec self; is_managed_db := is_managed_db self; client_vm :=
  client_vm self; server_vm := server_vm self; instance_id := instance_id
  self; cluster_id := cluster_id self; all_instance_ids := all_instance_ids
  self; primary_zone := primary_zone self; secondary_zone := secondary_zone
  self; parameter_group := parameter_group self; zones := zones self; region
  := region self; subnets_owned_by_db := subnets_owned_by_db self;
  subnets_used_by_db := subnets_used_by_db self; unmanaged_db_exists :=
  unmanaged_db_exists self; db_subnet_group_name := db_subnet_group_name self;
  security_group_id := v; firewall := firewall self; endpoint := endpoint
  self; port := port self |}.

Definition set_firewall (v : bool) (self : AwsRelationalDb) : AwsRelationalDb :=
  {| spec := spec self; is_managed_db := is_managed_db self; client_vm :=
  client_vm self; server_vm := server_vm self; instance_id := instance_id
  self; cluster_id := cluster_id self; all_instance_ids := all_instance_ids
  self; primary_zone := primary_zone self; secondary_zone := secondary_zone
  self; parameter_group := parameter_group self; zones := zones self; region
  := region self; subnets_owned_by_db := subnets_owned_by_db self;
  subnets_used_by_db := subnets_used_by_db self; unmanaged_db_exists :=
  unmanaged_db_exists self; db_subnet_group_name := db_subnet_group_name self;
  security_group_id := security_group_id self; firewall := v; endpoint :=
  endpoint self; port := port self |}.

Definition set_endpoint (v : Json) (self : AwsRelationalDb) : AwsRelationalDb :=
  {| spec := spec self; is_managed_db := is_managed_db self; client_vm :=
  client_vm self; server_vm := server_vm self; instance_id := instance_id
  self; cluster_id := cluster_id self; all_instance_ids := all_instance_ids
  self; primary_zone := primary_zone self; secondary_zone := secondary_zone
  self; parameter_group := parameter_group self; zones := zones self; region
  := region self; subnets_owned_by_db := subnets_owned_by_db self;
  subnets_used_by_db := subnets_used_by_db self; unmanaged_db_exists :=
  unmanaged_db_exists self; db_subnet_group_name := db_subnet_group_name self;
  security_group_id := security_group_id self; firewall := firewall self;
  endpoint := v; port := port self |}.

Definition set_port (v : option Z) (self : AwsRelationalDb) : AwsRelationalDb :=
  {| spec := spec self; is_managed_db := is_managed_db self; client_vm :=
  client_vm self; server_vm := server_vm self; instance_id := instance_id
  self; cluster_id := cluster_id self; all_instance_ids := all_instance_ids
  self; primary_zone := primary_zone self; secondary_zone := secondary_zone
  self; parameter_group := parameter_group self; zones := zones self; region
  := region self; subnets_owned_by_db := subnets_owned_by_db self;
  subnets_used_by_db := subnets_used_by_db self; unmanaged_db_exists :=
  unmanaged_db_exists self; db_subnet_group_name := db_subnet_group_name self;
  security_group_id := security_group_id self; firewall := firewall self;
  endpoint := endpoint self; port := v |}.


(** ** The world outside the object *)

(** What a provider command answers: standard output, standard error, the
    exit code, and the seconds it took. *)
Record Reply := mkReply {
  stdout : string;
  stderr : string;
  retcode : Z;
  duration : nat
}.

(** Calls into collaborators that return nothing to the module. *)
Inductive ExtCall : Type :=
| SetupUnmanagedDatabase
| AllowPortInSecurityGroup (vm_region sg : string) (start_port end_port : Z)
                           (source_range : list string)
| DisallowAllPorts
| PrintUnmanagedDbStats
| InstallPackages.

(** What happened, in the order it happened. *)
Inductive Event : Type :=
| EvIssueCommand (cmd : list arg) (raise_on_failure : bool)
| EvSleep (seconds : Z)
| EvGetZonesInRegion (region : string)
| EvNextSubnetCidrBlock
| EvSubnetCreate (s : Subnet) (created : bool)
| EvSubnetDelete (s : Subnet)
| EvBasePostCreate
| EvIsReadyUnmanaged
| EvExternal (c : ExtCall).

(** The world: the wall clock in seconds, the provider's state, the events
    so far, and the identity the next allocated subnet object gets. *)
Record World (P : Type) := mkWorld {
  clock : Z;
  prov : P;
  log : list Event;
  next_obj : nat
}.
Arguments mkWorld {P}.
Arguments clock {P}.
Arguments prov {P}.
Arguments log {P}.
Arguments next_obj {P}.

(** The names this module takes from the rest of the repository and from
    Python's library, none of which is part of it: the engine names of
    [sql_engine_utils], [aws_disk.IO1], [util.AWS_PREFIX], [FLAGS.run_uri],
    the tags of [util.MakeFormattedDefaultTags()], [util.GetRegionFromZones],
    [json.loads] ([None] when it raises), [int] on a parsed value, and the
    stateful collaborators, each a transition on the provider's state [P]:
    the command executor, [util.GetZonesInRegion], the vpc's
    [NextSubnetCidrBlock], [AwsSubnet.Create] (the new id, or an exception),
    [AwsSubnet.Delete], the calls of [ExtCall], the base class's
    [_PostCreate] (which may assign attributes) and [_IsReadyUnmanaged]. *)
Record Env (P : Type) := mkEnv {
  MYSQL : string;
  POSTGRES : string;
  AURORA_MYSQL : string;
  AURORA_MYSQL56 : string;
  AURORA_POSTGRES : string;
  SQLSERVER : string;
  SQLSERVER_EXPRESS : string;
  SQLSERVER_STANDARD : string;
  SQLSERVER_ENTERPRISE : string;
  IO1 : string;
  AWS_PREFIX : list string;
  run_uri : string;
  MakeFormattedDefaultTags : list string;
  GetRegionFromZones : list string -> string;
  json_loads : string -> option Json;
  py_int : Json -> Exn + Z;
  exec : list arg -> P -> Reply * P;
  GetZonesInRegion : string -> P -> (Exn + list string) * P;
  NextSubnetCidrBlock : P -> (Exn + string) * P;
  subnet_Create : Subnet -> P -> (Exn + string) * P;
  subnet_Delete : Subnet -> P -> option Exn * P;
  external : ExtCall -> P -> option Exn * P;
  base_PostCreate : AwsRelationalDb -> P -> (option Exn * AwsRelationalDb) * P;
  IsReadyUnmanaged : AwsRelationalDb -> P -> (Exn + bool) * P
}.

Arguments mkEnv {P}.
Arguments MYSQL {P}.
Arguments POSTGRES {P}.
Arguments AURORA_MYSQL {P}.
Arguments AURORA_MYSQL56 {P}.
Arguments AURORA_POSTGRES {P}.
Arguments SQLSERVER {P}.
Arguments SQLSERVER_EXPRESS {P}.
Arguments SQLSERVER_STANDARD {P}.
Arguments SQLSERVER_ENTERPRISE {P}.
Arguments IO1 {P}.
Arguments AWS_PREFIX {P}.
Arguments run_uri {P}.
Arguments MakeFormattedDefaultTags {P}.
Arguments GetRegionFromZones {P}.
Arguments json_loads {P}.
Arguments py_int {P}.
Arguments exec {P}.
Arguments GetZonesInRegion {P}.
Arguments NextSubnetCidrBlock {P}.
Arguments subnet_Create {P}.
Arguments subnet_Delete {P}.
Arguments external {P}.
Arguments base_PostCreate {P}.
Arguments IsReadyUnmanaged {P}.

(** ** Outcomes and the method monad *)

Inductive Outcome (A : Type) : Type :=
| Ret (a : A)
| Raise (e : Exn)
| OutOfFuel.
Arguments Ret {A}.
Arguments Raise {A}.
Arguments OutOfFuel {A}.

Definition M (P A : Type) : Type :=
  AwsRelationalDb -> World P -> Outcome A * AwsRelationalDb * World P.

Definition ret {P A} (a : A) : M P A := fun self w => (Ret a, self, w).

Definition raise {P A} (e : Exn) : M P A := fun self w => (Raise e, self, w).

Definition bind {P A B} (m : M P A) (k : A -> M P B) : M P B :=
  fun self w =>
    match m self w with
    | (Ret a, self', w') => k a self' w'
    | (Raise e, self', w') => (Raise e, self', w')
    | (OutOfFuel, self', w') => (OutOfFuel, self', w')
    end.

Notation "x <- m ;; k" := (bind m (fun x => k))
  (at level 61, m at next level, right associativity).
Notation "m ;; k" := (bind m (fun _ => k))
  (at level 61, right associativity).

(** The attributes of [self]. *)
Definition attr {P A} (f : AwsRelationalDb -> A) : M P A :=
  fun self w => (Ret (f self), self, w).

(** [self.x = v]. *)
Definition assign {P} (f : AwsRelationalDb -> AwsRelationalDb) : M P unit :=
  fun self w => (Ret tt, f self, w).

(** The result of a pure expression that may raise. *)
Definition lift {P A} (r : Exn + A) : M P A :=
  match r with
  | inr a => ret a
  | inl e => raise e
  end.

(** [try: m except: h] with a bare [except]. *)
Definition try_except {P A} (m : M P A) (h : M P A) : M P A :=
  fun self w =>
    match m self w with
    | (Raise _, self', w') => h self' w'
    | r => r
    end.

Definition outcome_of {P A} (r : Outcome A * AwsRelationalDb * World P) : Outcome A :=
  fst (fst r).
Definition self_of {P A} (r : Outcome A * AwsRelationalDb * World P) : AwsRelationalDb :=
  snd (fst r).
Definition world_of {P A} (r : Outcome A * AwsRelationalDb * World P) : World P :=
  snd r.

Definition emit {P} (e : Event) (w : World P) : World P :=
  {| clock := clock w; prov := prov w; log := log w ++ [e]; next_obj := next_obj w |}.

Definition with_prov {P} (p : P) (w : World P) : World P :=
  {| clock := clock w; prov := p; log := log w; next_obj := next_obj w |}.

Definition advance {P} (seconds : Z) (w : World P) : World P :=
  {| clock := clock w + seconds; prov := prov w; log := log w; next_obj := next_obj w |}.

(** ** The module *)

Definition DEFAULT_MYSQL_VERSION : string := "5.7.16".
Definition DEFAULT_POSTGRES_VERSION : string := "9.6.9".
Definition DEFAULT_MYSQL_AURORA_VERSION : string := "5.7.12".
Definition DEFAULT_MYSQL56_AURORA_VERSION : string := "5.6.10a".
Definition DEFAULT_POSTGRES_AURORA_VERSION : string := "9.6.9".
Definition DEFAULT_SQLSERVER_VERSION : string := "14.00.3223.3.v1".

Definition DEFAULT_MYSQL_PORT : Z := 3306.
Definition DEFAULT_POSTGRES_PORT : Z := 5432.
Definition DEFAULT_SQLSERVER_PORT : Z := 1433.

Definition IS_READY_TIMEOUT : Z := 60 * 60 * 1.

Definition MYSQL5_7_PARAM_GROUP_FAMILY : string := "mysql5.7".
Definition MYSQL8_0_PARAM_GROUP_FAMILY : string := "mysql8.0".

(** [s.split(sep)] for a separator of one character: the pieces between the
    separators, the empty ones too; a string without separator is the one
    piece. *)
Fixpoint str_split (sep : ascii) (s : string) : list string :=
  match s with
  | EmptyString => [""]
  | String c rest =>
      if Ascii.eqb c sep then "" :: str_split sep rest
      else match str_split sep rest with
           | piece :: pieces => String c piece :: pieces
           | [] => [String c ""]
           end
  end.

(** The one-character string of a double quote. *)
Definition dquote : string := String (ascii_of_nat 34) EmptyString.

(** [x in t] for a tuple of strings. *)
Definition str_in (x : string) (t : list string) : bool := existsb (String.eqb x) t.

(** [l.remove(x)]: the first occurrence goes; [ValueError] when there is none. *)
Fixpoint list_remove (x : string) (l : list string) : Exn + list string :=
  match l with
  | [] => inl ValueError
  | y :: rest =>
      if String.eqb y x then inr rest
      else match list_remove x rest with
           | inr rest' => inr (y :: rest')
           | inl e => inl e
           end
  end.

(** [(b - a).seconds] for two readings [a], [b] of the clock that are [d]
    seconds apart: the seconds field of a timedelta leaves whole days out. *)
Definition timedelta_seconds (d : Z) : Z := d mod 86400.

Definition and_then {A B : Type} (r : Exn + A) (k : A -> Exn + B) : Exn + B :=
  match r with
  | inr a => k a
  | inl e => inl e
  end.

Definition json_eq_str (j : Json) (s : string) : bool :=
  match j with
  | JStr s' => String.eqb s' s
  | _ => false
  end.

Section Methods.

Context {P : Type} (env : Env P).

Definition _MAP_ENGINE_TO_DEFAULT_VERSION : list (string * string) :=
  [ (MYSQL env, DEFAULT_MYSQL_VERSION);
    (AURORA_MYSQL env, DEFAULT_MYSQL_AURORA_VERSION);
    (AURORA_MYSQL56 env, DEFAULT_MYSQL56_AURORA_VERSION);
    (POSTGRES env, DEFAULT_POSTGRES_VERSION);
    (AURORA_POSTGRES env, DEFAULT_POSTGRES_AURORA_VERSION);
    (SQLSERVER_EXPRESS env, DEFAULT_SQLSERVER_VERSION);
    (SQLSERVER_STANDARD env, DEFAULT_SQLSERVER_VERSION);
    (SQLSERVER_ENTERPRISE env, DEFAULT_SQLSERVER_VERSION) ].

Definition _AURORA_ENGINES : list string :=
  [ AURORA_MYSQL56 env; AURORA_MYSQL env; AURORA_POSTGRES env ].

Definition _SQL_SERVER_ENGINES : list string :=
  [ SQLSERVER_EXPRESS env; SQLSERVER_STANDARD env; SQLSERVER_ENTERPRISE env ].

Definition _RDS_ENGINES : list string :=
  [ MYSQL env; POSTGRES env;
    SQLSERVER_EXPRESS env; SQLSERVER_STANDARD env; SQLSERVER_ENTERPRISE env ].

(** *** Collaborators *)

(** Modelled from the spec: [vm_util.IssueCommand], which is not part of the
    module.  The command executor of section 6: given a command and a
    raise-on-failure flag it returns standard output, standard error and an
    exit code, and it raises for a non-zero exit only when the flag asks for
    it.  The flag is on unless the caller turns it off. *)
Definition IssueCommand (cmd : list arg) (raise_on_failure : bool) : M P Reply :=
  fun self w =>
    let (r, p) := exec env cmd (prov w) in
    let w' := advance (Z.of_nat (duration r))
                (with_prov p (emit (EvIssueCommand cmd raise_on_failure) w)) in
    if raise_on_failure && negb (Z.eqb (retcode r) 0)
    then (Raise (IssueCommandError (stderr r)), self, w')
    else (Ret r, self, w').

(** [time.sleep(seconds)]. *)
Definition time_sleep (seconds : Z) : M P unit :=
  fun self w => (Ret tt, self, advance seconds (emit (EvSleep seconds) w)).

(** [datetime.datetime.now()], in seconds. *)
Definition datetime_now : M P Z :=
  fun self w => (Ret (clock w), self, w).

Definition util_GetZonesInRegion (rg : string) : M P (list string) :=
  fun self w =>
    let (r, p) := GetZonesInRegion env rg (prov w) in
    let w' := with_prov p (emit (EvGetZonesInRegion rg) w) in
    match r with
    | inr zs => (Ret zs, self, w')
    | inl e => (Raise e, self, w')
    end.

Definition vpc_NextSubnetCidrBlock : M P string :=
  fun self w =>
    let (r, p) := NextSubnetCidrBlock env (prov w) in
    let w' := with_prov p (emit EvNextSubnetCidrBlock w) in
    match r with
    | inr cidr => (Ret cidr, self, w')
    | inl e => (Raise e, self, w')
    end.

(** [aws_network.AwsSubnet(zone, vpc_id, cidr)]: a new object. *)
Definition AwsSubnet (zone vpc cidr : string) : M P Subnet :=
  fun self w =>
    (Ret {| subnet_obj := next_obj w; subnet_zone := zone; subnet_vpc_id := vpc;
            subnet_cidr := cidr; subnet_id := None |},
     self,
     {| clock := clock w; prov := prov w; log := log w; next_obj := S (next_obj w) |}).

(** [subnet.Create()]: on return the object carries the provider's id. *)
Definition Subnet_Create (s : Subnet) : M P Subnet :=
  fun self w =>
    let (r, p) := subnet_Create env s (prov w) in
    match r with
    | inr id =>
        let s' := {| subnet_obj := subnet_obj s; subnet_zone := subnet_zone s;
                     subnet_vpc_id := subnet_vpc_id s; subnet_cidr := subnet_cidr s;
                     subnet_id := Some id |} in
        (Ret s', self, with_prov p (emit (EvSubnetCreate s' true) w))
    | inl e => (Raise e, self, with_prov p (emit (EvSubnetCreate s false) w))
    end.

(** [subnet.Delete()]. *)
Definition Subnet_Delete (s : Subnet) : M P unit :=
  fun self w =>
    let (r, p) := subnet_Delete env s (prov w) in
    let w' := with_prov p (emit (EvSubnetDelete s) w) in
    match r with
    | None => (Ret tt, self, w')
    | Some e => (Raise e, self, w')
    end.

Definition call (c : ExtCall) : M P unit :=
  fun self w =>
    let (r, p) := external env c (prov w) in
    let w' := with_prov p (emit (EvExternal c) w) in
    match r with
    | None => (Ret tt, self, w')
    | Some e => (Raise e, self, w')
    end.

(** [super()._PostCreate()]. *)
Definition super_PostCreate : M P unit :=
  fun self w =>
    let '(r, self', p) := base_PostCreate env self (prov w) in
    let w' := with_prov p (emit EvBasePostCreate w) in
    match r with
    | None => (Ret tt, self', w')
    | Some e => (Raise e, self', w')
    end.

(** [self._IsReadyUnmanaged()], of the base class. *)
Definition _IsReadyUnmanaged : M P bool :=
  fun self w =>
    let (r, p) := IsReadyUnmanaged env self (prov w) in
    let w' := with_prov p (emit EvIsReadyUnmanaged w) in
    match r with
    | inr b => (Ret b, self, w')
    | inl e => (Raise e, self, w')
    end.

(** [for x in l: body(x)]. *)
Fixpoint for_each {A : Type} (l : list A) (body : A -> M P unit) : M P unit :=
  match l with
  | [] => ret tt
  | x :: rest => body x ;; for_each rest body
  end.
(** *** Construction *)

(** [__init__]; [managed] is the base class's [is_managed_db], and the two
    virtual machines are the attributes PKB sets before [Create()]. *)
Definition __init__ (relational_db_spec : Spec) (managed : bool)
    (client server : Vm) : AwsRelationalDb :=
  let zs := match spec_zones relational_db_spec with
            | Some zs => zs
            | None => [db_spec_zone relational_db_spec]
            end in
  {| spec := relational_db_spec;
     is_managed_db := managed;
     client_vm := client;
     server_vm := server;
     instance_id := "pkb-db-instance-" +++ run_uri env;
     cluster_id := None;
     all_instance_ids := [];
     primary_zone := JNull;
     secondary_zone := JNull;
     parameter_group := None;
     zones := zs;
     region := GetRegionFromZones env zs;
     subnets_owned_by_db := [];
     subnets_used_by_db := [];
     unmanaged_db_exists := if managed then None else Some false;
     db_subnet_group_name := None;
     security_group_id := None;
     firewall := false;
     endpoint := JNull;
     port := None |}.

Definition GetDefaultEngineVersion (engine : string) : Exn + string :=
  match dict_get _MAP_ENGINE_TO_DEFAULT_VERSION engine with
  | None => inl (Exception ("Unspecified default version for " +++ engine))
  | Some v => inr v
  end.

(** *** Networking *)

Definition _GetNewZones : M P (list string) :=
  rg <- attr region ;;
  all_zones <- util_GetZonesInRegion rg ;;
  zs <- attr zones ;;
  lift (fold_left (fun acc zone => and_then acc (list_remove zone)) zs (inr all_zones)).

Definition _CreateSubnetInZone (new_subnet_zone : string) : M P Subnet :=
  cidr <- vpc_NextSubnetCidrBlock ;;
  vpc <- attr (fun self => vpc_id (client_vm self)) ;;
  new_subnet <- AwsSubnet new_subnet_zone vpc cidr ;;
  new_subnet <- Subnet_Create new_subnet ;;
  assign (fun self =>
    set_subnets_used_by_db (subnets_used_by_db self ++ [new_subnet]) self) ;;
  assign (fun self =>
    set_subnets_owned_by_db (subnets_owned_by_db self ++ [new_subnet]) self) ;;
  ret new_subnet.

Definition _CreateSubnetInAllZonesAssumeClientZoneExists : M P unit :=
  client_zone <- attr (fun self => subnet_zone (vm_subnet (client_vm self))) ;;
  zs <- attr zones ;;
  for_each zs (fun zone =>
    if negb (String.eqb zone client_zone)
    then _CreateSubnetInZone zone ;; ret tt
    else assign (fun self =>
           set_subnets_used_by_db
             (subnets_used_by_db self ++ [vm_subnet (client_vm self)]) self)).

(** The loop of [_CreateSubnetInAdditionalZone] over the zones in the order
    [pop()] hands them out. *)
Fixpoint create_in_first_zone (popped : list string) : M P Subnet :=
  match popped with
  | [] => raise (Exception "Unable to create subnet in any availability zones")
  | new_subnet_zone :: rest =>
      try_except (_CreateSubnetInZone new_subnet_zone) (create_in_first_zone rest)
  end.

Definition _CreateSubnetInAdditionalZone : M P Subnet :=
  new_subnet_zones <- _GetNewZones ;;
  create_in_first_zone (rev new_subnet_zones).

Definition _CreateDbSubnetGroup (subnets : list Subnet) : M P unit :=
  let db_subnet_group_name := "pkb-db-subnet-group-" +++ run_uri env in
  rg <- attr region ;;
  let create_db_subnet_group_cmd :=
    argv (AWS_PREFIX env) ++
    argv [ "rds"; "create-db-subnet-group";
           "--db-subnet-group-name"; db_subnet_group_name;
           "--db-subnet-group-description"; "pkb_subnet_group_for_db";
           "--region"; rg;
           "--subnet-ids" ] ++
    map subnet_id subnets ++
    argv ["--tags"] ++ argv (MakeFormattedDefaultTags env) in
  IssueCommand create_db_subnet_group_cmd true ;;
  assign (set_db_subnet_group_name (Some db_subnet_group_name)) ;;
  assign (fun self =>
    set_security_group_id
      (Some (vpc_default_security_group_id (client_vm self))) self).

Definition _SetupNetworking : M P unit :=
  eng <- attr (fun self => engine (spec self)) ;;
  (if str_in eng _RDS_ENGINES then
     assign (fun self =>
       set_subnets_used_by_db
         (subnets_used_by_db self ++ [vm_subnet (client_vm self)]) self) ;;
     _CreateSubnetInAdditionalZone ;; ret tt
   else if str_in eng _AURORA_ENGINES then
     _CreateSubnetInAllZonesAssumeClientZoneExists
   else
     raise (Exception ("Unknown how to create network for " +++ eng))) ;;
  used <- attr subnets_used_by_db ;;
  _CreateDbSubnetGroup used ;;
  sg <- attr security_group_id ;;
  rg <- attr region ;;
  let open_port_cmd :=
    argv (AWS_PREFIX env) ++
    argv [ "ec2"; "authorize-security-group-ingress"; "--group-id" ] ++ [sg] ++
    argv [ "--source-group" ] ++ [sg] ++
    argv [ "--protocol"; "tcp";
           "--port=" +++ fmt_int DEFAULT_POSTGRES_PORT;
           "--region"; rg ] in
  IssueCommand open_port_cmd true ;;
  ret tt.

(** [hasattr(self, 'db_subnet_group_name')] holds of every object:
    [__init__] assigns the attribute. *)
Definition _TeardownNetworking : M P unit :=
  name <- attr db_subnet_group_name ;;
  rg <- attr region ;;
  let delete_db_subnet_group_cmd :=
    argv (AWS_PREFIX env) ++
    argv [ "rds"; "delete-db-subnet-group"; "--db-subnet-group-name" ] ++ [name] ++
    argv [ "--region"; rg ] in
  IssueCommand delete_db_subnet_group_cmd false ;;
  owned <- attr subnets_owned_by_db ;;
  for_each owned (fun subnet_for_db => Subnet_Delete subnet_for_db).

Definition _TeardownParameterGroup : M P unit :=
  pg <- attr parameter_group ;;
  rg <- attr region ;;
  match pg with
  | Some name =>
      if negb (String.eqb name "") then
        let delete_db_parameter_group_cmd :=
          argv (AWS_PREFIX env) ++
          argv [ "rds"; "delete-db-parameter-group"; "--db-parameter-group-name";
                 name; "--region"; rg ] in
        IssueCommand delete_db_parameter_group_cmd false ;; ret tt
      else ret tt
  | None => ret tt
  end.

(** *** Creation *)

Definition GetDefaultPort (self : AwsRelationalDb) : Exn + Z :=
  let engine := engine (spec self) in
  if String.eqb engine (MYSQL env) then inr DEFAULT_MYSQL_PORT
  else if String.eqb engine (POSTGRES env) then inr DEFAULT_POSTGRES_PORT
  else if String.eqb engine (SQLSERVER env) then inr DEFAULT_SQLSERVER_PORT
  else inl (RelationalDbEngineNotFoundError ("Unsupported engine " +++ engine)).

Definition _CreateAwsSqlInstance : M P unit :=
  sp <- attr spec ;;
  rg <- attr region ;;
  if str_in (engine sp) _RDS_ENGINES then
    instance_identifier <- attr instance_id ;;
    assign (fun self =>
      set_all_instance_ids (all_instance_ids self ++ [instance_identifier]) self) ;;
    group <- attr db_subnet_group_name ;;
    sg <- attr security_group_id ;;
    let cmd :=
      argv (AWS_PREFIX env) ++
      argv [ "rds"; "create-db-instance";
             "--db-instance-identifier=" +++ instance_identifier;
             "--engine=" +++ engine sp;
             "--master-username=" +++ database_username sp;
             "--master-user-password=" +++ database_password sp;
             "--allocated-storage=" +++ disk_size sp;
             "--storage-type=" +++ disk_type sp;
             "--db-instance-class=" +++ db_spec_machine_type sp;
             "--no-auto-minor-version-upgrade";
             "--region=" +++ rg;
             "--engine-version=" +++ engine_version sp;
             "--db-subnet-group-name=" +++ fmt_s group;
             "--vpc-security-group-ids=" +++ fmt_s sg;
             "--availability-zone=" +++ db_spec_zone sp; "--tags" ] ++
      argv (MakeFormattedDefaultTags env) in
    let cmd :=
      if str_in (engine sp) _SQL_SERVER_ENGINES
      then cmd ++ argv ["--license-model=license-included"]
      else cmd in
    let cmd :=
      if String.eqb (disk_type sp) (IO1 env)
      then cmd ++ argv ["--iops=" +++ iops sp]
      else cmd in
    IssueCommand cmd true ;; ret tt
  else if str_in (engine sp) _AURORA_ENGINES then
    zs <- attr zones ;;
    let zones_needed_for_high_availability := (1 <? length zs)%nat in
    if negb (Bool.eqb zones_needed_for_high_availability (high_availability sp)) then
      raise (Exception
        ("When db_high_availability is true, multiple zones must be specified.  "
         +++ "When db_high_availability is false, one zone should be specified.   "
         +++ "db_high_availability: "
         +++ (if zones_needed_for_high_availability then "True" else "False")
         +++ "  zone count: " +++ fmt_int (Z.of_nat (length zs)) +++ " "))
    else
      let cluster_identifier := "pkb-db-cluster-" +++ run_uri env in
      group <- attr db_subnet_group_name ;;
      sg <- attr security_group_id ;;
      first_zone <- lift (match spec_zones sp with
                          | Some (z :: _) => inr z
                          | Some [] => inl IndexError
                          | None => inl TypeError
                          end) ;;
      let cmd :=
        argv (AWS_PREFIX env) ++
        argv [ "rds"; "create-db-cluster";
               "--db-cluster-identifier=" +++ cluster_identifier;
               "--engine=" +++ engine sp;
               "--engine-version=" +++ engine_version sp;
               "--master-username=" +++ database_username sp;
               "--master-user-password=" +++ database_password sp;
               "--region=" +++ rg;
               "--db-subnet-group-name=" +++ fmt_s group;
               "--vpc-security-group-ids=" +++ fmt_s sg;
               "--availability-zones=" +++ first_zone;
               "--tags" ] ++
        argv (MakeFormattedDefaultTags env) in
      assign (set_cluster_id (Some cluster_identifier)) ;;
      IssueCommand cmd true ;;
      for_each zs (fun zone =>
        base <- attr instance_id ;;
        (* The first instance is assumed to be writer -
           and so use the instance_id  for that id. *)
        let instance_identifier :=
          if String.eqb zone (hd "" zs) then base else base +++ "-" +++ zone in
        assign (fun self =>
          set_all_instance_ids (all_instance_ids self ++ [instance_identifier]) self) ;;
        let cmd :=
          argv (AWS_PREFIX env) ++
          argv [ "rds"; "create-db-instance";
                 "--db-instance-identifier=" +++ instance_identifier;
                 "--db-cluster-identifier=" +++ cluster_identifier;
                 "--engine=" +++ engine sp;
                 "--engine-version=" +++ engine_version sp;
                 "--no-auto-minor-version-upgrade";
                 "--db-instance-class=" +++ db_spec_machine_type sp;
                 "--region=" +++ rg;
                 "--availability-zone=" +++ zone; "--tags" ] ++
          argv (MakeFormattedDefaultTags env) in
        IssueCommand cmd true ;; ret tt)
  else
    raise (Exception ("Unknown how to create AWS data base engine " +++ engine sp)).

Definition _Create : M P unit :=
  managed <- attr is_managed_db ;;
  if managed then _CreateAwsSqlInstance
  else
    assign (fun self => set_endpoint (JStr (vm_ip_address (server_vm self))) self) ;;
    call SetupUnmanagedDatabase ;;
    assign (set_firewall true) ;;
    server <- attr server_vm ;;
    client <- attr client_vm ;;
    start_port <- (fun self w => lift (GetDefaultPort self) self w) ;;
    end_port <- (fun self w => lift (GetDefaultPort self) self w) ;;
    call (AllowPortInSecurityGroup (vm_region server)
            (vpc_default_security_group_id server) start_port end_port
            [vm_ip_address client +++ "/32"]) ;;
    assign (set_unmanaged_db_exists (Some true)).

(** *** Status queries *)

Definition _DescribeInstance (instance_id : string) : M P Json :=
  rg <- attr region ;;
  let cmd :=
    argv (AWS_PREFIX env) ++
    argv [ "rds"; "describe-db-instances";
           "--db-instance-identifier=" +++ instance_id;
           "--region=" +++ rg ] in
  r <- IssueCommand cmd false ;;
  if negb (Z.eqb (retcode r) 0) then ret JNull
  else match json_loads env (stdout r) with
       | Some json_output => ret json_output
       | None => raise JSONDecodeError
       end.

Definition _DescribeCluster (cluster_id : string) : M P Json :=
  rg <- attr region ;;
  let cmd :=
    argv (AWS_PREFIX env) ++
    argv [ "rds"; "describe-db-clusters";
           "--db-cluster-identifier=" +++ cluster_id;
           "--region=" +++ rg ] in
  r <- IssueCommand cmd true ;;
  match json_loads env (stdout r) with
  | Some json_output => ret json_output
  | None => raise JSONDecodeError
  end.

(** *** Deletion *)

Definition _Delete : M P unit :=
  managed <- attr is_managed_db ;;
  if negb managed then
    has_firewall <- attr firewall ;;
    (if has_firewall then call DisallowAllPorts else ret tt) ;;
    assign (set_unmanaged_db_exists (Some false)) ;;
    call PrintUnmanagedDbStats
  else
    ids <- attr all_instance_ids ;;
    rg <- attr region ;;
    for_each ids (fun current_instance_id =>
      let cmd :=
        argv (AWS_PREFIX env) ++
        argv [ "rds"; "delete-db-instance";
               "--db-instance-identifier=" +++ current_instance_id;
               "--skip-final-snapshot";
               "--region"; rg ] in
      IssueCommand cmd false ;; ret tt) ;;
    cluster <- attr cluster_id ;;
    match cluster with
    | Some cluster_id =>
        let cmd :=
          argv (AWS_PREFIX env) ++
          argv [ "rds"; "delete-db-cluster";
                 "--db-cluster-identifier=" +++ cluster_id;
                 "--skip-final-snapshot";
                 "--region"; rg ] in
        IssueCommand cmd false ;; ret tt
    | None => ret tt
    end.

(** The loop of [_Exists]: [False] at the first instance whose description
    is empty, [True] when there is none. *)
Fixpoint all_described (ids : list string) : M P bool :=
  match ids with
  | [] => ret true
  | current_instance_id :: rest =>
      json_output <- _DescribeInstance current_instance_id ;;
      if negb (truthy json_output) then ret false
      else all_described rest
  end.

(** [unmanaged_db_exists] is [None] only for a managed database. *)
Definition _Exists : M P Json :=
  managed <- attr is_managed_db ;;
  if negb managed then
    exists_ <- attr unmanaged_db_exists ;;
    ret (match exists_ with Some b => JBool b | None => JNull end)
  else
    ids <- attr all_instance_ids ;;
    b <- all_described ids ;;
    ret (JBool b).

(** *** Reading a description *)

Definition _ParseEndpointFromInstance (describe_instance_json : Json) : Exn + Json :=
  and_then (getitem describe_instance_json "DBInstances") (fun l =>
  and_then (getitem0 l) (fun i =>
  and_then (getitem i "Endpoint") (fun e =>
  getitem e "Address"))).

Definition _ParsePortFromInstance (describe_instance_json : Json) : Exn + option Z :=
  match describe_instance_json with
  | JNull => inr None
  | _ =>
      and_then (getitem describe_instance_json "DBInstances") (fun l =>
      and_then (getitem0 l) (fun i =>
      and_then (getitem i "Endpoint") (fun e =>
      and_then (getitem e "Port") (fun p =>
      and_then (py_int env p) (fun n => inr (Some n))))))
  end.

Definition _ParseEndpointFromCluster (describe_cluster_json : Json) : Exn + Json :=
  and_then (getitem describe_cluster_json "DBClusters") (fun l =>
  and_then (getitem0 l) (fun c =>
  getitem c "Endpoint")).

Definition _ParsePortFromCluster (describe_cluster_json : Json) : Exn + option Z :=
  match describe_cluster_json with
  | JNull => inr None
  | _ =>
      and_then (getitem describe_cluster_json "DBClusters") (fun l =>
      and_then (getitem0 l) (fun c =>
      and_then (getitem c "Port") (fun p =>
      and_then (py_int env p) (fun n => inr (Some n)))))
  end.

(** In the branch of the other engines [db_instance] has answered a string
    subscript when [in] is evaluated, so it is a dict and [in] tests its
    keys. *)
Definition _SavePrimaryAndSecondaryZones (describe_instance_json : Json) : M P unit :=
  sp <- attr spec ;;
  zs <- attr zones ;;
  if str_in (engine sp) _AURORA_ENGINES then
    first_zone <- lift (match zs with z :: _ => inr z | [] => inl IndexError end) ;;
    assign (set_primary_zone (JStr first_zone)) ;;
    if (1 <? length zs)%nat
    then assign (set_secondary_zone (JStr (String.concat "," (tl zs))))
    else ret tt
  else
    db_instance <- lift (and_then (getitem describe_instance_json "DBInstances") getitem0) ;;
    zone <- lift (getitem db_instance "AvailabilityZone") ;;
    assign (set_primary_zone zone) ;;
    if high_availability sp then
      match getitem db_instance "SecondaryAvailabilityZone" with
      | inr secondary => assign (set_secondary_zone secondary)
      | inl _ =>
          (* the secondary DB for RDS is in the second subnet. *)
          used <- attr subnets_used_by_db ;;
          second <- lift (match nth_error used 1 with
                          | Some subnet => inr subnet
                          | None => inl IndexError
                          end) ;;
          assign (set_secondary_zone (JStr (subnet_zone second)))
      end
    else ret tt.

(** *** Readiness *)

(** The body of the [try] block of [_IsInstanceReady]: the value is the test
    that guards [break]. *)
Definition instance_is_available (json_output : Json) : Exn + bool :=
  and_then (and_then (getitem json_output "DBInstances") getitem0) (fun i =>
  and_then (getitem i "DBInstanceStatus") (fun state =>
  and_then (and_then (getitem json_output "DBInstances") getitem0) (fun i =>
  and_then (getitem i "PendingModifiedValues") (fun pending_values =>
  and_then (and_then (getitem json_output "DBInstances") getitem0) (fun i =>
  and_then (getitem i "DBParameterGroups") (fun groups =>
  and_then (getitem0 groups) (fun g =>
  and_then (getitem g "ParameterApplyStatus") (fun status =>
  let waiting_param := json_eq_str status "applying" in
  inr (json_eq_str state "available"
       && negb (truthy pending_values) && negb waiting_param))))))))).

(** The [while True] loop of [_IsInstanceReady]; [fuel] bounds the number of
    iterations. *)
Fixpoint poll_instance (fuel : nat) (instance_id : string) (timeout start_time : Z)
    : M P bool :=
  match fuel with
  | O => fun self w => (OutOfFuel, self, w)
  | S fuel' =>
      t <- datetime_now ;;
      if timedelta_seconds (t - start_time) >=? timeout then
        ret false
      else
        json_output <- _DescribeInstance instance_id ;;
        if truthy json_output then
          match instance_is_available json_output with
          | inr true => ret true
          | inr false =>
              time_sleep 5 ;; poll_instance fuel' instance_id timeout start_time
          | inl _ => ret false
          end
        else
          time_sleep 5 ;; poll_instance fuel' instance_id timeout start_time
  end.

Definition _IsInstanceReady (fuel : nat) (instance_id : string) (timeout : Z)
    : M P bool :=
  start_time <- datetime_now ;;
  poll_instance fuel instance_id timeout start_time.

(** The loop of [_IsReady] over the instances. *)
Fixpoint all_ready (fuel : nat) (ids : list string) (timeout : Z) : M P bool :=
  match ids with
  | [] => ret true
  | instance_id :: rest =>
      ready <- _IsInstanceReady fuel instance_id timeout ;;
      if negb ready then ret false else all_ready fuel rest timeout
  end.

Definition _IsReady (fuel : nat) (timeout : Z) : M P bool :=
  managed <- attr is_managed_db ;;
  if negb managed then _IsReadyUnmanaged
  else
    ids <- attr all_instance_ids ;;
    match ids with
    | [] => ret false
    | _ => all_ready fuel ids timeout
    end.

(** *** After creation *)

Definition _GetPortsForWriterInstance (instance_id : string) : M P unit :=
  json_output <- _DescribeInstance instance_id ;;
  e <- lift (_ParseEndpointFromInstance json_output) ;;
  assign (set_endpoint e) ;;
  p <- lift (_ParsePortFromInstance json_output) ;;
  assign (set_port p).

Definition _GetPortsForClusterInstance (cluster_id : string) : M P unit :=
  json_output <- _DescribeCluster cluster_id ;;
  e <- lift (_ParseEndpointFromCluster json_output) ;;
  assign (set_endpoint e) ;;
  p <- lift (_ParsePortFromCluster json_output) ;;
  assign (set_port p).

Definition _PostCreate (fuel : nat) : M P unit :=
  super_PostCreate ;;
  managed <- attr is_managed_db ;;
  (if negb managed then
     p <- (fun self w => lift (GetDefaultPort self) self w) ;;
     assign (set_port (Some p)) ;;
     call InstallPackages
   else
     sp <- attr spec ;;
     id <- attr instance_id ;;
     rg <- attr region ;;
     let need_ha_modification := str_in (engine sp) _RDS_ENGINES in
     (if high_availability sp && need_ha_modification then
        (* When extending the database to be multi-az, the second region
           is picked by where the second subnet has been created. *)
        let cmd :=
          argv (AWS_PREFIX env) ++
          argv [ "rds"; "modify-db-instance";
                 "--db-instance-identifier=" +++ id;
                 "--multi-az"; "--apply-immediately";
                 "--region=" +++ rg ] in
        IssueCommand cmd true ;;
        ready <- _IsInstanceReady fuel id IS_READY_TIMEOUT ;;
        if negb ready then
          raise (Exception
            "Instance could not be set to ready after modification for high availability")
        else ret tt
      else ret tt) ;;
     json_output <- _DescribeInstance id ;;
     _SavePrimaryAndSecondaryZones json_output ;;
     cluster <- attr cluster_id ;;
     match cluster with
     | Some c =>
         if negb (String.eqb c "") then _GetPortsForClusterInstance c
         else
           ids <- attr all_instance_ids ;;
           first <- lift (match ids with i :: _ => inr i | [] => inl IndexError end) ;;
           _GetPortsForWriterInstance first
     | None =>
         ids <- attr all_instance_ids ;;
         first <- lift (match ids with i :: _ => inr i | [] => inl IndexError end) ;;
         _GetPortsForWriterInstance first
     end) ;;
  call InstallPackages.

(** *** Dependencies *)

Definition _AssertClientAndDbInSameRegion : M P unit :=
  client <- attr client_vm ;;
  rg <- attr region ;;
  if negb (String.eqb (vm_region client) rg) then
    raise (AwsRelationalDbCrossRegionError
      "client_vm and relational_db server must be in the same region")
  else ret tt.

Definition _CreateDependencies : M P unit :=
  managed <- attr is_managed_db ;;
  if managed then
    _AssertClientAndDbInSameRegion ;;
    _SetupNetworking
  else ret tt.

Definition _DeleteDependencies : M P unit :=
  managed <- attr is_managed_db ;;
  if managed then
    _TeardownNetworking ;;
    _TeardownParameterGroup
  else ret tt.

(** *** Failover *)

Definition _FailoverHA : M P unit :=
  sp <- attr spec ;;
  id <- attr instance_id ;;
  rg <- attr region ;;
  if str_in (engine sp) _RDS_ENGINES then
    let cmd :=
      argv (AWS_PREFIX env) ++
      argv [ "rds"; "reboot-db-instance";
             "--db-instance-identifier=" +++ id;
             "--force-failover";
             "--region=" +++ rg ] in
    IssueCommand cmd true ;; ret tt
  else if str_in (engine sp) _AURORA_ENGINES then
    ids <- attr all_instance_ids ;;
    new_primary_id <- lift (match nth_error ids 1 with
                            | Some i => inr i
                            | None => inl IndexError
                            end) ;;
    cluster <- attr cluster_id ;;
    let cmd :=
      argv (AWS_PREFIX env) ++
      argv [ "rds"; "failover-db-cluster";
             "--db-cluster-identifier=" +++ fmt_s cluster;
             "--target-db-instance-identifier=" +++ new_primary_id;
             "--region=" +++ rg ] in
    IssueCommand cmd true ;; ret tt
  else
    raise (Exception ("Unknown how to failover " +++ engine sp)).

(** *** Deletion in progress, reboot *)

(** The loop of [_IsDeleting] over the instances. *)
Fixpoint any_deleting (ids : list string) : M P bool :=
  match ids with
  | [] => ret false
  | instance_id :: rest =>
      json_output <- _DescribeInstance instance_id ;;
      if truthy json_output then
        state <- lift (and_then (and_then (getitem json_output "DBInstances") getitem0)
                         (fun i => getitem i "DBInstanceStatus")) ;;
        if json_eq_str state "deleting" then ret true
        else any_deleting rest
      else any_deleting rest
  end.

Definition _IsDeleting : M P bool :=
  ids <- attr all_instance_ids ;;
  any_deleting ids.

Definition _Reboot (fuel : nat) : M P unit :=
  id <- attr instance_id ;;
  rg <- attr region ;;
  (* Can only reboot when the instance is in ready state *)
  ready <- _IsInstanceReady fuel id IS_READY_TIMEOUT ;;
  if negb ready then
    raise (Exception "Instance is not in a state that can reboot")
  else
    let cmd :=
      argv (AWS_PREFIX env) ++
      argv [ "rds"; "reboot-db-instance";
             "--db-instance-identifier=" +++ id;
             "--region=" +++ rg ] in
    IssueCommand cmd true ;;
    ready <- _IsInstanceReady fuel id IS_READY_TIMEOUT ;;
    if negb ready then
      raise (Exception "Instance could not be set to ready after reboot")
    else ret tt.

(** *** Database flags *)

Definition _GetParameterGroupFamily (self : AwsRelationalDb) : Exn + string :=
  let sp := spec self in
  let unsupported :=
    inl (NotImplementedError
           ("The parameter group of engine " +++ engine sp +++ ", version "
            +++ engine_version sp +++ " is not supported")) in
  if String.eqb (engine sp) (MYSQL env) then
    if String.prefix "5.7" (engine_version sp) then inr MYSQL5_7_PARAM_GROUP_FAMILY
    else if String.prefix "8.0" (engine_version sp) then inr MYSQL8_0_PARAM_GROUP_FAMILY
    else unsupported
  else unsupported.

Definition _ApplyManagedDbFlags (fuel : nat) : M P unit :=
  sp <- attr spec ;;
  match db_flags sp with
  | [] => ret tt
  | _ :: _ =>
      assign (set_parameter_group (Some ("pkb-parameter-group-" +++ run_uri env))) ;;
      pg <- attr parameter_group ;;
      family <- (fun self w => lift (_GetParameterGroupFamily self) self w) ;;
      rg <- attr region ;;
      let cmd :=
        argv (AWS_PREFIX env) ++
        argv [ "rds"; "create-db-parameter-group";
               "--db-parameter-group-name=" +++ fmt_s pg;
               "--db-parameter-group-family=" +++ family;
               "--region=" +++ rg;
               "--description=" +++ dquote +++ "AWS pkb option group" +++ dquote ] in
      IssueCommand cmd true ;;
      id <- attr instance_id ;;
      let cmd :=
        argv (AWS_PREFIX env) ++
        argv [ "rds"; "modify-db-instance";
               "--db-instance-identifier=" +++ id;
               "--db-parameter-group-name=" +++ fmt_s pg;
               "--region=" +++ rg; "--apply-immediately" ] in
      IssueCommand cmd true ;;
      for_each (db_flags sp) (fun flag =>
        let key_value_pair := str_split "=" flag in
        match key_value_pair with
        | [key; value] =>
            let cmd :=
              argv (AWS_PREFIX env) ++
              argv [ "rds"; "modify-db-parameter-group";
                     "--db-parameter-group-name=" +++ fmt_s pg;
                     "--parameters=ParameterName=" +++ key +++ ",ParameterValue="
                       +++ value +++ ",ApplyMethod=pending-reboot";
                     "--region=" +++ rg ] in
            IssueCommand cmd true ;; ret tt
        | _ => raise (AwsRelationalDbParameterError ("Malformed parameter " +++ flag))
        end) ;;
      _Reboot fuel
  end.

(** *** The life cycle that calls the methods *)

(** Modelled from the spec: [BaseResource.Create] and [BaseResource.Delete],
    which are not part of the module.  Within one resource creation comes
    first (section 5); the docstrings of the two hooks place
    [_CreateDependencies] once before the resource is created and
    [_DeleteDependencies] once after it is deleted. *)
Definition Create : M P unit :=
  _CreateDependencies ;;
  _Create.

Definition Delete : M P unit :=
  _Delete ;;
  _DeleteDependencies.

End Methods.

(** * Vocabulary of the statements *)

Section Vocabulary.

Context {P : Type} (env : Env P).

(** The reply the provider gives to [cmd] in world [w], and the world once
    the command has run. *)
Definition reply_to (cmd : list arg) (w : World P) : Reply :=
  fst (exec env cmd (prov w)).

Definition after_command (cmd : list arg) (raise_on_failure : bool) (w : World P)
    : World P :=
  advance (Z.of_nat (duration (reply_to cmd w)))
    (with_prov (snd (exec env cmd (prov w)))
       (emit (EvIssueCommand cmd raise_on_failure) w)).

(** The events between two worlds [w] and [w'], when [w'] extends [w]. *)
Definition events_since (w w' : World P) : list Event :=
  skipn (length (log w)) (log w').

(** The commands of the module that the statements name. *)
Definition describe_db_instances_cmd (rg instance_id : string) : list arg :=
  argv (AWS_PREFIX env) ++
  argv [ "rds"; "describe-db-instances";
         "--db-instance-identifier=" +++ instance_id;
         "--region=" +++ rg ].

Definition delete_db_instance_cmd (rg instance_id : string) : list arg :=
  argv (AWS_PREFIX env) ++
  argv [ "rds"; "delete-db-instance";
         "--db-instance-identifier=" +++ instance_id;
         "--skip-final-snapshot";
         "--region"; rg ].

Definition delete_db_cluster_cmd (rg cluster_id : string) : list arg :=
  argv (AWS_PREFIX env) ++
  argv [ "rds"; "delete-db-cluster";
         "--db-cluster-identifier=" +++ cluster_id;
         "--skip-final-snapshot";
         "--region"; rg ].

Definition delete_db_subnet_group_cmd (rg : string) (name : option string) : list arg :=
  argv (AWS_PREFIX env) ++
  argv [ "rds"; "delete-db-subnet-group"; "--db-subnet-group-name" ] ++ [name] ++
  argv [ "--region"; rg ].

Definition delete_db_parameter_group_cmd (rg name : string) : list arg :=
  argv (AWS_PREFIX env) ++
  argv [ "rds"; "delete-db-parameter-group"; "--db-parameter-group-name";
         name; "--region"; rg ].


Definition failover_db_cluster_cmd (rg : string) (cluster : option string)
    (target : string) : list arg :=
  argv (AWS_PREFIX env) ++
  argv [ "rds"; "failover-db-cluster";
         "--db-cluster-identifier=" +++ fmt_s cluster;
         "--target-db-instance-identifier=" +++ target;
         "--region=" +++ rg ].

(** The world after [_Delete] has asked for the deletion of the instances
    [ids], in order, and of the cluster. *)
Definition after_instance_deletes (rg : string) (ids : list string) (w : World P)
    : World P :=
  fold_left (fun w id => after_command (delete_db_instance_cmd rg id) false w) ids w.

Definition after_cluster_delete (rg : string) (cluster : option string) (w : World P)
    : World P :=
  match cluster with
  | Some c => after_command (delete_db_cluster_cmd rg c) false w
  | None => w
  end.

(** The world after [Delete()] has been called on the subnets [subnets], in
    order. *)
Definition after_subnet_deletes (subnets : list Subnet) (w : World P) : World P :=
  fold_left
    (fun w s => with_prov (snd (subnet_Delete env s (prov w))) (emit (EvSubnetDelete s) w))
    subnets w.

Definition after_parameter_group_delete (rg : string) (pg : option string)
    (w : World P) : World P :=
  match pg with
  | Some name =>
      if negb (String.eqb name "")
      then after_command (delete_db_parameter_group_cmd rg name) false w
      else w
  | None => w
  end.

(** The world after a call of a collaborator. *)
Definition after_call (c : ExtCall) (w : World P) : World P :=
  with_prov (snd (external env c (prov w))) (emit (EvExternal c) w).

(** The events of a deletion: what [_Delete] asks of the provider for a
    managed database, and what [_DeleteDependencies] tears down. *)
Definition instance_delete_events (self : AwsRelationalDb) : list Event :=
  map (fun id => EvIssueCommand (delete_db_instance_cmd (region self) id) false)
      (all_instance_ids self) ++
  match cluster_id self with
  | Some c => [EvIssueCommand (delete_db_cluster_cmd (region self) c) false]
  | None => []
  end.

Definition parameter_group_events (self : AwsRelationalDb) : list Event :=
  match parameter_group self with
  | Some name =>
      if negb (String.eqb name "")
      then [EvIssueCommand (delete_db_parameter_group_cmd (region self) name) false]
      else []
  | None => []
  end.

Definition dependency_teardown_events (self : AwsRelationalDb) : list Event :=
  [EvIssueCommand
     (delete_db_subnet_group_cmd (region self) (db_subnet_group_name self)) false] ++
  map EvSubnetDelete (subnets_owned_by_db self) ++
  parameter_group_events self.

(** The word of a command that names the operation: the second one after
    the prefix. *)
Definition operation_of (cmd : list arg) : option string :=
  match nth_error cmd (S (length (AWS_PREFIX env))) with
  | Some (Some op) => Some op
  | _ => None
  end.

Definition runs_operation (ops : list string) (e : Event) : bool :=
  match e with
  | EvIssueCommand cmd _ =>
      match operation_of cmd with
      | Some op => str_in op ops
      | None => false
      end
  | _ => false
  end.

(** What [_DescribeInstance] makes of the provider's reply. *)
Definition description_of (r : Reply) : Outcome Json :=
  if negb (Z.eqb (retcode r) 0) then Ret JNull
  else match json_loads env (stdout r) with
       | Some json_output => Ret json_output
       | None => Raise JSONDecodeError
       end.

(** One round of the polling loop that finds the instance not ready: the
    description, then five seconds of sleep; and [n] such rounds. *)
Definition after_poll (rg id : string) (w : World P) : World P :=
  advance 5 (emit (EvSleep 5) (after_command (describe_db_instances_cmd rg id) false w)).

Fixpoint after_polls (rg id : string) (n : nat) (w : World P) : World P :=
  match n with
  | O => w
  | S n' => after_polls rg id n' (after_poll rg id w)
  end.

(** What a round of the loop makes of the provider's reply. *)
Inductive Verdict : Type :=
| Available      (* the loop ends: ready *)
| NotYet         (* sleep and ask again *)
| Unreadable     (* an item or a key is missing: the except clause *)
| Undecodable.   (* [json.loads] raises, outside the try block *)

Definition verdict_of (r : Reply) : Verdict :=
  match description_of r with
  | Ret json_output =>
      if truthy json_output then
        match instance_is_available json_output with
        | inr true => Available
        | inr false => NotYet
        | inl _ => Unreadable
        end
      else NotYet
  | _ => Undecodable
  end.

(** The reply, the verdict and the seconds elapsed since [start_time] at
    round [n] of the polling that begins in world [w]. *)
Definition reply_at (rg id : string) (n : nat) (w : World P) : Reply :=
  reply_to (describe_db_instances_cmd rg id) (after_polls rg id n w).

Definition verdict_at (rg id : string) (n : nat) (w : World P) : Verdict :=
  verdict_of (reply_at rg id n w).

Definition elapsed_at (rg id : string) (start_time : Z) (n : nat) (w : World P) : Z :=
  timedelta_seconds (clock (after_polls rg id n w) - start_time).



(** A status query, and a run that waits for readiness: it asks for the
    status at least once. *)
Definition is_status_query (e : Event) : bool :=
  runs_operation ["describe-db-instances"; "describe-db-clusters"] e.

Definition polls_for_readiness (evs : list Event) : Prop :=
  exists e, In e evs /\ is_status_query e = true.

(** The identifiers [_CreateAwsSqlInstance] records for a cluster over the
    zones [zs]: the writer's first, then one per further zone. *)
Definition aurora_instance_ids (base : string) (zs : list string) : list string :=
  map (fun zone => if String.eqb zone (hd "" zs) then base else base +++ "-" +++ zone) zs.

(** The kinds of event of a life cycle: setting up the network, creating
    the instances, deleting them, tearing down the dependencies. *)
Definition is_network_setup (e : Event) : bool :=
  match e with
  | EvGetZonesInRegion _ | EvNextSubnetCidrBlock | EvSubnetCreate _ _ => true
  | _ => runs_operation ["create-db-subnet-group"; "authorize-security-group-ingress"] e
  end.

Definition is_instance_creation (e : Event) : bool :=
  runs_operation ["create-db-instance"; "create-db-cluster"] e.

Definition is_instance_deletion (e : Event) : bool :=
  runs_operation ["delete-db-instance"; "delete-db-cluster"] e.

Definition is_dependency_teardown (e : Event) : bool :=
  match e with
  | EvSubnetDelete _ => true
  | _ => runs_operation ["delete-db-subnet-group"; "delete-db-parameter-group"] e
  end.

End Vocabulary.

(** The subnets a run has created, and those it has deleted, in order. *)
Definition created_subnets (evs : list Event) : list Subnet :=
  flat_map (fun e => match e with EvSubnetCreate s true => [s] | _ => [] end) evs.


(** A property of the object and the world that a method keeps, whether it
    returns or raises. *)
Definition stable {P A : Type} (I : AwsRelationalDb -> World P -> Prop) (m : M P A)
    : Prop :=
  forall self w, I self w -> I (self_of (m self w)) (world_of (m self w)).

(** Such a property may look at the world through its events and the
    number of allocated objects only, be indifferent to the attributes the
    network setup assigns, or to the owned subnets, and accept an event. *)
Definition blind {P : Type} (I : AwsRelationalDb -> World P -> Prop) : Prop :=
  forall self w w',
    log w' = log w -> (next_obj w <= next_obj w')%nat -> I self w -> I self w'.

Definition ignores_network_attrs {P : Type} (I : AwsRelationalDb -> World P -> Prop)
    : Prop :=
  forall self w, I self w ->
    (forall v, I (set_subnets_used_by_db v self) w) /\
    (forall v, I (set_db_subnet_group_name v self) w) /\
    (forall v, I (set_security_group_id v self) w).

Definition ignores_owned_subnets {P : Type} (I : AwsRelationalDb -> World P -> Prop)
    : Prop :=
  forall self w v, I self w -> I (set_subnets_owned_by_db v self) w.

Definition accepts {P : Type} (I : AwsRelationalDb -> World P -> Prop) (e : Event)
    : Prop :=
  forall self w, I self w -> I self (emit e w).

(** The world has gone on from [w0] with events that all satisfy [Q]. *)
Definition extends_with {P : Type} (Q : Event -> Prop) (w0 : World P)
    (_ : AwsRelationalDb) (w : World P) : Prop :=
  exists evs, log w = log w0 ++ evs /\ Forall Q evs.


(** * A provider to run the model on *)

Module Demo.

(** A provider that answers from a script, one reply per command, whatever
    the command; when the script is over every command exits with 255. *)
Definition Script : Type := list Reply.

Definition not_found : Reply :=
  {| stdout := ""; stderr := "DBInstanceNotFound"; retcode := 255; duration := 0 |}.

Definition says (text : string) : Reply :=
  {| stdout := text; stderr := ""; retcode := 0; duration := 0 |}.

Definition slowly (seconds : nat) (text : string) : Reply :=
  {| stdout := text; stderr := ""; retcode := 0; duration := seconds |}.

Definition scripted (cmd : list arg) (p : Script) : Reply * Script :=
  match p with
  | r :: rest => (r, rest)
  | [] => (not_found, [])
  end.

(** A description of one instance. *)
Definition instance_doc (status : string) (pending : Json) (apply_status : string)
    : Json :=
  JDict [ ("DBInstances",
           JList [ JDict [ ("DBInstanceStatus", JStr status);
                           ("PendingModifiedValues", pending);
                           ("DBParameterGroups",
                            JList [ JDict [ ("ParameterApplyStatus",
                                             JStr apply_status) ] ]);
                           ("AvailabilityZone", JStr "us-east-1a");
                           ("Endpoint",
                            JDict [ ("Address", JStr "pkb-db.example");
                                    ("Port", JNum 3306) ]) ] ]) ].

(** The few texts the scripted provider prints, decoded. *)
Definition decode (text : string) : option Json :=
  if String.eqb text "available" then
    Some (instance_doc "available" (JDict []) "in-sync")
  else if String.eqb text "creating" then
    Some (instance_doc "creating" (JDict []) "in-sync")
  else if String.eqb text "modifying" then
    Some (instance_doc "available" (JDict [("MultiAZ", JBool true)]) "in-sync")
  else if String.eqb text "applying" then
    Some (instance_doc "available" (JDict []) "applying")
  else if String.eqb text "no-instances" then
    Some (JDict [ ("DBInstances", JList []) ])
  else None.

Definition int_of (j : Json) : Exn + Z :=
  match j with
  | JNum z => inr z
  | JBool b => inr (if b then 1 else 0)
  | JStr _ => inl ValueError
  | _ => inl TypeError
  end.

Definition env : Env Script :=
  {| MYSQL := "mysql";
     POSTGRES := "postgres";
     AURORA_MYSQL := "aurora-mysql";
     AURORA_MYSQL56 := "aurora";
     AURORA_POSTGRES := "aurora-postgresql";
     SQLSERVER := "sqlserver";
     SQLSERVER_EXPRESS := "sqlserver-ex";
     SQLSERVER_STANDARD := "sqlserver-se";
     SQLSERVER_ENTERPRISE := "sqlserver-ee";
     IO1 := "io1";
     AWS_PREFIX := ["aws"; "--output"; "json"];
     run_uri := "7a1b";
     MakeFormattedDefaultTags := ["Key=owner,Value=pkb"];
     GetRegionFromZones := fun _ => "us-east-1";
     json_loads := decode;
     py_int := int_of;
     exec := scripted;
     GetZonesInRegion := fun _ p => (inr ["us-east-1a"; "us-east-1b"; "us-east-1c"], p);
     NextSubnetCidrBlock := fun p => (inr "10.0.1.0/24", p);
     subnet_Create := fun s p => (inr ("subnet-" +++ subnet_zone s), p);
     subnet_Delete := fun _ p => (None, p);
     external := fun _ p => (None, p);
     base_PostCreate := fun self p => (None, self, p);
     IsReadyUnmanaged := fun _ p => (inr true, p) |}.

Definition client_subnet : Subnet :=
  {| subnet_obj := 0; subnet_zone := "us-east-1a"; subnet_vpc_id := "vpc-1";
     subnet_cidr := "10.0.0.0/24"; subnet_id := Some "subnet-client" |}.

Definition a_vm (ip : string) : Vm :=
  {| vm_region := "us-east-1"; vm_ip_address := ip; vm_subnet := client_subnet;
     vpc_id := "vpc-1"; vpc_default_security_group_id := "sg-1" |}.

Definition a_spec (eng : string) (ha : bool) (zs : option (list string)) : Spec :=
  {| engine := eng; engine_version := "5.7.16"; high_availability := ha;
     spec_zones := zs; db_spec_zone := "us-east-1a";
     db_spec_machine_type := "db.m4.large";
     database_username := "pkb"; database_password := "secret";
     disk_size := "100"; disk_type := "gp2"; iops := "1000"; db_flags := [] |}.

(** A database object as [__init__] leaves it. *)
Definition a_db (eng : string) (ha managed : bool) (zs : option (list string))
    : AwsRelationalDb :=
  __init__ env (a_spec eng ha zs) managed (a_vm "10.0.0.5") (a_vm "10.0.0.6").

(** The world at the start of a run, with the provider's script. *)
Definition a_world (script : Script) : World Script :=
  {| clock := 1000; prov := script; log := []; next_obj := 1 |}.

(** A managed database with one recorded instance, and a cluster over two
    zones with its two recorded instances. *)
Definition an_instance (eng : string) (ha : bool) : AwsRelationalDb :=
  set_all_instance_ids ["pkb-db-instance-7a1b"] (a_db eng ha true None).

Definition a_cluster : AwsRelationalDb :=
  set_cluster_id (Some "pkb-db-cluster-7a1b")
    (set_all_instance_ids
       ["pkb-db-instance-7a1b"; "pkb-db-instance-7a1b-us-east-1b"]
       (a_db "aurora-mysql" true true (Some ["us-east-1a"; "us-east-1b"]))).

End Demo.

(** * A provider in which subnets can be neither created nor deleted *)

Module Busy.

Definition env : Env Demo.Script :=
  {| MYSQL := MYSQL Demo.env;
     POSTGRES := POSTGRES Demo.env;
     AURORA_MYSQL := AURORA_MYSQL Demo.env;
     AURORA_MYSQL56 := AURORA_MYSQL56 Demo.env;
     AURORA_POSTGRES := AURORA_POSTGRES Demo.env;
     SQLSERVER := SQLSERVER Demo.env;
     SQLSERVER_EXPRESS := SQLSERVER_EXPRESS Demo.env;
     SQLSERVER_STANDARD := SQLSERVER_STANDARD Demo.env;
     SQLSERVER_ENTERPRISE := SQLSERVER_ENTERPRISE Demo.env;
     IO1 := IO1 Demo.env;
     AWS_PREFIX := AWS_PREFIX Demo.env;
     run_uri := run_uri Demo.env;
     MakeFormattedDefaultTags := MakeFormattedDefaultTags Demo.env;
     GetRegionFromZones := GetRegionFromZones Demo.env;
     json_loads := json_loads Demo.env;
     py_int := py_int Demo.env;
     exec := exec Demo.env;
     GetZonesInRegion := GetZonesInRegion Demo.env;
     NextSubnetCidrBlock := NextSubnetCidrBlock Demo.env;
     subnet_Create := fun _ p => (inl (ExternalError "SubnetLimitExceeded"), p);
     subnet_Delete := fun _ p => (Some (ExternalError "DependencyViolation"), p);
     external := external Demo.env;
     base_PostCreate := base_PostCreate Demo.env;
     IsReadyUnmanaged := IsReadyUnmanaged Demo.env |}.

(** A client machine in another region. *)
Definition a_far_vm : Vm :=
  {| vm_region := "eu-west-1"; vm_ip_address := "10.1.0.5";
     vm_subnet := Demo.client_subnet; vpc_id := "vpc-2";
     vpc_default_security_group_id := "sg-2" |}.

End Busy.

(** * A database with flags *)

Module Tuned.

Definition a_spec : Spec :=
  {| engine := "mysql"; engine_version := "5.7.16"; high_availability := false;
     spec_zones := None; db_spec_zone := "us-east-1a";
     db_spec_machine_type := "db.m4.large";
     database_username := "pkb"; database_password := "secret";
     disk_size := "100"; disk_type := "gp2"; iops := "1000";
     db_flags := ["max_connections=100"] |}.

Definition a_db : AwsRelationalDb :=
  __init__ Demo.env a_spec true (Demo.a_vm "10.0.0.5") (Demo.a_vm "10.0.0.6").

End Tuned.

(** * Vocabulary of the further properties *)

Section StatusVocabulary.

Context {P : Type} (env : Env P).

(** What a status check may do: ask for a description, and sleep. *)
Definition is_poll_event (e : Event) : bool :=
  match e with
  | EvSleep _ => true
  | _ => is_status_query env e
  end.

(** The object is [self0] still, and the world has gone on from [w0] with
    poll events only. *)
Definition only_polled (self0 : AwsRelationalDb) (w0 : World P)
    (self : AwsRelationalDb) (w : World P) : Prop :=
  self = self0 /\ extends_with (fun e => is_poll_event e = true) w0 self w.

(** The status a description gives for its first instance, as [_IsDeleting]
    reads it. *)
Definition status_of (json_output : Json) : Exn + Json :=
  and_then (and_then (getitem json_output "DBInstances") getitem0)
    (fun i => getitem i "DBInstanceStatus").

(** The world after the instances [ids] have been described, in order. *)
Definition after_describes (rg : string) (ids : list string) (w : World P) : World P :=
  fold_left
    (fun w id => after_command env (describe_db_instances_cmd env rg id) false w) ids w.

(** A reply that [_IsDeleting] passes over: there is no description, or an
    empty one, or its status is other than "deleting". *)
Definition passed_over (r : Reply) : Prop :=
  exists json_output,
    description_of env r = Ret json_output /\
    (truthy json_output = false \/
     exists state,
       status_of json_output = inr state /\ json_eq_str state "deleting" = false).

(** Each of [ids], described in its turn from [w], is passed over. *)
Definition none_deleting (rg : string) (ids : list string) (w : World P) : Prop :=
  forall k id, nth_error ids k = Some id ->
    passed_over (reply_to env (describe_db_instances_cmd env rg id)
                   (after_describes rg (firstn k ids) w)).

(** What [_PostCreate] does when it has no instance to modify: ask for a
    description, and install the client's packages. *)
Definition is_describe_or_install (e : Event) : bool :=
  match e with
  | EvExternal InstallPackages => true
  | _ => is_status_query env e
  end.

End StatusVocabulary.

(** Every owned subnet is used, and a used subnet is owned unless it is the
    client's. *)
Definition used_is_owned_or_clients {P : Type} (client : Subnet)
    (self : AwsRelationalDb) (_ : World P) : Prop :=
  vm_subnet (client_vm self) = client /\
  incl (subnets_owned_by_db self) (subnets_used_by_db self) /\
  forall s, In s (subnets_used_by_db self) ->
            s = client \/ In s (subnets_owned_by_db self).


(** * Vocabulary of the teardown *)

Section TeardownVocabulary.

Context {P : Type} (env : Env P).

(** [Delete()] returns for each of [subnets], when it is called on them in
    order from the world [w]. *)
Definition deletes_return (subnets : list Subnet) (w : World P) : Prop :=
  forall k s, nth_error subnets k = Some s ->
    fst (subnet_Delete env s (prov (after_subnet_deletes env (firstn k subnets) w)))
    = None.

(** The world in which [_TeardownNetworking] turns to the owned subnets: the
    deletion of the subnet group has been asked for. *)
Definition after_subnet_group_delete (self : AwsRelationalDb) (w : World P) : World P :=
  after_command env
    (delete_db_subnet_group_cmd env (region self) (db_subnet_group_name self)) false w.

End TeardownVocabulary.

(** * Vocabulary of the readiness of several instances *)

Section ReadinessVocabulary.

Context {P : Type} (env : Env P).



End ReadinessVocabulary.

(** * Vocabulary of the order of the life cycle *)

Section OrderVocabulary.

Context {P : Type} (env : Env P).

(** The two commands that end the network setup, and the two with which
    [_ApplyManagedDbFlags] begins. *)
Definition create_db_subnet_group_cmd (rg : string) (subnets : list Subnet) : list arg :=
  argv (AWS_PREFIX env) ++
  argv [ "rds"; "create-db-subnet-group";
         "--db-subnet-group-name"; "pkb-db-subnet-group-" +++ run_uri env;
         "--db-subnet-group-description"; "pkb_subnet_group_for_db";
         "--region"; rg;
         "--subnet-ids" ] ++
  map subnet_id subnets ++
  argv ["--tags"] ++ argv (MakeFormattedDefaultTags env).

Definition authorize_ingress_cmd (rg : string) (sg : option string) : list arg :=
  argv (AWS_PREFIX env) ++
  argv [ "ec2"; "authorize-security-group-ingress"; "--group-id" ] ++ [sg] ++
  argv [ "--source-group" ] ++ [sg] ++
  argv [ "--protocol"; "tcp";
         "--port=" +++ fmt_int DEFAULT_POSTGRES_PORT;
         "--region"; rg ].

Definition create_db_parameter_group_cmd (rg name family : string) : list arg :=
  argv (AWS_PREFIX env) ++
  argv [ "rds"; "create-db-parameter-group";
         "--db-parameter-group-name=" +++ name;
         "--db-parameter-group-family=" +++ family;
         "--region=" +++ rg;
         "--description=" +++ dquote +++ "AWS pkb option group" +++ dquote ].

Definition attach_parameter_group_cmd (rg instance_id name : string) : list arg :=
  argv (AWS_PREFIX env) ++
  argv [ "rds"; "modify-db-instance";
         "--db-instance-identifier=" +++ instance_id;
         "--db-parameter-group-name=" +++ name;
         "--region=" +++ rg; "--apply-immediately" ].

(** The events of the creation of subnets: the zones are listed, an address
    block is taken, [Create()] is called on a subnet. *)
Definition is_subnet_event (e : Event) : bool :=
  match e with
  | EvGetZonesInRegion _ | EvNextSubnetCidrBlock | EvSubnetCreate _ _ => true
  | _ => false
  end.

(** The object with subnets added to those it uses and to those it owns. *)
Definition with_subnets (used owned : list Subnet) (self : AwsRelationalDb)
    : AwsRelationalDb :=
  set_subnets_owned_by_db (subnets_owned_by_db self ++ owned)
    (set_subnets_used_by_db (subnets_used_by_db self ++ used) self).

(** A run from [self] and [w] has gone on with the events [evs], all of the
    creation of subnets, and has left the object with [used] added to the
    subnets it uses and the subnets created added to those it owns. *)
Definition adds_subnets {A : Type} (self : AwsRelationalDb) (w : World P)
    (run : Outcome A * AwsRelationalDb * World P)
    (used : list Subnet) (evs : list Event) : Prop :=
  log (world_of run) = log w ++ evs /\
  Forall (fun e => is_subnet_event e = true) evs /\
  self_of run = with_subnets used (created_subnets evs) self.

(** The operations of the commands among the events, in order. *)
Definition operations (evs : list Event) : list string :=
  flat_map (fun e => match e with
                     | EvIssueCommand cmd _ =>
                         match operation_of env cmd with
                         | Some op => [op]
                         | None => []
                         end
                     | _ => []
                     end) evs.

(** The object is [self0] still, and the world has gone on from [w0]. *)
Definition unchanged (self0 : AwsRelationalDb) (w0 : World P)
    (self : AwsRelationalDb) (w : World P) : Prop :=
  self = self0 /\ extends_with (fun _ => True) w0 self w.

End OrderVocabulary.
(** * Properties *)

(** ** Tuples of engine names *)

Lemma str_in_In (x : string) (t : list string) : str_in x t = true <-> In x t.
Proof.
  unfold str_in. rewrite existsb_exists. split.
  - intros [y [Hy Heq]]. apply String.eqb_eq in Heq. now subst.
  - intros H. exists x. split; [assumption | apply String.eqb_refl].
Qed.

Lemma str_in_not_In (x : string) (t : list string) : str_in x t = false <-> ~ In x t.
Proof.
  rewrite <- str_in_In. destruct (str_in x t); split; congruence.
Qed.

Lemma dict_get_app_some {A : Type} (kv1 kv2 : list (string * A)) key v :
  dict_get kv2 key = Some v -> dict_get (kv1 ++ kv2) key = Some v.
Proof.
  intros H. induction kv1 as [| [k a] kv1 IH]; simpl; [assumption |].
  now rewrite IH.
Qed.

Section EngineFacts.

Context {P : Type} (env : Env P).

Lemma sql_server_engines_are_rds (e : string) :
  In e (_SQL_SERVER_ENGINES env) -> In e (_RDS_ENGINES env).
Proof.
  unfold _SQL_SERVER_ENGINES, _RDS_ENGINES. simpl. tauto.
Qed.

Lemma sql_server_default_version (e : string) :
  In e (_SQL_SERVER_ENGINES env) ->
  GetDefaultEngineVersion env e = inr DEFAULT_SQLSERVER_VERSION.
Proof.
  intros H.
  assert (Hget : dict_get
            [ (SQLSERVER_EXPRESS env, DEFAULT_SQLSERVER_VERSION);
              (SQLSERVER_STANDARD env, DEFAULT_SQLSERVER_VERSION);
              (SQLSERVER_ENTERPRISE env, DEFAULT_SQLSERVER_VERSION) ] e
          = Some DEFAULT_SQLSERVER_VERSION).
  { simpl in H. simpl.
    destruct (String.eqb_spec (SQLSERVER_ENTERPRISE env) e); [reflexivity |].
    destruct (String.eqb_spec (SQLSERVER_STANDARD env) e); [reflexivity |].
    destruct (String.eqb_spec (SQLSERVER_EXPRESS env) e); [reflexivity |].
    destruct H as [H | [H | [H | []]]]; congruence. }
  unfold GetDefaultEngineVersion.
  replace (_MAP_ENGINE_TO_DEFAULT_VERSION env) with
    ([ (MYSQL env, DEFAULT_MYSQL_VERSION);
       (AURORA_MYSQL env, DEFAULT_MYSQL_AURORA_VERSION);
       (AURORA_MYSQL56 env, DEFAULT_MYSQL56_AURORA_VERSION);
       (POSTGRES env, DEFAULT_POSTGRES_VERSION);
       (AURORA_POSTGRES env, DEFAULT_POSTGRES_AURORA_VERSION) ] ++
     [ (SQLSERVER_EXPRESS env, DEFAULT_SQLSERVER_VERSION);
       (SQLSERVER_STANDARD env, DEFAULT_SQLSERVER_VERSION);
       (SQLSERVER_ENTERPRISE env, DEFAULT_SQLSERVER_VERSION) ]) by reflexivity.
  now rewrite (dict_get_app_some _ _ _ _ Hget).
Qed.

Lemma GetDefaultPort_unsupported (self : AwsRelationalDb) :
  engine (spec self) <> MYSQL env ->
  engine (spec self) <> POSTGRES env ->
  engine (spec self) <> SQLSERVER env ->
  GetDefaultPort env self =
    inl (RelationalDbEngineNotFoundError ("Unsupported engine " +++ engine (spec self))).
Proof.
  intros H1 H2 H3. unfold GetDefaultPort.
  destruct (String.eqb_spec (engine (spec self)) (MYSQL env)); [contradiction |].
  destruct (String.eqb_spec (engine (spec self)) (POSTGRES env)); [contradiction |].
  destruct (String.eqb_spec (engine (spec self)) (SQLSERVER env)); [contradiction |].
  reflexivity.
Qed.

(** C10.  The three SQL Server editions are RDS engines with a default
    version, and the port constant for SQL Server exists, yet
    [GetDefaultPort] tests the engine against [MYSQL], [POSTGRES] and the
    plain [SQLSERVER] name only: for a database of one of the three editions
    it raises [RelationalDbEngineNotFoundError], and so does [_Create] of an
    unmanaged one, once the database has been set up on its machine. *)
Theorem GetDefaultPort_raises_for_sql_server_editions (self : AwsRelationalDb) :
  ~ In (MYSQL env) (_SQL_SERVER_ENGINES env) ->
  ~ In (POSTGRES env) (_SQL_SERVER_ENGINES env) ->
  ~ In (SQLSERVER env) (_SQL_SERVER_ENGINES env) ->
  In (engine (spec self)) (_SQL_SERVER_ENGINES env) ->
  let not_found :=
    RelationalDbEngineNotFoundError ("Unsupported engine " +++ engine (spec self)) in
  In (engine (spec self)) (_RDS_ENGINES env) /\
  GetDefaultEngineVersion env (engine (spec self)) = inr DEFAULT_SQLSERVER_VERSION /\
  GetDefaultPort env self = inl not_found /\
  (forall w : World P,
     is_managed_db self = false ->
     fst (external env SetupUnmanagedDatabase (prov w)) = None ->
     outcome_of (_Create env self w) = Raise not_found).
Proof.
  intros Hm Hp Hs Hin not_found.
  assert (Hport : GetDefaultPort env self = inl not_found).
  { apply GetDefaultPort_unsupported; intros Heq; rewrite Heq in Hin; contradiction. }
  repeat split.
  - now apply sql_server_engines_are_rds.
  - now apply sql_server_default_version.
  - exact Hport.
  - intros w Hunmanaged Hsetup.
    unfold _Create, bind, attr, assign, call, lift, outcome_of. simpl.
    rewrite Hunmanaged. simpl.
    destruct (external env SetupUnmanagedDatabase (prov w)) as [r p] eqn:E.
    simpl in Hsetup. subst r. simpl.
    change (GetDefaultPort env _) with (GetDefaultPort env self) at 1.
    now rewrite Hport.
Qed.

End EngineFacts.

Lemma GetDefaultPort_raises_witness :
  let self := Demo.a_db "sqlserver-ex" false false None in
  let not_found := RelationalDbEngineNotFoundError "Unsupported engine sqlserver-ex" in
  In "sqlserver-ex" (_RDS_ENGINES Demo.env) /\
  GetDefaultEngineVersion Demo.env "sqlserver-ex" = inr DEFAULT_SQLSERVER_VERSION /\
  GetDefaultPort Demo.env self = inl not_found /\
  (forall w : World Demo.Script,
     is_managed_db self = false ->
     fst (external Demo.env SetupUnmanagedDatabase (prov w)) = None ->
     outcome_of (_Create Demo.env self w) = Raise not_found).
Proof.
  apply (GetDefaultPort_raises_for_sql_server_editions Demo.env
           (Demo.a_db "sqlserver-ex" false false None)); simpl.
  - intros [H | [H | [H | []]]]; discriminate H.
  - intros [H | [H | [H | []]]]; discriminate H.
  - intros [H | [H | [H | []]]]; discriminate H.
  - left. reflexivity.
Defined.

(** ** Sequencing *)

Section Sequencing.

Context {P : Type}.

Lemma bind_attr {A B} (f : AwsRelationalDb -> A) (k : A -> M P B) self w :
  (x <- attr f ;; k x) self w = k (f self) self w.
Proof. reflexivity. Qed.

Lemma bind_assign {B} (f : AwsRelationalDb -> AwsRelationalDb) (k : unit -> M P B) self w :
  (x <- assign f ;; k x) self w = k tt (f self) w.
Proof. reflexivity. Qed.

Lemma bind_ret {A B} (a : A) (k : A -> M P B) self w :
  (x <- ret a ;; k x) self w = k a self w.
Proof. reflexivity. Qed.

Lemma bind_raise {A B} (e : Exn) (k : A -> M P B) self w :
  (x <- raise e ;; k x) self w = (Raise e, self, w).
Proof. reflexivity. Qed.

Lemma bind_returns {A B} (m : M P A) (k : A -> M P B) self w a self' w' :
  m self w = (Ret a, self', w') -> (x <- m ;; k x) self w = k a self' w'.
Proof. intros H. unfold bind. now rewrite H. Qed.

Lemma bind_raises {A B} (m : M P A) (k : A -> M P B) self w e self' w' :
  m self w = (Raise e, self', w') -> (x <- m ;; k x) self w = (Raise e, self', w').
Proof. intros H. unfold bind. now rewrite H. Qed.

Lemma bind_assoc {A B C} (m : M P A) (k : A -> M P B) (h : B -> M P C) self w :
  (y <- (x <- m ;; k x) ;; h y) self w = (x <- m ;; y <- k x ;; h y) self w.
Proof.
  unfold bind. destruct (m self w) as [[[a | e |] self'] w']; reflexivity.
Qed.

End Sequencing.

(** ** Running commands *)

Section Commands.

Context {P : Type} (env : Env P).

Lemma IssueCommand_unchecked (cmd : list arg) (self : AwsRelationalDb) (w : World P) :
  IssueCommand env cmd false self w
  = (Ret (reply_to env cmd w), self, after_command env cmd false w).
Proof.
  unfold IssueCommand, after_command, reply_to.
  destruct (exec env cmd (prov w)) as [r p]. reflexivity.
Qed.

Lemma IssueCommand_checked (cmd : list arg) (self : AwsRelationalDb) (w : World P) :
  IssueCommand env cmd true self w
  = (if Z.eqb (retcode (reply_to env cmd w)) 0
     then Ret (reply_to env cmd w)
     else Raise (IssueCommandError (stderr (reply_to env cmd w))),
     self, after_command env cmd true w).
Proof.
  unfold IssueCommand, after_command, reply_to.
  destruct (exec env cmd (prov w)) as [r p]. simpl.
  destruct (Z.eqb (retcode r) 0); reflexivity.
Qed.

Lemma log_after_command (cmd : list arg) (flag : bool) (w : World P) :
  log (after_command env cmd flag w) = log w ++ [EvIssueCommand cmd flag].
Proof. reflexivity. Qed.

Lemma next_obj_after_command (cmd : list arg) (flag : bool) (w : World P) :
  next_obj (after_command env cmd flag w) = next_obj w.
Proof. reflexivity. Qed.

Lemma events_since_app (w w' : World P) (evs : list Event) :
  log w' = log w ++ evs -> events_since w w' = evs.
Proof.
  intros H. unfold events_since. rewrite H.
  rewrite skipn_app, skipn_all, Nat.sub_diag. reflexivity.
Qed.

End Commands.


(** ** Deletion *)

Section Deletion.

Context {P : Type} (env : Env P).

Lemma log_after_instance_deletes (rg : string) (ids : list string) (w : World P) :
  log (after_instance_deletes env rg ids w)
  = log w ++ map (fun id => EvIssueCommand (delete_db_instance_cmd env rg id) false) ids.
Proof.
  revert w. induction ids as [| id ids IH]; intros w; simpl.
  - now rewrite app_nil_r.
  - unfold after_instance_deletes in *. simpl. rewrite IH, log_after_command.
    now rewrite <- app_assoc.
Qed.

Lemma log_after_cluster_delete (rg : string) (cluster : option string) (w : World P) :
  log (after_cluster_delete env rg cluster w)
  = log w ++ match cluster with
             | Some c => [EvIssueCommand (delete_db_cluster_cmd env rg c) false]
             | None => []
             end.
Proof.
  destruct cluster; simpl; [reflexivity | now rewrite app_nil_r].
Qed.

Lemma log_after_subnet_deletes (subnets : list Subnet) (w : World P) :
  log (after_subnet_deletes env subnets w) = log w ++ map EvSubnetDelete subnets.
Proof.
  revert w. induction subnets as [| s subnets IH]; intros w; simpl.
  - now rewrite app_nil_r.
  - unfold after_subnet_deletes in *. simpl. rewrite IH. simpl.
    now rewrite <- app_assoc.
Qed.

Lemma delete_instances_loop (rg : string) (ids : list string)
    (self : AwsRelationalDb) (w : World P) :
  for_each ids (fun current_instance_id =>
      IssueCommand env (delete_db_instance_cmd env rg current_instance_id) false ;;
      ret tt) self w
  = (Ret tt, self, after_instance_deletes env rg ids w).
Proof.
  revert w. induction ids as [| id ids IH]; intros w; simpl; [reflexivity |].
  unfold bind at 1. unfold bind at 1. rewrite IssueCommand_unchecked.
  unfold ret at 1. apply IH.
Qed.

(** [_Delete] of a managed database returns, whatever the provider answers,
    leaves the object as it was, and has asked for the deletion of every
    instance and of the cluster. *)
Lemma _Delete_managed (self : AwsRelationalDb) (w : World P) :
  is_managed_db self = true ->
  _Delete env self w
  = (Ret tt, self,
     after_cluster_delete env (region self) (cluster_id self)
       (after_instance_deletes env (region self) (all_instance_ids self) w)).
Proof.
  intros Hm. unfold _Delete.
  rewrite bind_attr, Hm. cbn [negb]. rewrite !bind_attr.
  erewrite bind_returns by apply delete_instances_loop.
  rewrite bind_attr.
  destruct (cluster_id self) as [c |]; [| reflexivity].
  erewrite bind_returns by apply IssueCommand_unchecked.
  reflexivity.
Qed.

Lemma call_returns (c : ExtCall) (self : AwsRelationalDb) (w : World P) :
  fst (external env c (prov w)) = None ->
  call env c self w = (Ret tt, self, after_call env c w).
Proof.
  unfold call, after_call. destruct (external env c (prov w)) as [r p]. simpl.
  now intros ->.
Qed.

Lemma _Delete_unmanaged (self : AwsRelationalDb) (w : World P) :
  is_managed_db self = false ->
  (forall p, fst (external env DisallowAllPorts p) = None) ->
  (forall p, fst (external env PrintUnmanagedDbStats p) = None) ->
  _Delete env self w
  = (Ret tt, set_unmanaged_db_exists (Some false) self,
     after_call env PrintUnmanagedDbStats
       (if firewall self then after_call env DisallowAllPorts w else w)).
Proof.
  intros Hm Hports Hstats. unfold _Delete.
  rewrite bind_attr, Hm. cbn [negb]. rewrite bind_attr.
  destruct (firewall self).
  - erewrite bind_returns by (apply call_returns, Hports).
    rewrite bind_assign. now rewrite call_returns by apply Hstats.
  - rewrite bind_ret, bind_assign. now rewrite call_returns by apply Hstats.
Qed.

(** C1.  [_Delete] is idempotent.  It returns without raising whatever the
    provider answers to the delete commands, so also when the instances are
    already gone or were never created; called a second time it returns again
    and leaves the object as the first call left it.  A managed database
    object is not changed at all, and when no instance and no cluster was
    ever recorded nothing is asked of the provider; an unmanaged one is
    marked as not existing.  For an unmanaged database the two collaborators
    [DisallowAllPorts] and [PrintUnmanagedDbStats] are taken to return. *)
Theorem _Delete_idempotent (self : AwsRelationalDb) (w : World P) :
  (is_managed_db self = false ->
   forall p, fst (external env DisallowAllPorts p) = None /\
             fst (external env PrintUnmanagedDbStats p) = None) ->
  let first := _Delete env self w in
  let second := _Delete env (self_of first) (world_of first) in
  outcome_of first = Ret tt /\
  outcome_of second = Ret tt /\
  self_of second = self_of first /\
  (is_managed_db self = true -> self_of first = self) /\
  (is_managed_db self = false -> unmanaged_db_exists (self_of first) = Some false) /\
  (is_managed_db self = true -> all_instance_ids self = [] -> cluster_id self = None ->
   world_of first = w).
Proof.
  intros Hext first second. subst first second.
  destruct (is_managed_db self) eqn:Hm.
  - rewrite (_Delete_managed self w Hm). cbn [self_of world_of outcome_of fst snd].
    rewrite (_Delete_managed self _ Hm). cbn [self_of world_of outcome_of fst snd].
    repeat split; try discriminate.
    intros _ Hids Hcl. now rewrite Hids, Hcl.
  - assert (Hports : forall p, fst (external env DisallowAllPorts p) = None)
      by (intros p; apply (Hext eq_refl p)).
    assert (Hstats : forall p, fst (external env PrintUnmanagedDbStats p) = None)
      by (intros p; apply (Hext eq_refl p)).
    rewrite (_Delete_unmanaged self w Hm Hports Hstats).
    cbn [self_of world_of outcome_of fst snd].
    rewrite (_Delete_unmanaged (set_unmanaged_db_exists (Some false) self) _ Hm
               Hports Hstats).
    cbn [self_of world_of outcome_of fst snd].
    repeat split; try discriminate.
Qed.

(** *** Teardown of the dependencies *)

Lemma delete_subnets_loop (subnets : list Subnet) (self : AwsRelationalDb) (w : World P) :
  (forall s p, fst (subnet_Delete env s p) = None) ->
  for_each subnets (fun subnet_for_db => Subnet_Delete env subnet_for_db) self w
  = (Ret tt, self, after_subnet_deletes env subnets w).
Proof.
  intros Hdel. revert w. induction subnets as [| s subnets IH]; intros w; simpl;
    [reflexivity |].
  unfold bind at 1. unfold Subnet_Delete at 1.
  specialize (Hdel s (prov w)).
  destruct (subnet_Delete env s (prov w)) as [r p]. simpl in Hdel. subst r.
  apply IH.
Qed.

Lemma _TeardownNetworking_returns (self : AwsRelationalDb) (w : World P) :
  (forall s p, fst (subnet_Delete env s p) = None) ->
  _TeardownNetworking env self w
  = (Ret tt, self,
     after_subnet_deletes env (subnets_owned_by_db self)
       (after_command env
          (delete_db_subnet_group_cmd env (region self) (db_subnet_group_name self))
          false w)).
Proof.
  intros Hdel. unfold _TeardownNetworking. rewrite !bind_attr.
  erewrite bind_returns by apply IssueCommand_unchecked.
  rewrite bind_attr. now apply delete_subnets_loop.
Qed.

Lemma _TeardownParameterGroup_returns (self : AwsRelationalDb) (w : World P) :
  _TeardownParameterGroup env self w
  = (Ret tt, self,
     after_parameter_group_delete env (region self) (parameter_group self) w).
Proof.
  unfold _TeardownParameterGroup, after_parameter_group_delete. rewrite !bind_attr.
  destruct (parameter_group self) as [name |]; [| reflexivity].
  destruct (negb (String.eqb name "")); [| reflexivity].
  erewrite bind_returns by apply IssueCommand_unchecked. reflexivity.
Qed.

Lemma _DeleteDependencies_managed (self : AwsRelationalDb) (w : World P) :
  is_managed_db self = true ->
  (forall s p, fst (subnet_Delete env s p) = None) ->
  _DeleteDependencies env self w
  = (Ret tt, self,
     after_parameter_group_delete env (region self) (parameter_group self)
       (after_subnet_deletes env (subnets_owned_by_db self)
          (after_command env
             (delete_db_subnet_group_cmd env (region self) (db_subnet_group_name self))
             false w))).
Proof.
  intros Hm Hdel. unfold _DeleteDependencies. rewrite bind_attr, Hm.
  erewrite bind_returns by (apply _TeardownNetworking_returns, Hdel).
  apply _TeardownParameterGroup_returns.
Qed.

Lemma log_after_parameter_group_delete (self : AwsRelationalDb) (w : World P) :
  log (after_parameter_group_delete env (region self) (parameter_group self) w)
  = log w ++ parameter_group_events env self.
Proof.
  unfold after_parameter_group_delete, parameter_group_events.
  destruct (parameter_group self) as [name |]; [| now rewrite app_nil_r].
  destruct (negb (String.eqb name "")); [reflexivity | now rewrite app_nil_r].
Qed.

Lemma events_of__Delete (self : AwsRelationalDb) (w : World P) :
  is_managed_db self = true ->
  events_since w (world_of (_Delete env self w)) = instance_delete_events env self.
Proof.
  intros Hm. rewrite (_Delete_managed self w Hm). cbn [world_of snd].
  apply events_since_app.
  rewrite log_after_cluster_delete, log_after_instance_deletes.
  unfold instance_delete_events. now rewrite <- app_assoc.
Qed.

Lemma events_of__DeleteDependencies (self : AwsRelationalDb) (w : World P) :
  is_managed_db self = true ->
  (forall s p, fst (subnet_Delete env s p) = None) ->
  events_since w (world_of (_DeleteDependencies env self w))
  = dependency_teardown_events env self.
Proof.
  intros Hm Hdel. rewrite (_DeleteDependencies_managed self w Hm Hdel).
  cbn [world_of snd]. apply events_since_app.
  rewrite log_after_parameter_group_delete, log_after_subnet_deletes, log_after_command.
  unfold dependency_teardown_events. now rewrite <- !app_assoc.
Qed.

(** *** Teardown when a subnet's [Delete()] may raise *)

Lemma after_subnet_deletes_app (l1 l2 : list Subnet) (w : World P) :
  after_subnet_deletes env (l1 ++ l2) w
  = after_subnet_deletes env l2 (after_subnet_deletes env l1 w).
Proof. unfold after_subnet_deletes. apply fold_left_app. Qed.

Lemma deletes_return_cons (s : Subnet) (subnets : list Subnet) (w : World P) :
  deletes_return env (s :: subnets) w <->
  fst (subnet_Delete env s (prov w)) = None /\
  deletes_return env subnets
    (with_prov (snd (subnet_Delete env s (prov w))) (emit (EvSubnetDelete s) w)).
Proof.
  unfold deletes_return. split.
  - intros H. split.
    + apply (H 0%nat s). reflexivity.
    + intros k s' Hk. apply (H (S k) s'). exact Hk.
  - intros [H0 H] [| k] s' Hk.
    + cbn in Hk. injection Hk as <-. exact H0.
    + apply (H k s'). exact Hk.
Qed.

Lemma delete_subnets_loop_returns (subnets : list Subnet) (self : AwsRelationalDb)
    (w : World P) :
  deletes_return env subnets w ->
  for_each subnets (fun subnet_for_db => Subnet_Delete env subnet_for_db) self w
  = (Ret tt, self, after_subnet_deletes env subnets w).
Proof.
  revert w. induction subnets as [| s subnets IH]; intros w Hret; [reflexivity |].
  apply deletes_return_cons in Hret. destruct Hret as [H0 Hret].
  cbn [for_each]. unfold bind at 1. unfold Subnet_Delete at 1.
  destruct (subnet_Delete env s (prov w)) as [r p] eqn:E.
  cbn [fst snd] in H0, Hret. subst r.
  rewrite (IH _ Hret). unfold after_subnet_deletes. cbn [fold_left]. now rewrite E.
Qed.

Lemma delete_subnets_loop_raises (done : list Subnet) (s : Subnet) (rest : list Subnet)
    (e : Exn) (self : AwsRelationalDb) (w : World P) :
  deletes_return env done w ->
  fst (subnet_Delete env s (prov (after_subnet_deletes env done w))) = Some e ->
  for_each (done ++ s :: rest) (fun subnet_for_db => Subnet_Delete env subnet_for_db)
    self w
  = (Raise e, self, after_subnet_deletes env (done ++ [s]) w).
Proof.
  revert w. induction done as [| d done IH]; intros w Hret Hraise.
  - cbn [app for_each]. unfold bind at 1. unfold Subnet_Delete at 1.
    unfold after_subnet_deletes in *. cbn [fold_left] in *.
    destruct (subnet_Delete env s (prov w)) as [r p].
    cbn [fst snd] in *. now subst r.
  - apply deletes_return_cons in Hret. destruct Hret as [H0 Hret].
    cbn [app for_each]. unfold bind at 1. unfold Subnet_Delete at 1.
    unfold after_subnet_deletes in Hraise. cbn [fold_left] in Hraise.
    destruct (subnet_Delete env d (prov w)) as [r p] eqn:E.
    cbn [fst snd] in H0, Hret, Hraise. subst r.
    rewrite (IH _ Hret Hraise). unfold after_subnet_deletes. cbn [app fold_left].
    now rewrite E.
Qed.

(** Either every [Delete()] returns, or there is a first one that raises. *)
Lemma deletes_return_or_not (subnets : list Subnet) (w : World P) :
  deletes_return env subnets w \/
  exists done s rest e,
    subnets = done ++ s :: rest /\
    deletes_return env done w /\
    fst (subnet_Delete env s (prov (after_subnet_deletes env done w))) = Some e.
Proof.
  revert w. induction subnets as [| s subnets IH]; intros w.
  - left. intros [| k] s' Hk; discriminate Hk.
  - destruct (fst (subnet_Delete env s (prov w))) as [e |] eqn:E.
    + right. exists [], s, subnets, e. repeat split; [| exact E].
      intros [| k] s' Hk; discriminate Hk.
    + destruct (IH (with_prov (snd (subnet_Delete env s (prov w)))
                      (emit (EvSubnetDelete s) w)))
        as [Hret | [done [s' [rest [e [Heq [Hret Hraise]]]]]]].
      * left. apply deletes_return_cons. now split.
      * right. exists (s :: done), s', rest, e. repeat split.
        -- cbn [app]. now rewrite Heq.
        -- apply deletes_return_cons. now split.
        -- exact Hraise.
Qed.

Lemma _TeardownNetworking_eq (self : AwsRelationalDb) (w : World P) :
  _TeardownNetworking env self w
  = for_each (subnets_owned_by_db self)
      (fun subnet_for_db => Subnet_Delete env subnet_for_db) self
      (after_subnet_group_delete env self w).
Proof.
  unfold _TeardownNetworking, after_subnet_group_delete. rewrite !bind_attr.
  erewrite bind_returns by apply IssueCommand_unchecked.
  now rewrite bind_attr.
Qed.

Lemma _DeleteDependencies_returns (self : AwsRelationalDb) (w : World P) :
  is_managed_db self = true ->
  deletes_return env (subnets_owned_by_db self) (after_subnet_group_delete env self w) ->
  _DeleteDependencies env self w
  = (Ret tt, self,
     after_parameter_group_delete env (region self) (parameter_group self)
       (after_subnet_deletes env (subnets_owned_by_db self)
          (after_subnet_group_delete env self w))).
Proof.
  intros Hm Hret. unfold _DeleteDependencies. rewrite bind_attr, Hm.
  erewrite bind_returns
    by (rewrite _TeardownNetworking_eq; now apply delete_subnets_loop_returns).
  apply _TeardownParameterGroup_returns.
Qed.

Lemma _DeleteDependencies_raises (self : AwsRelationalDb) (w : World P)
    (done : list Subnet) (s : Subnet) (rest : list Subnet) (e : Exn) :
  is_managed_db self = true ->
  subnets_owned_by_db self = done ++ s :: rest ->
  deletes_return env done (after_subnet_group_delete env self w) ->
  fst (subnet_Delete env s
         (prov (after_subnet_deletes env done (after_subnet_group_delete env self w))))
  = Some e ->
  _DeleteDependencies env self w
  = (Raise e, self,
     after_subnet_deletes env (done ++ [s]) (after_subnet_group_delete env self w)).
Proof.
  intros Hm Howned Hret Hraise. unfold _DeleteDependencies. rewrite bind_attr, Hm.
  apply bind_raises. rewrite _TeardownNetworking_eq, Howned.
  now apply delete_subnets_loop_raises.
Qed.

Lemma log_after_subnet_group_delete (self : AwsRelationalDb) (w : World P) :
  log (after_subnet_group_delete env self w)
  = log w ++ [EvIssueCommand
                (delete_db_subnet_group_cmd env (region self) (db_subnet_group_name self))
                false].
Proof. apply log_after_command. Qed.

(** C5, as the code has it.  No failure of a delete command is propagated:
    whatever the exit codes, [_Delete] returns, and for a managed database it
    has asked for the deletion of every recorded instance and of the cluster.
    The teardown of the dependencies asks for the deletion of the subnet
    group, calls [Delete()] on the owned subnets in order and asks for the
    deletion of the parameter group, whatever the exit codes.  What a
    subnet's [Delete()] raises is not caught: when no [Delete()] raises the
    teardown returns and has attempted every item; otherwise it raises what
    the first raising [Delete()] raised, and the subnets after that one and
    the parameter group are not attempted.  One of the two is the case.  The
    two collaborators of an unmanaged database are taken to return. *)
Theorem teardown_attempts_every_item (self : AwsRelationalDb) (w w' : World P) :
  (is_managed_db self = false ->
   forall p, fst (external env DisallowAllPorts p) = None /\
             fst (external env PrintUnmanagedDbStats p) = None) ->
  let owned := subnets_owned_by_db self in
  let w1 := after_subnet_group_delete env self w' in
  let teardown := _DeleteDependencies env self w' in
  let raises_first (done : list Subnet) (s : Subnet) (e : Exn) :=
    deletes_return env done w1 /\
    fst (subnet_Delete env s (prov (after_subnet_deletes env done w1))) = Some e in
  outcome_of (_Delete env self w) = Ret tt /\
  (is_managed_db self = false -> teardown = (Ret tt, self, w')) /\
  (is_managed_db self = true ->
   events_since w (world_of (_Delete env self w)) = instance_delete_events env self /\
   (deletes_return env owned w1 ->
    outcome_of teardown = Ret tt /\
    events_since w' (world_of teardown) = dependency_teardown_events env self) /\
   (forall done s rest e,
      owned = done ++ s :: rest ->
      raises_first done s e ->
      outcome_of teardown = Raise e /\
      events_since w' (world_of teardown)
      = EvIssueCommand
          (delete_db_subnet_group_cmd env (region self) (db_subnet_group_name self))
          false
        :: map EvSubnetDelete (done ++ [s])) /\
   (deletes_return env owned w1 \/
    exists done s rest e, owned = done ++ s :: rest /\ raises_first done s e)).
Proof.
  intros Hext owned w1 teardown raises_first. destruct (is_managed_db self) eqn:Hm.
  - split; [now rewrite (_Delete_managed self w Hm) |].
    split; [discriminate |]. intros _.
    split; [now apply events_of__Delete |]. split; [| split].
    + intros Hret. unfold teardown.
      rewrite (_DeleteDependencies_returns self w' Hm Hret).
      cbn [outcome_of world_of fst snd]. split; [reflexivity |].
      apply events_since_app.
      rewrite log_after_parameter_group_delete, log_after_subnet_deletes,
        log_after_subnet_group_delete.
      unfold dependency_teardown_events. now rewrite <- !app_assoc.
    + intros done s rest e Howned [Hret Hraise]. unfold teardown.
      rewrite (_DeleteDependencies_raises self w' done s rest e Hm Howned Hret Hraise).
      cbn [outcome_of world_of fst snd]. split; [reflexivity |].
      apply events_since_app.
      rewrite log_after_subnet_deletes, log_after_subnet_group_delete.
      now rewrite <- app_assoc.
    + destruct (deletes_return_or_not owned w1)
        as [Hret | [done [s [rest [e [Heq [Hret Hraise]]]]]]].
      * now left.
      * right. exists done, s, rest, e. split; [exact Heq |]. now split.
  - split; [| split].
    + rewrite (_Delete_unmanaged self w Hm); [reflexivity | |];
        intros p; apply (Hext eq_refl p).
    + intros _. unfold teardown, _DeleteDependencies. now rewrite bind_attr, Hm.
    + discriminate.
Qed.

End Deletion.

Lemma _Delete_idempotent_witness :
  let self := Demo.a_db "mysql" false false None in
  let first := _Delete Demo.env self (Demo.a_world []) in
  let second := _Delete Demo.env (self_of first) (world_of first) in
  is_managed_db self = false /\
  outcome_of first = Ret tt /\
  outcome_of second = Ret tt /\
  self_of second = self_of first.
Proof.
  split; [reflexivity |].
  pose proof (_Delete_idempotent Demo.env (Demo.a_db "mysql" false false None)
                (Demo.a_world []) (fun _ p => conj eq_refl eq_refl)) as H.
  cbv zeta in H. destruct H as [H1 [H2 [H3 _]]].
  repeat split; assumption.
Defined.

Lemma teardown_attempts_every_item_witness :
  let self := set_all_instance_ids ["pkb-db-instance-7a1b"]
                (Demo.a_db "mysql" false true None) in
  let w := Demo.a_world [Demo.not_found] in
  retcode (reply_to Demo.env
             (delete_db_instance_cmd Demo.env "us-east-1" "pkb-db-instance-7a1b") w) = 255 /\
  outcome_of (_Delete Demo.env self w) = Ret tt /\
  outcome_of (_DeleteDependencies Demo.env self w) = Ret tt /\
  events_since w (world_of (_Delete Demo.env self w))
  = [EvIssueCommand
       (delete_db_instance_cmd Demo.env "us-east-1" "pkb-db-instance-7a1b") false] /\
  events_since w (world_of (_DeleteDependencies Demo.env self w))
  = [EvIssueCommand (delete_db_subnet_group_cmd Demo.env "us-east-1" None) false].
Proof.
  intros self w. split; [reflexivity |].
  assert (Hext : is_managed_db self = false ->
            forall p, fst (external Demo.env DisallowAllPorts p) = None /\
                      fst (external Demo.env PrintUnmanagedDbStats p) = None)
    by (intros _ p; split; reflexivity).
  destruct (teardown_attempts_every_item Demo.env self w w Hext) as [H1 [_ H3]].
  destruct (H3 eq_refl) as [H4 [H5 _]].
  destruct H5 as [H5 H6]; [intros k s _; reflexivity |].
  repeat split; assumption.
Defined.

(** C5 as stated does not hold of the owned subnets.  With a provider that
    refuses to delete subnets, the teardown of a database that owns two
    subnets and has a parameter group raises at the first subnet: [Delete()]
    is not called on the second one and the deletion of the parameter group
    is not asked for. *)
Lemma subnet_delete_error_is_propagated :
  let first := Demo.client_subnet in
  let second := {| subnet_obj := 2; subnet_zone := "us-east-1b";
                   subnet_vpc_id := "vpc-1"; subnet_cidr := "10.0.2.0/24";
                   subnet_id := Some "subnet-us-east-1b" |} in
  let self := set_parameter_group (Some "pkb-parameter-group-7a1b")
                (set_subnets_owned_by_db [first; second]
                   (Demo.an_instance "mysql" false)) in
  let w := Demo.a_world [] in
  let teardown := _DeleteDependencies Busy.env self w in
  outcome_of teardown = Raise (ExternalError "DependencyViolation") /\
  events_since w (world_of teardown)
  = [ EvIssueCommand (delete_db_subnet_group_cmd Busy.env "us-east-1" None) false;
      EvSubnetDelete first ] /\
  In second (subnets_owned_by_db self) /\
  ~ In (EvSubnetDelete second) (events_since w (world_of teardown)) /\
  existsb (runs_operation Busy.env ["delete-db-parameter-group"])
    (events_since w (world_of teardown)) = false.
Proof.
  cbv zeta. split; [reflexivity |]. split; [reflexivity |].
  split; [right; left; reflexivity |]. split; [| reflexivity].
  intros [H | [H | []]]; discriminate H.
Qed.

(** ** Existence *)

Section Existence.

Context {P : Type} (env : Env P).

(** Before [_Create] an unmanaged database does not exist. *)
Lemma _Exists_unmanaged_before_create (sp : Spec) (client server : Vm) (w : World P) :
  _Exists env (__init__ env sp false client server) w
  = (Ret (JBool false), __init__ env sp false client server, w).
Proof. reflexivity. Qed.

Lemma _DescribeInstance_eq (id : string) (self : AwsRelationalDb) (w : World P) :
  _DescribeInstance env id self w
  = (description_of env (reply_to env (describe_db_instances_cmd env (region self) id) w),
     self,
     after_command env (describe_db_instances_cmd env (region self) id) false w).
Proof.
  unfold _DescribeInstance, description_of. rewrite bind_attr.
  erewrite bind_returns by apply IssueCommand_unchecked.
  fold (describe_db_instances_cmd env (region self) id).
  destruct (negb (Z.eqb (retcode _) 0)); [reflexivity |].
  destruct (json_loads env _); reflexivity.
Qed.

(** A managed database one of whose instances the provider cannot describe
    does not exist: the first failing description answers, and nothing is
    raised. *)
Lemma _Exists_not_found (self : AwsRelationalDb) (w : World P) (id : string)
    (rest : list string) :
  is_managed_db self = true ->
  all_instance_ids self = id :: rest ->
  retcode (reply_to env (describe_db_instances_cmd env (region self) id) w) <> 0 ->
  _Exists env self w
  = (Ret (JBool false), self,
     after_command env (describe_db_instances_cmd env (region self) id) false w).
Proof.
  intros Hm Hids Hcode. unfold _Exists.
  rewrite bind_attr, Hm. cbn [negb]. rewrite bind_attr, Hids.
  cbn [all_described]. rewrite bind_assoc.
  pose proof (_DescribeInstance_eq id self w) as Hrun.
  unfold description_of in Hrun. apply Z.eqb_neq in Hcode.
  rewrite Hcode in Hrun. cbn [negb] in Hrun.
  erewrite bind_returns by exact Hrun. reflexivity.
Qed.

(** C2.  Before [_Create], [_Exists] of a managed database answers [True]:
    the object [__init__] builds has no instance identifier, the loop over
    them is empty, and the method returns [True] without asking the provider
    anything.  [_IsReady] on the same object answers [False], having tested
    for the empty list. *)
Theorem _Exists_before_create_managed (sp : Spec) (client server : Vm)
    (w : World P) (fuel : nat) (timeout : Z) :
  let self := __init__ env sp true client server in
  _Exists env self w = (Ret (JBool true), self, w) /\
  _IsReady env fuel timeout self w = (Ret false, self, w).
Proof. split; reflexivity. Qed.

End Existence.

(** ** Failover *)

Lemma append_eq_self (a b : string) : a +++ b = a -> b = "".
Proof.
  induction a as [| c a IH]; simpl; intros H; [assumption |].
  injection H as H. now apply IH.
Qed.

Section Failover.

Context {P : Type} (env : Env P).

Lemma operation_of_prefixed (a op : string) (rest : list arg) :
  operation_of env (argv (AWS_PREFIX env) ++ Some a :: Some op :: rest) = Some op.
Proof.
  unfold operation_of, argv.
  rewrite nth_error_app2; rewrite length_map; [| lia].
  replace (S (length (AWS_PREFIX env)) - length (AWS_PREFIX env))%nat with 1%nat by lia.
  reflexivity.
Qed.

(** The second identifier recorded for a cluster over distinct zones is not
    the writer's. *)
Lemma second_aurora_instance_differs (base : string) (zs : list string)
    (id0 id1 : string) (rest : list string) :
  NoDup zs ->
  aurora_instance_ids base zs = id0 :: id1 :: rest ->
  id0 = base /\ id1 <> base.
Proof.
  intros Hnd Hids. destruct zs as [| z0 [| z1 zs]]; try discriminate.
  unfold aurora_instance_ids in Hids. cbn [map hd] in Hids.
  rewrite String.eqb_refl in Hids.
  destruct (String.eqb_spec z1 z0) as [-> | Hne].
  - inversion Hnd as [| ? ? Hnotin _]. exfalso. apply Hnotin. now left.
  - injection Hids as <- <- _. split; [reflexivity |].
    intros Heq. apply append_eq_self in Heq. discriminate Heq.
Qed.

(** C9, as the code has it.  For a cluster engine [_FailoverHA] issues one
    command, [failover-db-cluster], whose target is the second recorded
    instance, and returns when the command succeeds; it asks for no status
    and does not sleep.  No attribute of the object changes, so the instance
    and cluster identifiers are the same before and after.  When the
    identifiers are those recorded at creation for distinct zones, the target
    is not the writer instance. *)
Theorem _FailoverHA_cluster (self : AwsRelationalDb) (w : World P)
    (id0 id1 : string) (rest : list string) :
  ~ In (engine (spec self)) (_RDS_ENGINES env) ->
  In (engine (spec self)) (_AURORA_ENGINES env) ->
  all_instance_ids self = id0 :: id1 :: rest ->
  let cmd := failover_db_cluster_cmd env (region self) (cluster_id self) id1 in
  let run := _FailoverHA env self w in
  self_of run = self /\
  events_since w (world_of run) = [EvIssueCommand cmd true] /\
  (outcome_of run = Ret tt <-> retcode (reply_to env cmd w) = 0) /\
  ~ polls_for_readiness env (events_since w (world_of run)) /\
  (NoDup (zones self) ->
   all_instance_ids self = aurora_instance_ids (instance_id self) (zones self) ->
   id1 <> instance_id self).
Proof.
  intros Hrds Haurora Hids cmd run.
  apply str_in_not_In in Hrds. apply str_in_In in Haurora.
  assert (Hrun : run
    = (if Z.eqb (retcode (reply_to env cmd w)) 0 then Ret tt
       else Raise (IssueCommandError (stderr (reply_to env cmd w))),
       self, after_command env cmd true w)).
  { subst run. unfold _FailoverHA. rewrite !bind_attr, Hrds, Haurora.
    rewrite bind_attr, Hids. cbn [nth_error lift]. rewrite bind_ret, bind_attr.
    unfold bind. rewrite IssueCommand_checked.
    unfold cmd, failover_db_cluster_cmd.
    destruct (Z.eqb (retcode (reply_to env _ w)) 0); reflexivity. }
  rewrite Hrun. cbn [self_of world_of outcome_of fst snd].
  assert (Hev : events_since w (after_command env cmd true w) = [EvIssueCommand cmd true])
    by (apply events_since_app, log_after_command).
  rewrite Hev. repeat split.
  - destruct (Z.eqb_spec (retcode (reply_to env cmd w)) 0); [trivial | discriminate].
  - intros H. rewrite H. reflexivity.
  - intros [e [[<- | []] Hq]]. unfold is_status_query, runs_operation in Hq.
    unfold cmd, failover_db_cluster_cmd in Hq. cbn [argv map app] in Hq.
    change (map Some (AWS_PREFIX env)) with (argv (AWS_PREFIX env)) in Hq.
    rewrite operation_of_prefixed in Hq. discriminate Hq.
  - intros Hnd Hrec. rewrite Hids in Hrec. symmetry in Hrec.
    now destruct (second_aurora_instance_differs _ _ _ _ _ Hnd Hrec).
Qed.

End Failover.

Lemma _FailoverHA_cluster_witness :
  let w := Demo.a_world [Demo.says "{}"] in
  let cmd := failover_db_cluster_cmd Demo.env "us-east-1" (Some "pkb-db-cluster-7a1b")
               "pkb-db-instance-7a1b-us-east-1b" in
  let run := _FailoverHA Demo.env Demo.a_cluster w in
  self_of run = Demo.a_cluster /\
  events_since w (world_of run) = [EvIssueCommand cmd true] /\
  "pkb-db-instance-7a1b-us-east-1b" <> instance_id Demo.a_cluster.
Proof.
  assert (Hrds : ~ In (engine (spec Demo.a_cluster)) (_RDS_ENGINES Demo.env))
    by (simpl; intros [H | [H | [H | [H | [H | []]]]]]; discriminate H).
  assert (Haurora : In (engine (spec Demo.a_cluster)) (_AURORA_ENGINES Demo.env))
    by (simpl; right; left; reflexivity).
  assert (Hnd : NoDup (zones Demo.a_cluster)).
  { simpl. constructor; [| constructor; [| constructor]]; simpl.
    - intros [H | []]; discriminate H.
    - intros []. }
  pose proof (_FailoverHA_cluster Demo.env Demo.a_cluster
                (Demo.a_world [Demo.says "{}"])
                "pkb-db-instance-7a1b" "pkb-db-instance-7a1b-us-east-1b" []
                Hrds Haurora eq_refl) as H.
  cbv zeta in H. destruct H as [H1 [H2 [_ [_ H5]]]].
  split; [exact H1 |]. split; [exact H2 |].
  exact (H5 Hnd eq_refl).
Defined.

(** C9 as stated does not hold: failover does not wait for readiness.  On
    a cluster whose failover command succeeds, [_FailoverHA] returns having
    asked for no status at all. *)
Lemma _FailoverHA_does_not_wait :
  let w := Demo.a_world [Demo.says "{}"] in
  let run := _FailoverHA Demo.env Demo.a_cluster w in
  outcome_of run = Ret tt /\
  ~ polls_for_readiness Demo.env (events_since w (world_of run)).
Proof.
  split; [reflexivity |].
  intros [e [Hin Hq]]. vm_compute in Hin.
  destruct Hin as [<- | []]. vm_compute in Hq. discriminate Hq.
Qed.

(** ** Readiness polling *)

Section Polling.

Context {P : Type} (env : Env P).

(** One round of the loop of [_IsInstanceReady]. *)
Lemma poll_instance_round (fuel : nat) (id : string) (timeout start_time : Z)
    (self : AwsRelationalDb) (w : World P) :
  let cmd := describe_db_instances_cmd env (region self) id in
  poll_instance env (S fuel) id timeout start_time self w
  = if timedelta_seconds (clock w - start_time) >=? timeout then (Ret false, self, w)
    else match verdict_of env (reply_to env cmd w) with
         | Available => (Ret true, self, after_command env cmd false w)
         | NotYet =>
             poll_instance env fuel id timeout start_time self
               (after_poll env (region self) id w)
         | Unreadable => (Ret false, self, after_command env cmd false w)
         | Undecodable => (Raise JSONDecodeError, self, after_command env cmd false w)
         end.
Proof.
  intros cmd. cbn [poll_instance].
  unfold bind at 1. unfold datetime_now at 1.
  destruct (timedelta_seconds (clock w - start_time) >=? timeout); [reflexivity |].
  unfold bind at 1. rewrite _DescribeInstance_eq. fold cmd.
  unfold verdict_of, description_of.
  destruct (negb (Z.eqb (retcode (reply_to env cmd w)) 0)).
  - reflexivity.
  - destruct (json_loads env (stdout (reply_to env cmd w))) as [j |]; [| reflexivity].
    destruct (truthy j); [| reflexivity].
    destruct (instance_is_available j) as [e | [|]]; reflexivity.
Qed.






















(** C4, as the code has it.  In a round of the polling that begins before
    the deadline, a description that fails (a non-zero exit code) counts as
    not ready yet: the loop sleeps five seconds and goes on as from the next
    round; so does an empty document, and a description that says the
    instance is not ready.  Output that is not a JSON document makes the
    polling raise [JSONDecodeError].  A document that is not empty but from
    which the status, the pending modifications or the state of the first
    parameter group cannot be read ends the polling at once: [False] is
    returned, and nothing is raised. *)
Theorem poll_instance_query_failure (self : AwsRelationalDb) (w : World P)
    (id : string) (timeout start_time : Z) (fuel : nat) :
  timedelta_seconds (clock w - start_time) < timeout ->
  let describe := describe_db_instances_cmd env (region self) id in
  let reply := reply_to env describe w in
  let run := poll_instance env (S fuel) id timeout start_time self w in
  let goes_on :=
    run = poll_instance env fuel id timeout start_time self
            (after_poll env (region self) id w) in
  let answered := after_command env describe false w in
  (retcode reply <> 0 -> goes_on) /\
  (retcode reply = 0 ->
   (json_loads env (stdout reply) = None ->
    run = (Raise JSONDecodeError, self, answered)) /\
   (forall json_output,
      json_loads env (stdout reply) = Some json_output ->
      (truthy json_output = false -> goes_on) /\
      (truthy json_output = true ->
       (forall e, instance_is_available json_output = inl e ->
          run = (Ret false, self, answered)) /\
       (instance_is_available json_output = inr false -> goes_on) /\
       (instance_is_available json_output = inr true ->
          run = (Ret true, self, answered))))).
Proof.
  intros Hbefore describe reply run goes_on answered.
  pose proof (poll_instance_round fuel id timeout start_time self w) as Hround.
  cbv zeta in Hround. fold describe reply run answered in Hround.
  destruct (Z.geb_spec (timedelta_seconds (clock w - start_time)) timeout); [lia |].
  unfold verdict_of, description_of in Hround.
  split.
  - intros Hcode. apply Z.eqb_neq in Hcode. rewrite Hcode in Hround. exact Hround.
  - intros Hcode. apply Z.eqb_eq in Hcode. rewrite Hcode in Hround.
    cbn [negb] in Hround. split.
    + intros Hjson. now rewrite Hjson in Hround.
    + intros json_output Hjson. rewrite Hjson in Hround. split.
      * intros Ht. now rewrite Ht in Hround.
      * intros Ht. rewrite Ht in Hround.
        split; [| split].
        -- intros e Hread. now rewrite Hread in Hround.
        -- intros Hread. now rewrite Hread in Hround.
        -- intros Hread. now rewrite Hread in Hround.
Qed.

End Polling.





Lemma poll_instance_query_failure_witness :
  let self := Demo.an_instance "mysql" false in
  let id := "pkb-db-instance-7a1b" in
  let describe := describe_db_instances_cmd Demo.env "us-east-1" id in
  let w := Demo.a_world [Demo.not_found; Demo.says "available"] in
  let w' := Demo.a_world [Demo.says "no-instances"; Demo.says "available"] in
  let w'' := Demo.a_world [Demo.says "<html>"; Demo.says "available"] in
  poll_instance Demo.env 2 id 3600 1000 self w
  = (Ret true, self,
     after_command Demo.env describe false (after_poll Demo.env "us-east-1" id w)) /\
  poll_instance Demo.env 2 id 3600 1000 self w'
  = (Ret false, self, after_command Demo.env describe false w') /\
  poll_instance Demo.env 2 id 3600 1000 self w''
  = (Raise JSONDecodeError, self, after_command Demo.env describe false w'').
Proof.
  intros self id describe w w' w''.
  assert (Hbefore : timedelta_seconds (1000 - 1000) < 3600) by reflexivity.
  split; [| split].
  - destruct (poll_instance_query_failure Demo.env self w id 3600 1000 1 Hbefore)
      as [Hfail _].
    rewrite Hfail; [reflexivity | discriminate].
  - destruct (poll_instance_query_failure Demo.env self w' id 3600 1000 1 Hbefore)
      as [_ Hread].
    destruct (Hread eq_refl) as [_ Hdoc].
    destruct (Hdoc _ eq_refl) as [_ Hfull].
    destruct (Hfull eq_refl) as [Hunreadable _].
    apply (Hunreadable IndexError). reflexivity.
  - destruct (poll_instance_query_failure Demo.env self w'' id 3600 1000 1 Hbefore)
      as [_ Hread].
    destruct (Hread eq_refl) as [Hraise _].
    apply Hraise. reflexivity.
Defined.

(** C4 as stated does not hold: an unreadable response does not count as
    not ready yet.  The first description has no instance in it, the next
    one would have said "available" well before the deadline, and the
    polling has returned [False] after the one status call, without
    sleeping. *)
Lemma unreadable_description_ends_polling :
  let self := Demo.an_instance "mysql" false in
  let id := "pkb-db-instance-7a1b" in
  let describe := describe_db_instances_cmd Demo.env "us-east-1" id in
  let w := Demo.a_world [Demo.says "no-instances"; Demo.says "available"] in
  let run := _IsInstanceReady Demo.env 10 id 3600 self w in
  verdict_at Demo.env "us-east-1" id 1 w = Available /\
  elapsed_at Demo.env "us-east-1" id (clock w) 1 w < 3600 /\
  outcome_of run = Ret false /\
  events_since w (world_of run) = [EvIssueCommand describe false].
Proof. repeat split. Qed.

(** ** Properties kept along a method *)

Section Stability.

Context {P : Type}.

Variable I : AwsRelationalDb -> World P -> Prop.

Lemma stable_ret {A} (a : A) : stable I (ret a).
Proof. intros self w H. exact H. Qed.

Lemma stable_raise {A} (e : Exn) : stable I (@raise P A e).
Proof. intros self w H. exact H. Qed.

Lemma stable_attr {A} (f : AwsRelationalDb -> A) : stable I (attr f).
Proof. intros self w H. exact H. Qed.

Lemma stable_lift {A} (r : Exn + A) : stable I (lift r).
Proof. destruct r; [apply stable_raise | apply stable_ret]. Qed.

Lemma stable_assign (f : AwsRelationalDb -> AwsRelationalDb) :
  (forall self w, I self w -> I (f self) w) -> stable I (assign f).
Proof. intros Hf self w H. now apply Hf. Qed.

Lemma stable_bind {A B} (m : M P A) (k : A -> M P B) :
  stable I m -> (forall a, stable I (k a)) -> stable I (x <- m ;; k x).
Proof.
  intros Hm Hk self w H. specialize (Hm self w H). unfold bind.
  destruct (m self w) as [[[a | e |] self'] w']; cbn [self_of world_of fst snd] in *.
  - now apply Hk.
  - exact Hm.
  - exact Hm.
Qed.

Lemma stable_for_each {A} (l : list A) (body : A -> M P unit) :
  (forall x, stable I (body x)) -> stable I (for_each l body).
Proof.
  intros Hbody. induction l as [| x l IH]; cbn [for_each].
  - apply stable_ret.
  - apply stable_bind; [apply Hbody | intros _; exact IH].
Qed.

Lemma stable_read {A} (f : AwsRelationalDb -> Exn + A) :
  stable I (fun self w => lift (f self) self w).
Proof. intros self w H. destruct (f self); exact H. Qed.

End Stability.

Section StablePrimitives.

Context {P : Type} (env : Env P).

Variable I : AwsRelationalDb -> World P -> Prop.

Hypothesis I_blind : blind I.

Lemma stable_IssueCommand (cmd : list arg) (flag : bool) :
  accepts I (EvIssueCommand cmd flag) -> stable I (IssueCommand env cmd flag).
Proof.
  intros Hacc self w H. unfold IssueCommand.
  destruct (exec env cmd (prov w)) as [r p].
  assert (H' : I self (advance (Z.of_nat (duration r))
                         (with_prov p (emit (EvIssueCommand cmd flag) w)))).
  { apply (I_blind self (emit (EvIssueCommand cmd flag) w));
      [reflexivity | apply Nat.le_refl | now apply Hacc]. }
  destruct (flag && negb (Z.eqb (retcode r) 0)); exact H'.
Qed.

Lemma stable_util_GetZonesInRegion (rg : string) :
  accepts I (EvGetZonesInRegion rg) -> stable I (util_GetZonesInRegion env rg).
Proof.
  intros Hacc self w H. unfold util_GetZonesInRegion.
  destruct (GetZonesInRegion env rg (prov w)) as [r p].
  assert (H' : I self (with_prov p (emit (EvGetZonesInRegion rg) w))).
  { apply (I_blind self (emit (EvGetZonesInRegion rg) w));
      [reflexivity | apply Nat.le_refl | now apply Hacc]. }
  destruct r; exact H'.
Qed.

Lemma stable_vpc_NextSubnetCidrBlock :
  accepts I EvNextSubnetCidrBlock -> stable I (vpc_NextSubnetCidrBlock env).
Proof.
  intros Hacc self w H. unfold vpc_NextSubnetCidrBlock.
  destruct (NextSubnetCidrBlock env (prov w)) as [r p].
  assert (H' : I self (with_prov p (emit EvNextSubnetCidrBlock w))).
  { apply (I_blind self (emit EvNextSubnetCidrBlock w));
      [reflexivity | apply Nat.le_refl | now apply Hacc]. }
  destruct r; exact H'.
Qed.

Lemma stable_AwsSubnet (zone vpc cidr : string) : stable I (AwsSubnet zone vpc cidr).
Proof.
  intros self w H. unfold AwsSubnet. cbn [self_of world_of fst snd].
  apply (I_blind self w); [reflexivity | cbn; lia | exact H].
Qed.

Lemma stable_Subnet_Create (s : Subnet) :
  (forall s' ok, accepts I (EvSubnetCreate s' ok)) -> stable I (Subnet_Create env s).
Proof.
  intros Hacc self w H. unfold Subnet_Create.
  destruct (subnet_Create env s (prov w)) as [[e | id] p];
    cbn [self_of world_of fst snd].
  - apply (I_blind self (emit (EvSubnetCreate s false) w));
      [reflexivity | apply Nat.le_refl | now apply Hacc].
  - match goal with |- I _ (with_prov _ (emit ?e _)) =>
      apply (I_blind self (emit e w)); [reflexivity | apply Nat.le_refl | now apply Hacc]
    end.
Qed.

Lemma stable_Subnet_Delete (s : Subnet) :
  accepts I (EvSubnetDelete s) -> stable I (Subnet_Delete env s).
Proof.
  intros Hacc self w H. unfold Subnet_Delete.
  destruct (subnet_Delete env s (prov w)) as [r p].
  assert (H' : I self (with_prov p (emit (EvSubnetDelete s) w))).
  { apply (I_blind self (emit (EvSubnetDelete s) w));
      [reflexivity | apply Nat.le_refl | now apply Hacc]. }
  destruct r; exact H'.
Qed.

End StablePrimitives.

(** ** The events of setting up the network *)

Ltac stable_steps :=
  repeat first
    [ progress cbv zeta
    | match goal with
      | |- stable _ (ret _) => apply stable_ret
      | |- stable _ (raise _) => apply stable_raise
      | |- stable _ (attr _) => apply stable_attr
      | |- stable _ (lift _) => apply stable_lift
      | |- stable _ (fun self w => lift _ self w) => apply stable_read
      | |- stable _ (bind _ _) => apply stable_bind; [| intros ?]
      | |- stable _ (for_each _ _) => apply stable_for_each; intros ?
      | |- stable _ (if ?b then _ else _) => destruct b
      end ].

Section Networking.

Context {P : Type} (env : Env P).

Lemma runs_operation_prefixed (ops : list string) (a op : string) (rest : list arg)
    (flag : bool) :
  runs_operation env ops
    (EvIssueCommand (map Some (AWS_PREFIX env) ++ Some a :: Some op :: rest) flag)
  = str_in op ops.
Proof.
  unfold runs_operation.
  change (map Some (AWS_PREFIX env)) with (argv (AWS_PREFIX env)).
  now rewrite operation_of_prefixed.
Qed.

Lemma runs_operation_app (ops : list string) (cmd extra : list arg) (flag : bool) :
  runs_operation env ops (EvIssueCommand cmd flag) = true ->
  runs_operation env ops (EvIssueCommand (cmd ++ extra) flag) = true.
Proof.
  unfold runs_operation, operation_of. intros H.
  destruct (nth_error cmd (S (length (AWS_PREFIX env)))) as [[op |] |] eqn:E;
    try discriminate.
  rewrite nth_error_app1; [now rewrite E |].
  apply nth_error_Some. now rewrite E.
Qed.

Variable I : AwsRelationalDb -> World P -> Prop.

Hypothesis I_blind : blind I.
Hypothesis I_net : ignores_network_attrs I.
Hypothesis I_zone : forall zone, stable I (_CreateSubnetInZone env zone).
Hypothesis I_zones : forall rg, accepts I (EvGetZonesInRegion rg).
Hypothesis I_setup : forall cmd flag,
  runs_operation env ["create-db-subnet-group"; "authorize-security-group-ingress"]
    (EvIssueCommand cmd flag) = true ->
  accepts I (EvIssueCommand cmd flag).

Lemma stable_assign_used (f : AwsRelationalDb -> list Subnet) :
  stable I (assign (fun self => set_subnets_used_by_db (f self) self)).
Proof. apply stable_assign. intros self w H. now apply I_net. Qed.

Lemma stable_assign_group (v : option string) :
  stable I (assign (set_db_subnet_group_name v)).
Proof. apply stable_assign. intros self w H. now apply I_net. Qed.

Lemma stable_assign_security_group (f : AwsRelationalDb -> option string) :
  stable I (assign (fun self => set_security_group_id (f self) self)).
Proof. apply stable_assign. intros self w H. now apply I_net. Qed.

Lemma stable__GetNewZones : stable I (_GetNewZones env).
Proof.
  unfold _GetNewZones. stable_steps.
  apply stable_util_GetZonesInRegion; [exact I_blind | apply I_zones].
Qed.

Lemma stable_create_in_first_zone (popped : list string) :
  stable I (create_in_first_zone env popped).
Proof.
  induction popped as [| zone rest IH]; cbn [create_in_first_zone].
  - apply stable_raise.
  - intros self w H. pose proof (I_zone zone self w H) as Hz. unfold try_except.
    destruct (_CreateSubnetInZone env zone self w) as [[[s | e |] self'] w'];
      cbn [self_of world_of fst snd] in *.
    + exact Hz.
    + now apply IH.
    + exact Hz.
Qed.

Lemma stable__CreateSubnetInAdditionalZone :
  stable I (_CreateSubnetInAdditionalZone env).
Proof.
  unfold _CreateSubnetInAdditionalZone.
  apply stable_bind; [apply stable__GetNewZones | intros zs].
  apply stable_create_in_first_zone.
Qed.

Lemma stable__CreateSubnetInAllZonesAssumeClientZoneExists :
  stable I (_CreateSubnetInAllZonesAssumeClientZoneExists env).
Proof.
  unfold _CreateSubnetInAllZonesAssumeClientZoneExists. stable_steps.
  - apply I_zone.
  - apply stable_assign_used.
Qed.

Lemma stable__CreateDbSubnetGroup (subnets : list Subnet) :
  stable I (_CreateDbSubnetGroup env subnets).
Proof.
  unfold _CreateDbSubnetGroup. stable_steps.
  - apply stable_IssueCommand; [exact I_blind |].
    apply I_setup. cbn [argv map app]. now rewrite runs_operation_prefixed.
  - apply stable_assign_group.
  - apply stable_assign_security_group.
Qed.

Lemma stable__SetupNetworking : stable I (_SetupNetworking env).
Proof.
  unfold _SetupNetworking.
  apply stable_bind; [apply stable_attr | intros eng].
  apply stable_bind.
  { destruct (str_in eng (_RDS_ENGINES env)).
    - stable_steps.
      + apply stable_assign_used.
      + apply stable__CreateSubnetInAdditionalZone.
    - destruct (str_in eng (_AURORA_ENGINES env)).
      + apply stable__CreateSubnetInAllZonesAssumeClientZoneExists.
      + apply stable_raise. }
  intros _. stable_steps.
  - apply stable__CreateDbSubnetGroup.
  - apply stable_IssueCommand; [exact I_blind |].
    apply I_setup. cbn [argv map app]. now rewrite runs_operation_prefixed.
Qed.

Lemma stable__CreateDependencies : stable I (_CreateDependencies env).
Proof.
  unfold _CreateDependencies, _AssertClientAndDbInSameRegion. stable_steps.
  apply stable__SetupNetworking.
Qed.

End Networking.

(** ** The order of a life cycle *)

Section PlainInvariants.

Context {P : Type} (env : Env P).

Lemma stable_and {A} (I J : AwsRelationalDb -> World P -> Prop) (m : M P A) :
  stable I m -> stable J m -> stable (fun self w => I self w /\ J self w) m.
Proof. intros HI HJ self w [H1 H2]. split; [now apply HI | now apply HJ]. Qed.

Variable I : AwsRelationalDb -> World P -> Prop.

Hypothesis I_blind : blind I.
Hypothesis I_net : ignores_network_attrs I.
Hypothesis I_owned : ignores_owned_subnets I.
Hypothesis I_setup : forall e, is_network_setup env e = true -> accepts I e.

Lemma stable__CreateSubnetInZone_plain (zone : string) :
  stable I (_CreateSubnetInZone env zone).
Proof.
  unfold _CreateSubnetInZone. stable_steps.
  - apply stable_vpc_NextSubnetCidrBlock; [exact I_blind | now apply I_setup].
  - apply stable_AwsSubnet. exact I_blind.
  - apply stable_Subnet_Create; [exact I_blind |]. intros s' ok. now apply I_setup.
  - apply stable_assign. intros self w H. now apply I_net.
  - apply stable_assign. intros self w H. now apply I_owned.
Qed.

Lemma stable__CreateDependencies_plain : stable I (_CreateDependencies env).
Proof.
  apply stable__CreateDependencies.
  - exact I_blind.
  - exact I_net.
  - apply stable__CreateSubnetInZone_plain.
  - intros rg. now apply I_setup.
  - intros cmd flag H. apply I_setup. unfold is_network_setup. exact H.
Qed.

End PlainInvariants.

Section Extension.

Context {P : Type} (env : Env P).

Variable Q : Event -> Prop.
Variable w0 : World P.

Lemma extends_with_refl (self : AwsRelationalDb) : extends_with Q w0 self w0.
Proof. exists []. split; [now rewrite app_nil_r | constructor]. Qed.

Lemma extends_with_blind : blind (extends_with Q w0).
Proof. intros self w w' Hlog _ [evs [H1 H2]]. exists evs. now rewrite Hlog. Qed.

Lemma extends_with_net : ignores_network_attrs (extends_with Q w0).
Proof. intros self w H. repeat split; intros v; exact H. Qed.

Lemma extends_with_owned : ignores_owned_subnets (extends_with Q w0).
Proof. intros self w v H. exact H. Qed.

Lemma extends_with_accepts (e : Event) : Q e -> accepts (extends_with Q w0) e.
Proof.
  intros He self w [evs [H1 H2]]. exists (evs ++ [e]). split.
  - cbn [emit log]. rewrite H1. now rewrite app_assoc.
  - apply Forall_app. split; [exact H2 | now constructor].
Qed.

Lemma extends_with_assign (f : AwsRelationalDb -> AwsRelationalDb) :
  stable (extends_with Q w0) (assign f).
Proof. apply stable_assign. intros self w H. exact H. Qed.

End Extension.

Section Frame.

Context {P : Type} (env : Env P).

(** The network setup does not change whether the database is managed. *)
Lemma _CreateDependencies_keeps_managed (b : bool) :
  stable (fun self (_ : World P) => is_managed_db self = b) (_CreateDependencies env).
Proof.
  apply stable__CreateDependencies_plain.
  - intros self w w' _ _ H. exact H.
  - intros self w H. repeat split; intros v; exact H.
  - intros self w v H. exact H.
  - intros e _ self w H. exact H.
Qed.

(** The network setup emits network-setup events only. *)
Lemma _CreateDependencies_emits (self : AwsRelationalDb) (w : World P) :
  exists evs,
    log (world_of (_CreateDependencies env self w)) = log w ++ evs /\
    Forall (fun e => is_network_setup env e = true) evs.
Proof.
  apply (stable__CreateDependencies_plain env
           (extends_with (fun e => is_network_setup env e = true) w)).
  - apply extends_with_blind.
  - apply extends_with_net.
  - apply extends_with_owned.
  - intros e He. now apply extends_with_accepts.
  - apply extends_with_refl.
Qed.

(** The creation of the instances emits instance-creation commands only. *)
Lemma _CreateAwsSqlInstance_emits (self : AwsRelationalDb) (w : World P) :
  exists evs,
    log (world_of (_CreateAwsSqlInstance env self w)) = log w ++ evs /\
    Forall (fun e => is_instance_creation env e = true) evs.
Proof.
  set (Qc := fun e => is_instance_creation env e = true).
  assert (Hcmd : forall cmd flag, Qc (EvIssueCommand cmd flag) ->
            stable (extends_with Qc w) (IssueCommand env cmd flag)).
  { intros cmd flag H. apply stable_IssueCommand; [apply extends_with_blind |].
    now apply extends_with_accepts. }
  assert (Hst : stable (extends_with Qc w) (_CreateAwsSqlInstance env)).
  { unfold _CreateAwsSqlInstance. stable_steps;
      try apply extends_with_assign.
    - apply Hcmd. unfold Qc, is_instance_creation.
      repeat match goal with
             | |- context [if ?b then _ else _] => destruct b
             end;
      repeat match goal with
             | |- runs_operation _ _ (EvIssueCommand ((_ ++ _) ++ _) _) = true =>
                 apply runs_operation_app
             end;
      cbn [argv map app]; now rewrite runs_operation_prefixed.
    - apply Hcmd. unfold Qc, is_instance_creation.
      cbn [argv map app]. now rewrite runs_operation_prefixed.
    - apply Hcmd. unfold Qc, is_instance_creation.
      cbn [argv map app]. now rewrite runs_operation_prefixed. }
  apply Hst. apply extends_with_refl.
Qed.

End Frame.

Section LifeCycleOrder.

Context {P : Type} (env : Env P).

Lemma Subnet_Delete_eq (s : Subnet) (self : AwsRelationalDb) (w : World P) :
  Subnet_Delete env s self w
  = (match fst (subnet_Delete env s (prov w)) with
     | None => Ret tt
     | Some e => Raise e
     end, self,
     with_prov (snd (subnet_Delete env s (prov w))) (emit (EvSubnetDelete s) w)).
Proof.
  unfold Subnet_Delete. destruct (subnet_Delete env s (prov w)) as [[e |] p]; reflexivity.
Qed.

Lemma delete_subnets_loop_events (subnets : list Subnet) (self : AwsRelationalDb)
    (w : World P) :
  let run := for_each subnets (fun subnet_for_db => Subnet_Delete env subnet_for_db)
               self w in
  self_of run = self /\
  exists k, log (world_of run) = log w ++ map EvSubnetDelete (firstn k subnets).
Proof.
  cbv zeta. revert w. induction subnets as [| s subnets IH]; intros w; cbn [for_each].
  - split; [reflexivity |]. exists 0%nat. cbn. now rewrite app_nil_r.
  - unfold bind. rewrite Subnet_Delete_eq.
    destruct (fst (subnet_Delete env s (prov w))) as [e |].
    + split; [reflexivity |]. exists 1%nat. reflexivity.
    + match goal with
      | |- context [for_each subnets _ self ?w'] =>
          destruct (IH w') as [Hself [k Hk]]
      end.
      split; [exact Hself |]. exists (S k). rewrite Hk.
      cbn [firstn map log with_prov emit]. now rewrite <- app_assoc.
Qed.

(** The events of [_DeleteDependencies], whether or not a subnet's
    [Delete()] raises. *)
Lemma _DeleteDependencies_events (self : AwsRelationalDb) (w : World P) :
  is_managed_db self = true ->
  exists k pg,
    log (world_of (_DeleteDependencies env self w))
    = log w ++
      EvIssueCommand
        (delete_db_subnet_group_cmd env (region self) (db_subnet_group_name self)) false
      :: map EvSubnetDelete (firstn k (subnets_owned_by_db self)) ++ pg /\
    (pg = [] \/ pg = parameter_group_events env self).
Proof.
  intros Hm. unfold _DeleteDependencies. rewrite bind_attr, Hm.
  set (group := delete_db_subnet_group_cmd env (region self) (db_subnet_group_name self)).
  set (w1 := after_command env group false w).
  pose proof (delete_subnets_loop_events (subnets_owned_by_db self) self w1) as Hloop.
  cbv zeta in Hloop.
  assert (Hnet : _TeardownNetworking env self w
                 = for_each (subnets_owned_by_db self)
                     (fun subnet_for_db => Subnet_Delete env subnet_for_db) self w1).
  { unfold _TeardownNetworking. rewrite !bind_attr.
    erewrite bind_returns by apply IssueCommand_unchecked.
    now rewrite bind_attr. }
  unfold bind. rewrite Hnet.
  destruct (for_each (subnets_owned_by_db self) _ self w1) as [[o s] w2].
  cbn [self_of world_of fst snd] in Hloop. destruct Hloop as [-> [k Hk]].
  assert (Hw1 : log w1 = log w ++ [EvIssueCommand group false]) by apply log_after_command.
  exists k. destruct o as [[] | e |].
  - exists (parameter_group_events env self). split; [| now right].
    rewrite _TeardownParameterGroup_returns. cbn [world_of snd].
    rewrite log_after_parameter_group_delete, Hk, Hw1.
    rewrite <- !app_assoc. reflexivity.
  - exists []. split; [| now left]. cbn [world_of snd].
    rewrite Hk, Hw1, app_nil_r.
    rewrite <- !app_assoc. reflexivity.
  - exists []. split; [| now left]. cbn [world_of snd].
    rewrite Hk, Hw1, app_nil_r.
    rewrite <- !app_assoc. reflexivity.
Qed.

Lemma instance_delete_events_are_deletions (self : AwsRelationalDb) :
  Forall (fun e => is_instance_deletion env e = true) (instance_delete_events env self).
Proof.
  unfold instance_delete_events. apply Forall_app. split.
  - apply Forall_forall. intros e He. apply in_map_iff in He.
    destruct He as [id [<- _]]. unfold is_instance_deletion, delete_db_instance_cmd.
    cbn [argv map app]. now rewrite runs_operation_prefixed.
  - destruct (cluster_id self) as [c |]; constructor; [| constructor].
    unfold is_instance_deletion, delete_db_cluster_cmd.
    cbn [argv map app]. now rewrite runs_operation_prefixed.
Qed.

Lemma parameter_group_events_are_teardown (self : AwsRelationalDb) :
  Forall (fun e => is_dependency_teardown env e = true) (parameter_group_events env self).
Proof.
  unfold parameter_group_events.
  destruct (parameter_group self) as [name |]; [| constructor].
  destruct (negb (String.eqb name "")); constructor; [| constructor].
  unfold is_dependency_teardown, delete_db_parameter_group_cmd.
  cbn [argv map app]. now rewrite runs_operation_prefixed.
Qed.

Lemma operations_apart (ops ops' : list string) (e : Event) :
  (forall op, str_in op ops = true -> str_in op ops' = false) ->
  runs_operation env ops e = true -> runs_operation env ops' e = false.
Proof.
  intros Hapart. unfold runs_operation. destruct e; try discriminate.
  destruct (operation_of env cmd) as [op |]; [apply Hapart | discriminate].
Qed.

Lemma str_in_two (op a b : string) :
  str_in op [a; b] = true -> op = a \/ op = b.
Proof.
  intros H. apply str_in_In in H. destruct H as [<- | [<- | []]]; auto.
Qed.

Lemma setup_is_not_creation (e : Event) :
  is_network_setup env e = true -> is_instance_creation env e = false.
Proof.
  unfold is_network_setup, is_instance_creation.
  destruct e; try reflexivity.
  apply operations_apart. intros op H.
  destruct (str_in_two _ _ _ H) as [-> | ->]; reflexivity.
Qed.

Lemma teardown_is_not_deletion (e : Event) :
  is_dependency_teardown env e = true -> is_instance_deletion env e = false.
Proof.
  unfold is_dependency_teardown, is_instance_deletion.
  destruct e; try reflexivity.
  apply operations_apart. intros op H.
  destruct (str_in_two _ _ _ H) as [-> | ->]; reflexivity.
Qed.

End LifeCycleOrder.

(** ** Ownership of the subnets *)

Lemma created_subnets_app (evs evs' : list Event) :
  created_subnets (evs ++ evs') = created_subnets evs ++ created_subnets evs'.
Proof. apply flat_map_app. Qed.




Section Ownership.

Context {P : Type} (env : Env P).

Variable c : nat.
Variable w0 : World P.






End Ownership.

Section OwnershipInvariant.

Context {P : Type} (env : Env P).



Lemma events_since_refl (w : World P) : events_since w w = [].
Proof. apply events_since_app. now rewrite app_nil_r. Qed.


End OwnershipInvariant.



(** * Further properties of the module *)

(** ** Engines *)

Lemma dict_get_none {A : Type} (kv : list (string * A)) (key : string) :
  dict_get kv key = None <-> ~ In key (map fst kv).
Proof.
  induction kv as [| [k v] kv IH]; cbn [dict_get map fst In].
  - split; [intros _ [] | reflexivity].
  - destruct (dict_get kv key) as [v' |] eqn:E.
    + split; [discriminate |]. intros H. exfalso.
      assert (Hn : ~ In key (map fst kv)) by tauto.
      apply IH in Hn. discriminate Hn.
    + destruct (String.eqb_spec k key) as [-> | Hne].
      * split; [discriminate | tauto].
      * split; [| reflexivity]. intros _ [H | H]; [contradiction |].
        now apply IH in H.
Qed.

Lemma dict_get_some {A : Type} (kv : list (string * A)) (key : string) (v : A) :
  dict_get kv key = Some v -> In (key, v) kv.
Proof.
  induction kv as [| [k a] kv IH]; cbn [dict_get]; [discriminate |].
  destruct (dict_get kv key) as [v' |].
  - intros H. injection H as ->. right. now apply IH.
  - destruct (String.eqb_spec k key) as [-> | Hne]; [| discriminate].
    intros H. injection H as ->. now left.
Qed.

Section Engines.

Context {P : Type} (env : Env P).

(** X1.  [GetDefaultEngineVersion] answers for the eight engines of
    [_MAP_ENGINE_TO_DEFAULT_VERSION] with a version the table pairs with the
    engine, and for every other name raises [Exception] with a message that
    names the engine. *)
Theorem GetDefaultEngineVersion_table (e : string) :
  (forall v, GetDefaultEngineVersion env e = inr v ->
     In (e, v) (_MAP_ENGINE_TO_DEFAULT_VERSION env)) /\
  (In e (map fst (_MAP_ENGINE_TO_DEFAULT_VERSION env)) ->
     exists v, GetDefaultEngineVersion env e = inr v) /\
  (~ In e (map fst (_MAP_ENGINE_TO_DEFAULT_VERSION env)) ->
     GetDefaultEngineVersion env e
     = inl (Exception ("Unspecified default version for " +++ e))).
Proof.
  unfold GetDefaultEngineVersion. split; [| split].
  - intros v H.
    destruct (dict_get (_MAP_ENGINE_TO_DEFAULT_VERSION env) e) as [v' |] eqn:E;
      [| discriminate].
    injection H as ->. now apply dict_get_some.
  - intros Hin.
    destruct (dict_get (_MAP_ENGINE_TO_DEFAULT_VERSION env) e) as [v' |] eqn:E.
    + now exists v'.
    + apply dict_get_none in E. contradiction.
  - intros Hnot. apply dict_get_none in Hnot. now rewrite Hnot.
Qed.

(** X2.  For an engine that is neither an RDS engine nor an Aurora engine,
    [_SetupNetworking], [_CreateAwsSqlInstance] and [_FailoverHA] raise
    [Exception] with a message that names the engine, and nothing has
    happened: no event, no attribute assigned. *)
Theorem unknown_engine_raises_at_once (self : AwsRelationalDb) (w : World P) :
  ~ In (engine (spec self)) (_RDS_ENGINES env) ->
  ~ In (engine (spec self)) (_AURORA_ENGINES env) ->
  _SetupNetworking env self w
  = (Raise (Exception ("Unknown how to create network for " +++ engine (spec self))),
     self, w) /\
  _CreateAwsSqlInstance env self w
  = (Raise (Exception ("Unknown how to create AWS data base engine "
                       +++ engine (spec self))), self, w) /\
  _FailoverHA env self w
  = (Raise (Exception ("Unknown how to failover " +++ engine (spec self))), self, w).
Proof.
  intros Hrds Haurora.
  apply str_in_not_In in Hrds. apply str_in_not_In in Haurora.
  split; [| split].
  - unfold _SetupNetworking. rewrite bind_attr, Hrds, Haurora. reflexivity.
  - unfold _CreateAwsSqlInstance. rewrite !bind_attr, Hrds, Haurora. reflexivity.
  - unfold _FailoverHA. rewrite !bind_attr, Hrds, Haurora. reflexivity.
Qed.

(** X3.  [_CreateDependencies] of a managed database whose client machine is
    in another region raises [AwsRelationalDbCrossRegionError] before any
    network is set up: no event, no attribute assigned.  For an unmanaged
    database it does nothing at all. *)
Theorem _CreateDependencies_guards (self : AwsRelationalDb) (w : World P) :
  (is_managed_db self = true ->
   vm_region (client_vm self) <> region self ->
   _CreateDependencies env self w
   = (Raise (AwsRelationalDbCrossRegionError
        "client_vm and relational_db server must be in the same region"), self, w)) /\
  (is_managed_db self = false ->
   _CreateDependencies env self w = (Ret tt, self, w)).
Proof.
  split.
  - intros Hm Hregion. unfold _CreateDependencies, _AssertClientAndDbInSameRegion.
    rewrite bind_attr, Hm. apply bind_raises. rewrite !bind_attr.
    apply String.eqb_neq in Hregion. now rewrite Hregion.
  - intros Hm. unfold _CreateDependencies. now rewrite bind_attr, Hm.
Qed.

(** X4.  For an Aurora engine [_CreateAwsSqlInstance] checks the number of
    zones against the high-availability flag first: when "more than one
    zone" and the flag differ it raises [Exception], and neither a cluster
    identifier nor an instance identifier has been recorded, nor any command
    issued. *)
Theorem _CreateAwsSqlInstance_zone_count_mismatch (self : AwsRelationalDb)
    (w : World P) :
  ~ In (engine (spec self)) (_RDS_ENGINES env) ->
  In (engine (spec self)) (_AURORA_ENGINES env) ->
  (1 <? length (zones self))%nat <> high_availability (spec self) ->
  exists msg,
    _CreateAwsSqlInstance env self w = (Raise (Exception msg), self, w).
Proof.
  intros Hrds Haurora Hne.
  apply str_in_not_In in Hrds. apply str_in_In in Haurora.
  unfold _CreateAwsSqlInstance. rewrite !bind_attr, Hrds, Haurora, bind_attr.
  assert (Hb : Bool.eqb (1 <? length (zones self))%nat (high_availability (spec self))
               = false).
  { destruct (Bool.eqb _ _) eqn:E; [| reflexivity].
    apply Bool.eqb_prop in E. contradiction. }
  rewrite Hb. cbn [negb]. eexists. reflexivity.
Qed.

(** X5.  [_FailoverHA] of a cluster with fewer than two recorded instances
    raises [IndexError] before any command is issued; for an RDS engine it
    issues one [reboot-db-instance] command with [--force-failover] for the
    instance and changes no attribute. *)
Theorem _FailoverHA_other_cases (self : AwsRelationalDb) (w : World P) :
  (~ In (engine (spec self)) (_RDS_ENGINES env) ->
   In (engine (spec self)) (_AURORA_ENGINES env) ->
   (length (all_instance_ids self) < 2)%nat ->
   _FailoverHA env self w = (Raise IndexError, self, w)) /\
  (In (engine (spec self)) (_RDS_ENGINES env) ->
   let cmd := argv (AWS_PREFIX env) ++
              argv [ "rds"; "reboot-db-instance";
                     "--db-instance-identifier=" +++ instance_id self;
                     "--force-failover";
                     "--region=" +++ region self ] in
   self_of (_FailoverHA env self w) = self /\
   events_since w (world_of (_FailoverHA env self w)) = [EvIssueCommand cmd true] /\
   (outcome_of (_FailoverHA env self w) = Ret tt <-> retcode (reply_to env cmd w) = 0)).
Proof.
  split.
  - intros Hrds Haurora Hlen.
    apply str_in_not_In in Hrds. apply str_in_In in Haurora.
    unfold _FailoverHA. rewrite !bind_attr, Hrds, Haurora, bind_attr.
    destruct (all_instance_ids self) as [| id0 [| id1 rest]]; cbn in Hlen; try lia;
      reflexivity.
  - intros Hrds cmd. apply str_in_In in Hrds.
    assert (Hrun : _FailoverHA env self w
      = (if Z.eqb (retcode (reply_to env cmd w)) 0 then Ret tt
         else Raise (IssueCommandError (stderr (reply_to env cmd w))),
         self, after_command env cmd true w)).
    { unfold _FailoverHA. rewrite !bind_attr, Hrds.
      unfold bind. rewrite IssueCommand_checked. unfold cmd.
      destruct (Z.eqb (retcode (reply_to env _ w)) 0); reflexivity. }
    rewrite Hrun. cbn [self_of world_of outcome_of fst snd].
    split; [reflexivity |]. split; [apply events_since_app, log_after_command |].
    destruct (Z.eqb_spec (retcode (reply_to env cmd w)) 0); split; intros H;
      try reflexivity; try assumption; try discriminate; contradiction.
Qed.

End Engines.

(** ** Creation of the instances *)

Section InstanceCreation.

Context {P : Type} (env : Env P).

(** X6.  For an RDS engine [_CreateAwsSqlInstance] records the instance
    identifier before it issues the one [create-db-instance] command, so the
    identifier is recorded whether the command succeeds or fails, and a
    [_Delete] that follows asks for the deletion of that instance. *)
Theorem _CreateAwsSqlInstance_records_first (self : AwsRelationalDb) (w : World P) :
  In (engine (spec self)) (_RDS_ENGINES env) ->
  let run := _CreateAwsSqlInstance env self w in
  all_instance_ids (self_of run) = all_instance_ids self ++ [instance_id self] /\
  (exists cmd,
     events_since w (world_of run) = [EvIssueCommand cmd true] /\
     is_instance_creation env (EvIssueCommand cmd true) = true /\
     (outcome_of run = Ret tt <-> retcode (reply_to env cmd w) = 0)) /\
  (is_managed_db self = true ->
   forall w',
     In (EvIssueCommand
           (delete_db_instance_cmd env (region self) (instance_id self)) false)
        (events_since w' (world_of (_Delete env (self_of run) w')))).
Proof.
  intros Hrds run.
  pose proof Hrds as Hin. apply str_in_In in Hrds.
  assert (Hrun : exists cmd,
    run = (if Z.eqb (retcode (reply_to env cmd w)) 0 then Ret tt
           else Raise (IssueCommandError (stderr (reply_to env cmd w))),
           set_all_instance_ids (all_instance_ids self ++ [instance_id self]) self,
           after_command env cmd true w) /\
    is_instance_creation env (EvIssueCommand cmd true) = true).
  { unfold run, _CreateAwsSqlInstance. rewrite !bind_attr, Hrds.
    rewrite bind_attr, bind_assign, !bind_attr. cbv zeta.
    match goal with
    | |- context [IssueCommand env ?c true] => exists c
    end.
    split.
    - unfold bind. rewrite IssueCommand_checked.
      destruct (Z.eqb (retcode (reply_to env _ w)) 0); reflexivity.
    - unfold is_instance_creation.
      repeat match goal with
             | |- context [if ?b then _ else _] => destruct b
             end;
      repeat match goal with
             | |- runs_operation _ _ (EvIssueCommand ((_ ++ _) ++ _) _) = true =>
                 apply runs_operation_app
             end;
      unfold argv; cbn [map app]; now rewrite runs_operation_prefixed. }
  destruct Hrun as [cmd [Hrun Hop]]. rewrite Hrun.
  cbn [self_of world_of outcome_of fst snd].
  split; [reflexivity |]. split.
  - exists cmd. split; [apply events_since_app, log_after_command |].
    split; [exact Hop |].
    destruct (Z.eqb_spec (retcode (reply_to env cmd w)) 0); split; intros H;
      try reflexivity; try assumption; try discriminate; contradiction.
  - intros Hm w'. rewrite events_of__Delete by exact Hm.
    unfold instance_delete_events. apply in_or_app. left.
    cbn [all_instance_ids set_all_instance_ids region].
    rewrite map_app. apply in_or_app. right. now left.
Qed.

(** The identifiers a loop over zones records: at every zone the identifier
    is appended before the command is issued. *)
Lemma record_instances_loop (name : string -> string -> string)
    (body : string -> M P unit) (zs : list string) (self : AwsRelationalDb)
    (w : World P) :
  (forall zone self w,
     self_of (body zone self w)
     = set_all_instance_ids
         (all_instance_ids self ++ [name (instance_id self) zone]) self /\
     outcome_of (body zone self w) <> OutOfFuel) ->
  let run := for_each zs body self w in
  cluster_id (self_of run) = cluster_id self /\
  exists k,
    all_instance_ids (self_of run)
    = all_instance_ids self ++ firstn k (map (name (instance_id self)) zs) /\
    (outcome_of run = Ret tt -> k = length zs).
Proof.
  intros Hbody. cbv zeta. revert self w.
  induction zs as [| zone zs IH]; intros self w; cbn [for_each].
  - split; [reflexivity |]. exists 0%nat. cbn. now rewrite app_nil_r.
  - destruct (Hbody zone self w) as [Hself Hout]. unfold bind.
    destruct (body zone self w) as [[[[] | e |] self'] w'];
      cbn [self_of outcome_of fst snd] in *.
    + destruct (IH self' w') as [Hc [k [Hk Hlen]]]. subst self'.
      split; [exact Hc |]. exists (S k). split.
      * rewrite Hk.
        cbn [all_instance_ids instance_id set_all_instance_ids map firstn].
        now rewrite <- app_assoc.
      * intros H. cbn [length]. now rewrite (Hlen H).
    + subst self'. split; [reflexivity |]. exists 1%nat. split.
      * reflexivity.
      * discriminate.
    + contradiction.
Qed.

(** X7.  For an Aurora engine whose zone count agrees with the
    high-availability flag: when [spec.zones] is a list that is not empty,
    [_CreateAwsSqlInstance] records the cluster identifier before it issues
    [create-db-cluster], and then one instance identifier per zone, each
    before its [create-db-instance] command: the writer's identifier for the
    first zone and the identifier suffixed with the zone for the others;
    whatever fails, what is recorded is a prefix of these identifiers, and
    all of them when the method returns.  When [spec.zones] is [None] or
    empty, [self.spec.zones[0]] raises [TypeError] or [IndexError] before the
    cluster identifier is assigned: nothing is recorded and no command is
    issued. *)
Theorem _CreateAwsSqlInstance_cluster_identifiers (self : AwsRelationalDb)
    (w : World P) :
  ~ In (engine (spec self)) (_RDS_ENGINES env) ->
  In (engine (spec self)) (_AURORA_ENGINES env) ->
  (1 <? length (zones self))%nat = high_availability (spec self) ->
  let run := _CreateAwsSqlInstance env self w in
  let ids := aurora_instance_ids (instance_id self) (zones self) in
  match spec_zones (spec self) with
  | Some (_ :: _) =>
      cluster_id (self_of run) = Some ("pkb-db-cluster-" +++ run_uri env) /\
      (exists k,
         all_instance_ids (self_of run) = all_instance_ids self ++ firstn k ids) /\
      (outcome_of run = Ret tt ->
       all_instance_ids (self_of run) = all_instance_ids self ++ ids)
  | Some [] => run = (Raise IndexError, self, w)
  | None => run = (Raise TypeError, self, w)
  end.
Proof.
  intros Hrds Haurora Hha run ids.
  apply str_in_not_In in Hrds. apply str_in_In in Haurora.
  unfold run, _CreateAwsSqlInstance.
  rewrite !bind_attr, Hrds, Haurora, bind_attr, Hha, Bool.eqb_reflx.
  cbn [negb]. rewrite !bind_attr.
  destruct (spec_zones (spec self)) as [[| z zs] |] eqn:Hzones;
    [reflexivity | | reflexivity].
  cbn [lift]. rewrite bind_ret, bind_assign.
  unfold bind. rewrite IssueCommand_checked.
  destruct (Z.eqb (retcode (reply_to env _ w)) 0).
  - match goal with
    | |- context [for_each (zones self) ?b ?s ?w'] =>
        pose proof (record_instances_loop
          (fun base zone => if String.eqb zone (hd "" (zones self))
                            then base else base +++ "-" +++ zone)
          b (zones self) s w') as Hloop
    end.
    cbv zeta in Hloop. destruct Hloop as [Hc [k [Hk Hlen]]].
    { intros zone self' w'. cbn [attr assign]. rewrite IssueCommand_checked.
      destruct (Z.eqb (retcode (reply_to env _ w')) 0);
        cbn [self_of outcome_of fst snd]; split; try reflexivity; discriminate. }
    cbn [cluster_id set_cluster_id all_instance_ids instance_id] in Hc, Hk.
    split; [exact Hc |]. split.
    + exists k. exact Hk.
    + intros Hret. rewrite Hk, (Hlen Hret).
      unfold ids, aurora_instance_ids.
      now rewrite <- (length_map
        (fun zone => if String.eqb zone (hd "" (zones self))
                     then instance_id self
                     else instance_id self +++ "-" +++ zone) (zones self)), firstn_all.
  - cbn [self_of outcome_of fst snd cluster_id set_cluster_id all_instance_ids].
    split; [reflexivity |]. split; [exists 0%nat; cbn; now rewrite app_nil_r |].
    discriminate.
Qed.

End InstanceCreation.

(** ** An unmanaged database *)

Section Unmanaged.

Context {P : Type} (env : Env P).

Lemma bind_read_returns {A B} (f : AwsRelationalDb -> Exn + A) (k : A -> M P B)
    (self : AwsRelationalDb) (w : World P) (a : A) :
  f self = inr a ->
  (x <- (fun self w => lift (f self) self w) ;; k x) self w = k a self w.
Proof. intros H. unfold bind. now rewrite H. Qed.

(** X8.  The life of an unmanaged database whose engine has a default port,
    when the collaborators return: [_Create] sets the database up on its
    machine and then opens that one port, as a range of one, for the
    address of the client machine only; [_Exists] then answers [True]
    without a query; after [_Delete] it answers [False]. *)
Theorem unmanaged_create_exists_delete (self : AwsRelationalDb) (w w' w'' : World P)
    (p : Z) :
  is_managed_db self = false ->
  GetDefaultPort env self = inr p ->
  (forall c s, fst (external env c s) = None) ->
  let created := _Create env self w in
  let deleted := _Delete env (self_of created) w' in
  outcome_of created = Ret tt /\
  events_since w (world_of created)
  = [ EvExternal SetupUnmanagedDatabase;
      EvExternal (AllowPortInSecurityGroup (vm_region (server_vm self))
                    (vpc_default_security_group_id (server_vm self)) p p
                    [vm_ip_address (client_vm self) +++ "/32"]) ] /\
  endpoint (self_of created) = JStr (vm_ip_address (server_vm self)) /\
  _Exists env (self_of created) w' = (Ret (JBool true), self_of created, w') /\
  outcome_of deleted = Ret tt /\
  _Exists env (self_of deleted) w'' = (Ret (JBool false), self_of deleted, w'').
Proof.
  intros Hm Hport Hext created deleted.
  assert (Hcreated : created
    = (Ret tt,
       set_unmanaged_db_exists (Some true)
         (set_firewall true
            (set_endpoint (JStr (vm_ip_address (server_vm self))) self)),
       after_call env
         (AllowPortInSecurityGroup (vm_region (server_vm self))
            (vpc_default_security_group_id (server_vm self)) p p
            [vm_ip_address (client_vm self) +++ "/32"])
         (after_call env SetupUnmanagedDatabase w))).
  { unfold created, _Create. rewrite bind_attr, Hm, bind_assign.
    erewrite bind_returns by (apply call_returns, Hext).
    rewrite bind_assign, !bind_attr.
    assert (Hport' : GetDefaultPort env
              (set_firewall true
                 (set_endpoint (JStr (vm_ip_address (server_vm self))) self)) = inr p)
      by exact Hport.
    rewrite (bind_read_returns _ _ _ _ _ Hport'), (bind_read_returns _ _ _ _ _ Hport').
    erewrite bind_returns by (apply call_returns, Hext).
    reflexivity. }
  assert (Hdeleted : deleted
    = (Ret tt, set_unmanaged_db_exists (Some false) (self_of created),
       after_call env PrintUnmanagedDbStats (after_call env DisallowAllPorts w'))).
  { unfold deleted. rewrite Hcreated. cbn [self_of fst snd].
    rewrite _Delete_unmanaged; [reflexivity | exact Hm | |]; intros s; apply Hext. }
  rewrite Hdeleted. rewrite Hcreated. cbn [self_of world_of outcome_of fst snd].
  repeat split.
  - apply events_since_app. unfold after_call. cbn [log with_prov emit].
    now rewrite <- app_assoc.
  - unfold _Exists. rewrite bind_attr.
    cbn [is_managed_db set_unmanaged_db_exists set_firewall set_endpoint].
    now rewrite Hm.
  - unfold _Exists. rewrite bind_attr.
    cbn [is_managed_db set_unmanaged_db_exists set_firewall set_endpoint].
    now rewrite Hm.
Qed.

End Unmanaged.

(** ** Reading the endpoint and the zones *)

Section Endpoints.

Context {P : Type} (env : Env P).

(** X9.  A description that is [None] has no port, and that is not an
    error; but it has no endpoint either, and that is one:
    [_GetPortsForWriterInstance] of an instance the provider cannot describe
    raises [TypeError], with neither the endpoint nor the port assigned. *)
Theorem _GetPortsForWriterInstance_not_described (self : AwsRelationalDb)
    (w : World P) (id : string) :
  let describe := describe_db_instances_cmd env (region self) id in
  retcode (reply_to env describe w) <> 0 ->
  _ParsePortFromInstance env JNull = inr None /\
  _ParseEndpointFromInstance JNull = inl TypeError /\
  _GetPortsForWriterInstance env id self w
  = (Raise TypeError, self, after_command env describe false w).
Proof.
  intros describe Hcode. split; [reflexivity |]. split; [reflexivity |].
  unfold _GetPortsForWriterInstance.
  pose proof (_DescribeInstance_eq env id self w) as Hrun.
  unfold description_of in Hrun. fold describe in Hrun.
  apply Z.eqb_neq in Hcode. rewrite Hcode in Hrun. cbn [negb] in Hrun.
  erewrite bind_returns by exact Hrun. reflexivity.
Qed.

(** X10.  For an Aurora engine [_SavePrimaryAndSecondaryZones] does not look
    at the description: the primary zone is the first zone of the database,
    the secondary zone the other zones joined by commas, left as it was when
    there is one zone only; with no zone at all it raises [IndexError].  The
    world is untouched. *)
Theorem _SavePrimaryAndSecondaryZones_aurora (self : AwsRelationalDb) (w : World P)
    (json : Json) :
  In (engine (spec self)) (_AURORA_ENGINES env) ->
  let run := _SavePrimaryAndSecondaryZones env json self w in
  world_of run = w /\
  match zones self with
  | [] => outcome_of run = Raise IndexError /\ self_of run = self
  | [z] =>
      outcome_of run = Ret tt /\ self_of run = set_primary_zone (JStr z) self
  | z :: rest =>
      outcome_of run = Ret tt /\
      self_of run
      = set_secondary_zone (JStr (String.concat "," rest))
          (set_primary_zone (JStr z) self)
  end.
Proof.
  intros Haurora run. apply str_in_In in Haurora.
  unfold run, _SavePrimaryAndSecondaryZones. rewrite !bind_attr, Haurora.
  destruct (zones self) as [| z [| z' rest]]; cbn; repeat split.
Qed.

(** X11.  For the other engines the primary zone is read from the
    description.  With high availability, when the description names no
    secondary zone, the secondary zone is the zone of the second subnet the
    database uses; when fewer than two subnets are used [IndexError] is
    raised, the primary zone already assigned. *)
Theorem _SavePrimaryAndSecondaryZones_fallback (self : AwsRelationalDb) (w : World P)
    (json db_instance zone : Json) (e : Exn) :
  ~ In (engine (spec self)) (_AURORA_ENGINES env) ->
  high_availability (spec self) = true ->
  and_then (getitem json "DBInstances") getitem0 = inr db_instance ->
  getitem db_instance "AvailabilityZone" = inr zone ->
  getitem db_instance "SecondaryAvailabilityZone" = inl e ->
  _SavePrimaryAndSecondaryZones env json self w
  = match nth_error (subnets_used_by_db self) 1 with
    | Some second =>
        (Ret tt,
         set_secondary_zone (JStr (subnet_zone second)) (set_primary_zone zone self), w)
    | None => (Raise IndexError, set_primary_zone zone self, w)
    end.
Proof.
  intros Haurora Hha Hdb Hzone Hsecond. apply str_in_not_In in Haurora.
  unfold _SavePrimaryAndSecondaryZones.
  rewrite !bind_attr, Haurora, Hdb. cbn [lift]. rewrite bind_ret, Hzone.
  cbn [lift]. rewrite bind_ret, bind_assign, Hha, Hsecond, bind_attr.
  cbn [subnets_used_by_db set_primary_zone].
  destruct (nth_error (subnets_used_by_db self) 1); reflexivity.
Qed.

End Endpoints.

(** ** Teardown that is cut short *)

Section TeardownCutShort.

Context {P : Type} (env : Env P).

(** X12.  [_TeardownNetworking] does not catch what a subnet's [Delete()]
    raises.  When the [Delete()] of the first owned subnet raises,
    [_DeleteDependencies] raises the same exception: the other owned subnets
    are not deleted and the deletion of the parameter group is not asked
    for. *)
Theorem _DeleteDependencies_stops_at_raising_subnet (self : AwsRelationalDb)
    (w : World P) (s : Subnet) (rest : list Subnet) (e : Exn) :
  is_managed_db self = true ->
  subnets_owned_by_db self = s :: rest ->
  let group := delete_db_subnet_group_cmd env (region self) (db_subnet_group_name self) in
  fst (subnet_Delete env s (prov (after_command env group false w))) = Some e ->
  let run := _DeleteDependencies env self w in
  outcome_of run = Raise e /\
  events_since w (world_of run) = [EvIssueCommand group false; EvSubnetDelete s].
Proof.
  intros Hm Howned group Hraise run.
  assert (Hrun : run
    = (Raise e, self,
       with_prov (snd (subnet_Delete env s (prov (after_command env group false w))))
         (emit (EvSubnetDelete s) (after_command env group false w)))).
  { unfold run, _DeleteDependencies. rewrite bind_attr, Hm.
    apply bind_raises. unfold _TeardownNetworking. rewrite !bind_attr.
    erewrite bind_returns by apply IssueCommand_unchecked.
    rewrite bind_attr, Howned. cbn [for_each].
    apply bind_raises. rewrite Subnet_Delete_eq.
    change (after_command env _ false w) with (after_command env group false w).
    now rewrite Hraise. }
  rewrite Hrun. cbn [outcome_of world_of fst snd]. split; [reflexivity |].
  apply events_since_app. cbn [log with_prov emit].
  rewrite log_after_command. now rewrite <- app_assoc.
Qed.

End TeardownCutShort.

(** ** Status checks change nothing *)

Section ReadOnly.

Context {P : Type} (env : Env P).

Variable self0 : AwsRelationalDb.
Variable w0 : World P.

Lemma only_polled_blind : blind (only_polled env self0 w0).
Proof.
  intros self w w' Hlog Hobj [Hself Hext]. split; [exact Hself |].
  now apply (extends_with_blind _ w0 self w w' Hlog Hobj).
Qed.

Lemma only_polled_accepts (e : Event) :
  is_poll_event env e = true -> accepts (only_polled env self0 w0) e.
Proof.
  intros He self w [Hself Hext]. split; [exact Hself |].
  now apply extends_with_accepts.
Qed.

Lemma only_polled__DescribeInstance (id : string) :
  stable (only_polled env self0 w0) (_DescribeInstance env id).
Proof.
  unfold _DescribeInstance. stable_steps.
  - apply stable_IssueCommand; [apply only_polled_blind |].
    apply only_polled_accepts. unfold is_poll_event, is_status_query.
    unfold argv. cbn [map app]. now rewrite runs_operation_prefixed.
  - destruct (json_loads env (stdout a0)); [apply stable_ret | apply stable_raise].
Qed.

Lemma only_polled_time_sleep (seconds : Z) :
  stable (only_polled env self0 w0) (time_sleep seconds).
Proof.
  intros self w H. unfold time_sleep. cbn [self_of world_of fst snd].
  apply (only_polled_blind self (emit (EvSleep seconds) w));
    [reflexivity | apply Nat.le_refl |].
  now apply only_polled_accepts.
Qed.

Lemma only_polled_datetime_now : stable (only_polled env self0 w0) (@datetime_now P).
Proof. intros self w H. exact H. Qed.

Lemma only_polled_poll_instance (fuel : nat) (id : string) (timeout start_time : Z) :
  stable (only_polled env self0 w0) (poll_instance env fuel id timeout start_time).
Proof.
  induction fuel as [| fuel IH]; cbn [poll_instance].
  - intros self w H. exact H.
  - apply stable_bind; [apply only_polled_datetime_now | intros t].
    destruct (timedelta_seconds (t - start_time) >=? timeout); [apply stable_ret |].
    apply stable_bind; [apply only_polled__DescribeInstance | intros json].
    destruct (truthy json).
    + destruct (instance_is_available json) as [e | [|]].
      * apply stable_ret.
      * apply stable_ret.
      * apply stable_bind; [apply only_polled_time_sleep | intros _; exact IH].
    + apply stable_bind; [apply only_polled_time_sleep | intros _; exact IH].
Qed.

Lemma only_polled__IsInstanceReady (fuel : nat) (id : string) (timeout : Z) :
  stable (only_polled env self0 w0) (_IsInstanceReady env fuel id timeout).
Proof.
  unfold _IsInstanceReady.
  apply stable_bind; [apply only_polled_datetime_now | intros t].
  apply only_polled_poll_instance.
Qed.

Lemma only_polled_all_described (ids : list string) :
  stable (only_polled env self0 w0) (all_described env ids).
Proof.
  induction ids as [| id ids IH]; cbn [all_described]; [apply stable_ret |].
  apply stable_bind; [apply only_polled__DescribeInstance | intros json].
  destruct (negb (truthy json)); [apply stable_ret | exact IH].
Qed.

Lemma only_polled_all_ready (fuel : nat) (ids : list string) (timeout : Z) :
  stable (only_polled env self0 w0) (all_ready env fuel ids timeout).
Proof.
  induction ids as [| id ids IH]; cbn [all_ready]; [apply stable_ret |].
  apply stable_bind; [apply only_polled__IsInstanceReady | intros ready].
  destruct (negb ready); [apply stable_ret | exact IH].
Qed.

Lemma only_polled_any_deleting (ids : list string) :
  stable (only_polled env self0 w0) (any_deleting env ids).
Proof.
  induction ids as [| id ids IH]; cbn [any_deleting]; [apply stable_ret |].
  apply stable_bind; [apply only_polled__DescribeInstance | intros json].
  destruct (truthy json); [| exact IH].
  apply stable_bind; [apply stable_lift | intros state].
  destruct (json_eq_str state "deleting"); [apply stable_ret | exact IH].
Qed.

End ReadOnly.

Section ReadOnlyChecks.

Context {P : Type} (env : Env P).

Lemma only_polled_run {A} (m : M P A) (self : AwsRelationalDb) (w : World P) :
  stable (only_polled env self w) m ->
  self_of (m self w) = self /\
  Forall (fun e => is_poll_event env e = true) (events_since w (world_of (m self w))).
Proof.
  intros Hst.
  destruct (Hst self w) as [Hself [evs [Hlog Hevs]]].
  { split; [reflexivity | apply extends_with_refl]. }
  split; [exact Hself |]. now rewrite (events_since_app _ _ _ Hlog).
Qed.

(** X13.  The status checks change no attribute of the object, and all
    they do in the world is ask for descriptions of instances and sleep:
    [_Exists], [_IsDeleting], [_IsInstanceReady], and [_IsReady] of a managed
    database, whatever they answer and also when they raise or run out of
    time. *)
Theorem status_checks_change_nothing (self : AwsRelationalDb) (w : World P)
    (fuel : nat) (id : string) (timeout : Z) :
  let polled (self' : AwsRelationalDb) (w' : World P) :=
    self' = self /\
    Forall (fun e => is_poll_event env e = true) (events_since w w') in
  polled (self_of (_Exists env self w)) (world_of (_Exists env self w)) /\
  polled (self_of (_IsDeleting env self w)) (world_of (_IsDeleting env self w)) /\
  polled (self_of (_IsInstanceReady env fuel id timeout self w))
         (world_of (_IsInstanceReady env fuel id timeout self w)) /\
  (is_managed_db self = true ->
   polled (self_of (_IsReady env fuel timeout self w))
          (world_of (_IsReady env fuel timeout self w))).
Proof.
  cbv zeta. split; [| split; [| split]].
  - apply only_polled_run. unfold _Exists. stable_steps.
    apply only_polled_all_described.
  - apply only_polled_run. unfold _IsDeleting. stable_steps.
    apply only_polled_any_deleting.
  - apply only_polled_run. apply only_polled__IsInstanceReady.
  - intros Hm. unfold _IsReady. rewrite bind_attr, Hm. cbn [negb].
    rewrite bind_attr.
    destruct (all_instance_ids self) as [| i ids] eqn:E.
    + cbn [ret self_of world_of fst snd]. split; [reflexivity |].
      rewrite events_since_refl. constructor.
    + apply only_polled_run. apply only_polled_all_ready.
Qed.

End ReadOnlyChecks.

(** ** Deletion in progress *)

Section Deleting.

Context {P : Type} (env : Env P).

Lemma none_deleting_cons (rg id : string) (ids : list string) (w : World P) :
  none_deleting env rg (id :: ids) w <->
  passed_over env (reply_to env (describe_db_instances_cmd env rg id) w) /\
  none_deleting env rg ids
    (after_command env (describe_db_instances_cmd env rg id) false w).
Proof.
  unfold none_deleting. split.
  - intros H. split.
    + apply (H 0%nat id). reflexivity.
    + intros k id' Hk. apply (H (S k) id'). exact Hk.
  - intros [H0 H] [| k] id' Hk.
    + cbn in Hk. injection Hk as <-. exact H0.
    + apply (H k id'). exact Hk.
Qed.

(** An instance that is passed over leaves the loop to the next one. *)
Lemma any_deleting_passes_over (id : string) (rest : list string)
    (self : AwsRelationalDb) (w : World P) :
  passed_over env (reply_to env (describe_db_instances_cmd env (region self) id) w) ->
  any_deleting env (id :: rest) self w
  = any_deleting env rest self
      (after_command env (describe_db_instances_cmd env (region self) id) false w).
Proof.
  intros [json [Hdesc Hpass]].
  assert (Hrun : _DescribeInstance env id self w
                 = (Ret json, self,
                    after_command env (describe_db_instances_cmd env (region self) id)
                      false w)).
  { rewrite _DescribeInstance_eq. now rewrite Hdesc. }
  cbn [any_deleting]. erewrite bind_returns by exact Hrun.
  destruct Hpass as [Hempty | [state [Hstate Hother]]].
  - now rewrite Hempty.
  - destruct (truthy json); [| reflexivity].
    fold (status_of json). rewrite Hstate. cbn [lift]. now rewrite bind_ret, Hother.
Qed.

Lemma any_deleting_skips (pre rest : list string) (self : AwsRelationalDb)
    (w : World P) :
  none_deleting env (region self) pre w ->
  any_deleting env (pre ++ rest) self w
  = any_deleting env rest self (after_describes env (region self) pre w).
Proof.
  revert w. induction pre as [| id pre IH]; intros w Hnone; [reflexivity |].
  apply none_deleting_cons in Hnone. destruct Hnone as [H0 Hnone].
  cbn [app]. rewrite (any_deleting_passes_over id _ self w H0).
  now rewrite (IH _ Hnone).
Qed.

(** X14.  [_IsDeleting] asks about the recorded instances in order and
    passes over those that have no description, an empty one, or a status
    other than "deleting".  It answers [False] when it has passed over all of
    them, without a query when none is recorded, and [True] at the first
    instance whose status is "deleting", the later ones not asked about.  It
    reads the status outside any [try]: at the first instance whose
    description is not empty and does not give the status it raises what the
    reading raises, where [_IsInstanceReady] answers [False]; and it raises
    [JSONDecodeError] at the first whose output is not a JSON document. *)
Theorem _IsDeleting_cases (self : AwsRelationalDb) (w : World P) :
  let rg := region self in
  let ids := all_instance_ids self in
  (ids = [] -> _IsDeleting env self w = (Ret false, self, w)) /\
  (none_deleting env rg ids w ->
   _IsDeleting env self w = (Ret false, self, after_describes env rg ids w)) /\
  (forall pre id post,
     ids = pre ++ id :: post ->
     none_deleting env rg pre w ->
     let describe := describe_db_instances_cmd env rg id in
     let asked := after_describes env rg pre w in
     let answered := after_command env describe false asked in
     (description_of env (reply_to env describe asked) = Raise JSONDecodeError ->
      _IsDeleting env self w = (Raise JSONDecodeError, self, answered)) /\
     (forall json,
        description_of env (reply_to env describe asked) = Ret json ->
        truthy json = true ->
        (forall state,
           status_of json = inr state -> json_eq_str state "deleting" = true ->
           _IsDeleting env self w = (Ret true, self, answered)) /\
        (forall e, status_of json = inl e ->
           _IsDeleting env self w = (Raise e, self, answered)))).
Proof.
  intros rg ids.
  assert (Hrun : _IsDeleting env self w = any_deleting env ids self w).
  { unfold _IsDeleting. now rewrite bind_attr. }
  split; [| split].
  - intros Hids. now rewrite Hrun, Hids.
  - intros Hnone. rewrite Hrun.
    pose proof (any_deleting_skips ids [] self w Hnone) as Hskip.
    rewrite app_nil_r in Hskip. exact Hskip.
  - intros pre id post Hids Hnone describe asked answered.
    rewrite Hrun, Hids, (any_deleting_skips pre (id :: post) self w Hnone).
    fold asked. cbn [any_deleting].
    pose proof (_DescribeInstance_eq env id self asked) as Hd.
    fold rg describe answered in Hd.
    split.
    + intros Hdesc. rewrite Hdesc in Hd. now erewrite bind_raises by exact Hd.
    + intros json Hdesc Htruthy. rewrite Hdesc in Hd.
      erewrite bind_returns by exact Hd. rewrite Htruthy. fold (status_of json).
      split.
      * intros state Hstate Hdel. rewrite Hstate. cbn [lift].
        now rewrite bind_ret, Hdel.
      * intros e Hstate. now rewrite Hstate.
Qed.

End Deleting.

(** ** Reboot *)

Section Reboot.

Context {P : Type} (env : Env P).

Lemma triple_eta {A} (r : Outcome A * AwsRelationalDb * World P) :
  r = (outcome_of r, self_of r, world_of r).
Proof. now destruct r as [[o s] w]. Qed.

Lemma poll_event_is_no_reboot (e : Event) :
  is_poll_event env e = true -> runs_operation env ["reboot-db-instance"] e = false.
Proof.
  unfold is_poll_event, is_status_query. destruct e; try reflexivity.
  apply operations_apart. intros op H.
  destruct (str_in_two _ _ _ H) as [-> | ->]; reflexivity.
Qed.

(** X15.  [_Reboot] issues the reboot command only once the instance has
    been found ready.  When the polling before it answers [False] it raises
    and no [reboot-db-instance] command has been issued; when the command
    fails it raises without polling again; when the polling after the reboot
    answers [False] it raises; otherwise it returns.  No attribute
    changes. *)
Theorem _Reboot_cases (self : AwsRelationalDb) (w : World P) (fuel : nat) :
  let id := instance_id self in
  let before := _IsInstanceReady env fuel id IS_READY_TIMEOUT self w in
  let cmd := argv (AWS_PREFIX env) ++
             argv [ "rds"; "reboot-db-instance";
                    "--db-instance-identifier=" +++ id;
                    "--region=" +++ region self ] in
  let rebooted := after_command env cmd true (world_of before) in
  let after := _IsInstanceReady env fuel id IS_READY_TIMEOUT self rebooted in
  self_of (_Reboot env fuel self w) = self /\
  (outcome_of before = Ret false ->
   _Reboot env fuel self w
   = (Raise (Exception "Instance is not in a state that can reboot"), self,
      world_of before) /\
   existsb (runs_operation env ["reboot-db-instance"])
     (events_since w (world_of (_Reboot env fuel self w))) = false) /\
  (outcome_of before = Ret true ->
   (retcode (reply_to env cmd (world_of before)) <> 0 ->
    _Reboot env fuel self w
    = (Raise (IssueCommandError (stderr (reply_to env cmd (world_of before)))),
       self, rebooted)) /\
   (retcode (reply_to env cmd (world_of before)) = 0 ->
    (outcome_of after = Ret false ->
     _Reboot env fuel self w
     = (Raise (Exception "Instance could not be set to ready after reboot"), self,
        world_of after)) /\
    (outcome_of after = Ret true ->
     _Reboot env fuel self w = (Ret tt, self, world_of after)))).
Proof.
  intros id before cmd rebooted after.
  destruct (only_polled_run env _ self w
              (only_polled__IsInstanceReady env self w fuel id IS_READY_TIMEOUT))
    as [Hself1 Hev1].
  destruct (only_polled_run env _ self rebooted
              (only_polled__IsInstanceReady env self rebooted fuel id IS_READY_TIMEOUT))
    as [Hself2 _].
  fold before in Hself1, Hev1. fold after in Hself2.
  assert (Hb : before = (outcome_of before, self, world_of before)).
  { rewrite (triple_eta before) at 1. now rewrite Hself1. }
  assert (Ha : after = (outcome_of after, self, world_of after)).
  { rewrite (triple_eta after) at 1. now rewrite Hself2. }
  assert (Hform : _Reboot env fuel self w
    = match outcome_of before with
      | Ret false =>
          (Raise (Exception "Instance is not in a state that can reboot"), self,
           world_of before)
      | Ret true =>
          if Z.eqb (retcode (reply_to env cmd (world_of before))) 0 then
            match outcome_of after with
            | Ret false =>
                (Raise (Exception "Instance could not be set to ready after reboot"),
                 self, world_of after)
            | Ret true => (Ret tt, self, world_of after)
            | Raise e => (Raise e, self, world_of after)
            | OutOfFuel => (OutOfFuel, self, world_of after)
            end
          else
            (Raise (IssueCommandError (stderr (reply_to env cmd (world_of before)))),
             self, rebooted)
      | Raise e => (Raise e, self, world_of before)
      | OutOfFuel => (OutOfFuel, self, world_of before)
      end).
  { unfold _Reboot. rewrite !bind_attr. unfold bind.
    change (_IsInstanceReady env fuel (instance_id self) IS_READY_TIMEOUT self w)
      with before.
    rewrite Hb. cbn [outcome_of world_of fst snd].
    destruct (outcome_of before) as [[|] | e |]; try reflexivity.
    cbn [negb]. rewrite IssueCommand_checked.
    change (argv (AWS_PREFIX env) ++ _) with cmd.
    destruct (Z.eqb (retcode (reply_to env cmd (world_of before))) 0); [| reflexivity].
    change (after_command env cmd true (world_of before)) with rebooted.
    change (_IsInstanceReady env fuel (instance_id self) IS_READY_TIMEOUT self rebooted)
      with after.
    rewrite Ha. cbn [outcome_of world_of fst snd].
    destruct (outcome_of after) as [[|] | e |]; reflexivity. }
  split; [| split].
  - rewrite Hform.
    destruct (outcome_of before) as [[|] | e |]; try reflexivity.
    destruct (Z.eqb (retcode (reply_to env cmd (world_of before))) 0); [| reflexivity].
    destruct (outcome_of after) as [[|] | e |]; reflexivity.
  - intros Ho. rewrite Hform, Ho. split; [reflexivity |].
    cbn [world_of snd].
    apply Bool.not_true_is_false. intros Hex. apply existsb_exists in Hex.
    destruct Hex as [e [Hin Hop]]. rewrite Forall_forall in Hev1.
    rewrite (poll_event_is_no_reboot e (Hev1 e Hin)) in Hop. discriminate Hop.
  - intros Ho. rewrite Hform, Ho. split.
    + intros Hcode. apply Z.eqb_neq in Hcode. now rewrite Hcode.
    + intros Hcode. apply Z.eqb_eq in Hcode. rewrite Hcode.
      split; intros Hafter; now rewrite Hafter.
Qed.

End Reboot.

(** ** The zones for a new subnet *)

Lemma list_remove_perm (x : string) (l l' : list string) :
  list_remove x l = inr l' -> Permutation (x :: l') l.
Proof.
  revert l'. induction l as [| y l IH]; intros l'; cbn [list_remove]; [discriminate |].
  destruct (String.eqb_spec y x) as [-> | Hne].
  - intros H. injection H as ->. apply Permutation_refl.
  - destruct (list_remove x l) as [e | rest]; [discriminate |].
    intros H. injection H as <-.
    apply perm_trans with (y :: x :: rest); [apply perm_swap |].
    apply perm_skip. now apply IH.
Qed.

Lemma list_remove_absent (x : string) (l : list string) :
  ~ In x l <-> list_remove x l = inl ValueError.
Proof.
  induction l as [| y l IH]; cbn [list_remove In].
  - split; [reflexivity | intros _ []].
  - destruct (String.eqb_spec y x) as [-> | Hne].
    + split; [intros H; exfalso; apply H; now left | discriminate].
    + destruct (list_remove x l) as [e | rest] eqn:E.
      * split.
        -- intros H. assert (Hn : ~ In x l) by tauto. apply IH in Hn. now rewrite Hn.
        -- intros H. injection H as ->. intros [Heq | Hin]; [contradiction |].
           now apply IH in Hin.
      * split; [| discriminate]. intros H. exfalso.
        assert (Hn : ~ In x l) by tauto. apply IH in Hn. discriminate Hn.
Qed.

Lemma remove_zones_failed (zs : list string) (e : Exn) :
  fold_left (fun acc zone => and_then acc (list_remove zone)) zs (inl e) = inl e.
Proof. induction zs as [| z zs IH]; [reflexivity | exact IH]. Qed.

Lemma remove_zones_perm (zs all new : list string) :
  fold_left (fun acc zone => and_then acc (list_remove zone)) zs (inr all) = inr new ->
  Permutation (zs ++ new) all.
Proof.
  revert all. induction zs as [| z zs IH]; intros all; cbn [fold_left and_then app].
  - intros H. injection H as ->. apply Permutation_refl.
  - destruct (list_remove z all) as [e | all1] eqn:E.
    + rewrite remove_zones_failed. discriminate.
    + intros H. apply perm_trans with (z :: all1).
      * apply perm_skip. now apply IH.
      * now apply list_remove_perm.
Qed.

Lemma list_remove_error (x : string) (l : list string) (e : Exn) :
  list_remove x l = inl e -> e = ValueError.
Proof.
  induction l as [| y l IH]; cbn [list_remove].
  - intros H. now injection H.
  - destruct (String.eqb y x); [discriminate |].
    destruct (list_remove x l) as [e' | rest]; [| discriminate].
    intros H. injection H as <-. now apply IH.
Qed.

Lemma remove_zones_absent (zs all : list string) (z : string) :
  In z zs -> ~ In z all ->
  fold_left (fun acc zone => and_then acc (list_remove zone)) zs (inr all)
  = inl ValueError.
Proof.
  revert all. induction zs as [| y zs IH]; intros all Hin Hnot; [destruct Hin |].
  cbn [fold_left and_then].
  destruct (list_remove y all) as [e | all1] eqn:E.
  - rewrite remove_zones_failed. f_equal. now apply list_remove_error in E.
  - destruct Hin as [-> | Hin].
    + apply list_remove_absent in Hnot. rewrite Hnot in E. discriminate E.
    + apply IH; [exact Hin |]. intros H. apply Hnot.
      apply (Permutation_in z (list_remove_perm _ _ _ E)). now right.
Qed.

Section NewZones.

Context {P : Type} (env : Env P).

Lemma _GetNewZones_eq (self : AwsRelationalDb) (w : World P) (all : list string) :
  fst (GetZonesInRegion env (region self) (prov w)) = inr all ->
  _GetNewZones env self w
  = (match fold_left (fun acc zone => and_then acc (list_remove zone)) (zones self)
             (inr all) with
     | inr new => Ret new
     | inl e => Raise e
     end, self,
     with_prov (snd (GetZonesInRegion env (region self) (prov w)))
       (emit (EvGetZonesInRegion (region self)) w)).
Proof.
  intros Hall. unfold _GetNewZones. rewrite bind_attr.
  unfold bind at 1. unfold util_GetZonesInRegion.
  destruct (GetZonesInRegion env (region self) (prov w)) as [r p].
  cbn [fst snd] in *. subst r. rewrite bind_attr.
  destruct (fold_left _ (zones self) (inr all)); reflexivity.
Qed.

(** X16.  [_GetNewZones] takes the zones of the database out of the zones
    of the region, each once: when it returns, its result together with the
    zones of the database is a rearrangement of the region's zones; when a
    zone of the database is not among the region's zones it raises
    [ValueError].  Listing the zones is all it does. *)
Theorem _GetNewZones_takes_the_zones_out (self : AwsRelationalDb) (w : World P)
    (all : list string) :
  fst (GetZonesInRegion env (region self) (prov w)) = inr all ->
  let run := _GetNewZones env self w in
  self_of run = self /\
  events_since w (world_of run) = [EvGetZonesInRegion (region self)] /\
  (forall new, outcome_of run = Ret new -> Permutation (zones self ++ new) all) /\
  (forall z, In z (zones self) -> ~ In z all -> outcome_of run = Raise ValueError).
Proof.
  intros Hall run. unfold run. rewrite (_GetNewZones_eq self w all Hall).
  cbn [self_of world_of outcome_of fst snd].
  split; [reflexivity |]. split; [now apply events_since_app |]. split.
  - intros new H. apply remove_zones_perm.
    destruct (fold_left _ (zones self) (inr all)) as [e | new']; [discriminate |].
    now injection H as ->.
  - intros z Hin Hnot. now rewrite (remove_zones_absent _ _ z Hin Hnot).
Qed.

End NewZones.

(** ** Creating the additional subnet *)

Section AdditionalZone.

Context {P : Type} (env : Env P).

Lemma _GetNewZones_self (self : AwsRelationalDb) (w : World P) :
  self_of (_GetNewZones env self w) = self.
Proof.
  unfold _GetNewZones. rewrite bind_attr. unfold bind, util_GetZonesInRegion.
  destruct (GetZonesInRegion env (region self) (prov w)) as [[e | all] p];
    [reflexivity |].
  cbn [attr lift]. destruct (fold_left _ (zones self) (inr all)); reflexivity.
Qed.




End AdditionalZone.

(** ** Used and owned subnets *)

Section UsedAndOwned.

Context {P : Type} (env : Env P).

Variable client : Subnet.

Lemma used__CreateSubnetInZone (zone : string) :
  stable (used_is_owned_or_clients client) (_CreateSubnetInZone env zone).
Proof.
  intros self w [Hc [Hincl Hused]].
  unfold _CreateSubnetInZone, bind, vpc_NextSubnetCidrBlock.
  destruct (NextSubnetCidrBlock env (prov w)) as [[e | cidr] p].
  - repeat split; assumption.
  - cbn [attr AwsSubnet]. unfold Subnet_Create. cbn [prov with_prov emit].
    destruct (subnet_Create env _ p) as [[e | id] p'].
    + repeat split; assumption.
    + cbn [self_of fst snd assign ret]. split; [exact Hc |]. split.
      * cbn [subnets_owned_by_db subnets_used_by_db set_subnets_owned_by_db
             set_subnets_used_by_db].
        intros s Hs. apply in_app_or in Hs. apply in_or_app.
        destruct Hs as [Hs | Hs]; [left; now apply Hincl | now right].
      * cbn [subnets_owned_by_db subnets_used_by_db set_subnets_owned_by_db
             set_subnets_used_by_db].
        intros s Hs. apply in_app_or in Hs.
        destruct Hs as [Hs | Hs].
        -- destruct (Hused s Hs) as [-> | Ho]; [now left |].
           right. apply in_or_app. now left.
        -- right. apply in_or_app. now right.
Qed.

Lemma used_assign_client :
  stable (@used_is_owned_or_clients P client)
    (assign (fun self =>
       set_subnets_used_by_db
         (subnets_used_by_db self ++ [vm_subnet (client_vm self)]) self)).
Proof.
  apply stable_assign. intros self w [Hc [Hincl Hused]].
  split; [exact Hc |]. split.
  - cbn [subnets_owned_by_db subnets_used_by_db set_subnets_used_by_db].
    intros s Hs. apply in_or_app. left. now apply Hincl.
  - cbn [subnets_owned_by_db subnets_used_by_db set_subnets_used_by_db client_vm].
    intros s Hs. apply in_app_or in Hs. destruct Hs as [Hs | [<- | []]].
    + now apply Hused.
    + now left.
Qed.

Lemma used_blind : blind (@used_is_owned_or_clients P client).
Proof. intros self w w' _ _ H. exact H. Qed.

Lemma used_accepts (e : Event) :
  accepts (@used_is_owned_or_clients P client) e.
Proof. intros self w H. exact H. Qed.

Lemma used__SetupNetworking :
  stable (used_is_owned_or_clients client) (_SetupNetworking env).
Proof.
  unfold _SetupNetworking.
  apply stable_bind; [apply stable_attr | intros eng].
  apply stable_bind.
  { destruct (str_in eng (_RDS_ENGINES env)).
    - apply stable_bind; [apply used_assign_client | intros _].
      apply stable_bind; [| intros _; apply stable_ret].
      apply stable__CreateSubnetInAdditionalZone.
      + apply used_blind.
      + apply used__CreateSubnetInZone.
      + intros rg. apply used_accepts.
    - destruct (str_in eng (_AURORA_ENGINES env)); [| apply stable_raise].
      unfold _CreateSubnetInAllZonesAssumeClientZoneExists. stable_steps.
      + apply used__CreateSubnetInZone.
      + apply used_assign_client. }
  intros _. apply stable_bind; [apply stable_attr | intros used].
  apply stable_bind.
  { unfold _CreateDbSubnetGroup. stable_steps.
    - apply stable_IssueCommand; [apply used_blind | apply used_accepts].
    - apply stable_assign. intros self w H. exact H.
    - apply stable_assign. intros self w H. exact H. }
  intros _. stable_steps.
  apply stable_IssueCommand; [apply used_blind | apply used_accepts].
Qed.

Lemma used__CreateDependencies :
  stable (used_is_owned_or_clients client) (_CreateDependencies env).
Proof.
  unfold _CreateDependencies, _AssertClientAndDbInSameRegion. stable_steps.
  apply used__SetupNetworking.
Qed.

End UsedAndOwned.

Section UsedAndOwnedInvariant.

Context {P : Type} (env : Env P).

(** X18.  After [_CreateDependencies] on a new object, whether it returned
    or raised, every subnet the database owns is among the subnets it uses,
    and every subnet it uses is either the client machine's subnet or one it
    owns. *)
Theorem used_subnets_are_owned_or_the_clients (sp : Spec) (managed : bool)
    (client server : Vm) (w : World P) :
  let self1 := self_of (_CreateDependencies env
                          (__init__ env sp managed client server) w) in
  incl (subnets_owned_by_db self1) (subnets_used_by_db self1) /\
  forall s, In s (subnets_used_by_db self1) ->
            s = vm_subnet client \/ In s (subnets_owned_by_db self1).
Proof.
  intros self1.
  destruct (used__CreateDependencies env (vm_subnet client)
              (__init__ env sp managed client server) w) as [_ H].
  - split; [reflexivity |]. split; [intros s [] | intros s []].
  - exact H.
Qed.

End UsedAndOwnedInvariant.

(** ** After creation *)

Section AfterCreation.

Context {P : Type} (env : Env P).

Lemma super_PostCreate_events (self : AwsRelationalDb) (w : World P) :
  log (world_of (super_PostCreate env self w)) = log w ++ [EvBasePostCreate].
Proof.
  unfold super_PostCreate.
  destruct (base_PostCreate env self (prov w)) as [[r s] p].
  destruct r; reflexivity.
Qed.

Lemma call_events (c : ExtCall) (self : AwsRelationalDb) (w : World P) :
  self_of (call env c self w) = self /\
  log (world_of (call env c self w)) = log w ++ [EvExternal c] /\
  outcome_of (call env c self w) <> OutOfFuel.
Proof.
  unfold call. destruct (external env c (prov w)) as [r p].
  destruct r; repeat split; discriminate.
Qed.

(** X19.  [_PostCreate] of an unmanaged database, once the base class's part
    has returned: for an engine without a default port it raises
    [RelationalDbEngineNotFoundError] and installs nothing; otherwise it
    sets the port to the default port and asks for the client's packages to
    be installed, once more after the first request has returned.  It asks
    for no description and issues no command. *)
Theorem _PostCreate_unmanaged (self : AwsRelationalDb) (w : World P) (fuel : nat) :
  let base := super_PostCreate env self w in
  let self1 := self_of base in
  let r := _PostCreate env fuel self w in
  outcome_of base = Ret tt ->
  is_managed_db self1 = false ->
  match GetDefaultPort env self1 with
  | inl e =>
      r = (Raise e, self1, world_of base) /\
      events_since w (world_of r) = [EvBasePostCreate]
  | inr p =>
      self_of r = set_port (Some p) self1 /\
      ((outcome_of r = Ret tt /\
        events_since w (world_of r)
        = [EvBasePostCreate; EvExternal InstallPackages; EvExternal InstallPackages]) \/
       (exists e, outcome_of r = Raise e /\
          (events_since w (world_of r)
           = [EvBasePostCreate; EvExternal InstallPackages] \/
           events_since w (world_of r)
           = [EvBasePostCreate; EvExternal InstallPackages;
              EvExternal InstallPackages])))
  end.
Proof.
  intros base self1 r Hbase Hm.
  assert (Hb : super_PostCreate env self w = (Ret tt, self1, world_of base)).
  { unfold self1, self_of, world_of, outcome_of in *. fold base.
    destruct base as [[o s] w']. cbn [fst snd] in *. now subst o. }
  pose proof (super_PostCreate_events self w) as Hlog. fold base in Hlog.
  destruct (GetDefaultPort env self1) as [e | p] eqn:Hport.
  - assert (Hr : r = (Raise e, self1, world_of base)).
    { unfold r, _PostCreate.
      erewrite bind_returns by exact Hb.
      rewrite bind_attr, Hm. cbn [negb].
      apply bind_raises. apply bind_raises. now rewrite Hport. }
    split; [exact Hr |]. rewrite Hr. cbn [world_of snd].
    now apply events_since_app.
  - set (self2 := set_port (Some p) self1).
    set (first := call env InstallPackages self2 (world_of base)).
    destruct (call_events InstallPackages self2 (world_of base))
      as [Hs1 [Hl1 Hf1]].
    fold first in Hs1, Hl1, Hf1.
    assert (Hr : r = match outcome_of first with
                     | Ret _ => call env InstallPackages self2 (world_of first)
                     | Raise e => (Raise e, self2, world_of first)
                     | OutOfFuel => (OutOfFuel, self2, world_of first)
                     end).
    { unfold r, _PostCreate.
      erewrite bind_returns by exact Hb.
      rewrite bind_attr, Hm. cbn [negb].
      rewrite bind_assoc.
      rewrite (bind_read_returns _ _ _ _ p Hport).
      rewrite bind_assoc, bind_assign. fold self2.
      unfold bind. fold first. clearbody first.
      destruct first as [[[[] | e |] s] w']; cbn [self_of world_of outcome_of fst snd] in *;
        subst s; reflexivity. }
    destruct (outcome_of first) as [[] | e |] eqn:Ho.
    + destruct (call_events InstallPackages self2 (world_of first))
        as [Hs2 [Hl2 Hf2]].
      rewrite <- Hr in Hs2, Hl2, Hf2.
      split; [exact Hs2 |].
      assert (Hev : events_since w (world_of r)
                    = [EvBasePostCreate; EvExternal InstallPackages;
                       EvExternal InstallPackages]).
      { apply events_since_app. rewrite Hl2, Hl1, Hlog, <- !app_assoc. reflexivity. }
      destruct (outcome_of r) as [[] | e |] eqn:Hor.
      * left. now split.
      * right. exists e. split; [reflexivity | now right].
      * contradiction.
    + rewrite Hr. cbn [self_of world_of outcome_of fst snd].
      split; [reflexivity |]. right. exists e. split; [reflexivity |]. left.
      apply events_since_app. rewrite Hl1, Hlog, <- !app_assoc. reflexivity.
    + contradiction.
Qed.

End AfterCreation.

Section DescribeOrInstall.

Context {P : Type} (env : Env P).

Variable w0 : World P.

Local Abbreviation quiet :=
  (extends_with (fun e => is_describe_or_install env e = true) w0).

Lemma quiet_IssueCommand_describe (a op : string) (rest : list arg) (flag : bool) :
  str_in op ["describe-db-instances"; "describe-db-clusters"] = true ->
  stable quiet
    (IssueCommand env (map Some (AWS_PREFIX env) ++ Some a :: Some op :: rest) flag).
Proof.
  intros Hop. apply stable_IssueCommand; [apply extends_with_blind |].
  apply extends_with_accepts.
  unfold is_describe_or_install, is_status_query.
  now rewrite runs_operation_prefixed.
Qed.

Lemma quiet__DescribeInstance (id : string) : stable quiet (_DescribeInstance env id).
Proof.
  unfold _DescribeInstance. stable_steps.
  - unfold argv. cbn [map app]. now apply quiet_IssueCommand_describe.
  - destruct (json_loads env (stdout a0)); [apply stable_ret | apply stable_raise].
Qed.

Lemma quiet__DescribeCluster (id : string) : stable quiet (_DescribeCluster env id).
Proof.
  unfold _DescribeCluster. stable_steps.
  - unfold argv. cbn [map app]. now apply quiet_IssueCommand_describe.
  - destruct (json_loads env (stdout a0)); [apply stable_ret | apply stable_raise].
Qed.

Lemma quiet__SavePrimaryAndSecondaryZones (json_output : Json) :
  stable quiet (_SavePrimaryAndSecondaryZones env json_output).
Proof.
  unfold _SavePrimaryAndSecondaryZones. stable_steps;
    try apply extends_with_assign.
  destruct (getitem a1 "SecondaryAvailabilityZone"); stable_steps;
    apply extends_with_assign.
Qed.

Lemma quiet__GetPortsForWriterInstance (id : string) :
  stable quiet (_GetPortsForWriterInstance env id).
Proof.
  unfold _GetPortsForWriterInstance. stable_steps;
    try apply extends_with_assign.
  apply quiet__DescribeInstance.
Qed.

Lemma quiet__GetPortsForClusterInstance (id : string) :
  stable quiet (_GetPortsForClusterInstance env id).
Proof.
  unfold _GetPortsForClusterInstance. stable_steps;
    try apply extends_with_assign.
  apply quiet__DescribeCluster.
Qed.

Lemma quiet_InstallPackages : stable quiet (call env InstallPackages).
Proof.
  intros self w H. unfold call.
  destruct (external env InstallPackages (prov w)) as [r p].
  assert (H' : quiet self (with_prov p (emit (EvExternal InstallPackages) w))).
  { apply (extends_with_blind _ w0 self (emit (EvExternal InstallPackages) w));
      [reflexivity | apply Nat.le_refl |].
    now apply extends_with_accepts. }
  destruct r; exact H'.
Qed.

End DescribeOrInstall.

Section Unmodified.

Context {P : Type} (env : Env P).

(** X20.  [_PostCreate] of a managed database that is not to be made
    multi-zone (no high availability, or an engine that is not an RDS
    engine), once the base class's part has returned: all it does is ask for
    descriptions of the instance or the cluster and for the client's
    packages to be installed.  It issues no modifying command and does not
    sleep. *)
Theorem _PostCreate_without_modification (self : AwsRelationalDb) (w : World P)
    (fuel : nat) :
  let base := super_PostCreate env self w in
  let self1 := self_of base in
  let r := _PostCreate env fuel self w in
  outcome_of base = Ret tt ->
  is_managed_db self1 = true ->
  high_availability (spec self1) = false \/
  ~ In (engine (spec self1)) (_RDS_ENGINES env) ->
  Forall (fun e => is_describe_or_install env e = true)
         (events_since (world_of base) (world_of r)).
Proof.
  intros base self1 r Hbase Hm Hcond.
  assert (Hb : super_PostCreate env self w = (Ret tt, self1, world_of base)).
  { unfold self1, self_of, world_of, outcome_of in *. fold base.
    destruct base as [[o s] w']. cbn [fst snd] in *. now subst o. }
  assert (Hc : high_availability (spec self1)
               && str_in (engine (spec self1)) (_RDS_ENGINES env) = false).
  { destruct Hcond as [-> | Hn]; [reflexivity |].
    apply str_in_not_In in Hn. rewrite Hn. apply Bool.andb_false_r. }
  unfold r, _PostCreate.
  erewrite bind_returns by exact Hb.
  rewrite bind_attr, Hm. cbn [negb].
  rewrite bind_assoc, bind_attr, bind_assoc, bind_attr, bind_assoc, bind_attr.
  cbv zeta. rewrite Hc.
  match goal with
  | |- Forall _ (events_since _ (world_of (?m self1 _))) =>
      assert (Hst : stable (extends_with
                      (fun e => is_describe_or_install env e = true) (world_of base)) m)
  end.
  { stable_steps;
      try apply quiet__DescribeInstance;
      try apply quiet__SavePrimaryAndSecondaryZones;
      try apply quiet__GetPortsForClusterInstance;
      try apply quiet__GetPortsForWriterInstance;
      try apply quiet_InstallPackages.
    destruct a2 as [c |]; stable_steps;
      try apply quiet__GetPortsForClusterInstance;
      try apply quiet__GetPortsForWriterInstance. }
  destruct (Hst self1 (world_of base) (extends_with_refl _ _ self1))
    as [evs [Hlog Hevs]].
  now rewrite (events_since_app _ _ _ Hlog).
Qed.

End Unmodified.

(** * The life cycle in full *)

(** ** The order of creation and of deletion *)

Section SetupOrder.

Context {P : Type} (env : Env P).

Lemma with_subnets_nil (self : AwsRelationalDb) : with_subnets [] [] self = self.
Proof. destruct self. unfold with_subnets. cbn. now rewrite !app_nil_r. Qed.

Lemma with_subnets_app (u1 o1 u2 o2 : list Subnet) (self : AwsRelationalDb) :
  with_subnets u2 o2 (with_subnets u1 o1 self) = with_subnets (u1 ++ u2) (o1 ++ o2) self.
Proof. destruct self. unfold with_subnets. cbn. now rewrite !app_assoc. Qed.

(** [_CreateSubnetInZone] that returns has created the subnet it returns, in
    the zone asked for, and uses and owns it; when it raises, the object is as
    before. *)
Lemma _CreateSubnetInZone_adds (zone : string) (self : AwsRelationalDb) (w : World P) :
  let run := _CreateSubnetInZone env zone self w in
  exists used evs,
    adds_subnets self w run used evs /\
    match outcome_of run with
    | Ret s => used = [s] /\ created_subnets evs = [s] /\ subnet_zone s = zone
    | _ => used = [] /\ created_subnets evs = []
    end.
Proof.
  unfold _CreateSubnetInZone, bind, vpc_NextSubnetCidrBlock.
  destruct (NextSubnetCidrBlock env (prov w)) as [[e | cidr] p].
  - exists [], [EvNextSubnetCidrBlock]. cbn. unfold adds_subnets. cbn.
    rewrite with_subnets_nil. repeat split. repeat constructor.
  - cbn [attr AwsSubnet]. unfold Subnet_Create. cbn [prov with_prov emit].
    match goal with
    | |- context [subnet_Create env ?s p] =>
        set (new := s); destruct (subnet_Create env new p) as [[e | id] p']
    end.
    + exists [], [EvNextSubnetCidrBlock; EvSubnetCreate new false].
      unfold adds_subnets. cbn. rewrite with_subnets_nil, <- app_assoc.
      repeat split. repeat constructor.
    + eexists [_], [EvNextSubnetCidrBlock; EvSubnetCreate _ true].
      unfold adds_subnets. cbn. rewrite <- app_assoc.
      repeat split. repeat constructor.
Qed.


(** Runs that add subnets follow one another. *)
Lemma adds_subnets_then {A B : Type} (self : AwsRelationalDb) (w : World P)
    (run : Outcome A * AwsRelationalDb * World P)
    (run' : Outcome B * AwsRelationalDb * World P)
    (used used' : list Subnet) (evs evs' : list Event) :
  adds_subnets self w run used evs ->
  adds_subnets (self_of run) (world_of run) run' used' evs' ->
  adds_subnets self w run' (used ++ used') (evs ++ evs').
Proof.
  intros [Hlog [Hevs Hself]] [Hlog' [Hevs' Hself']].
  split; [| split].
  - now rewrite Hlog', Hlog, app_assoc.
  - now apply Forall_app.
  - now rewrite Hself', Hself, with_subnets_app, created_subnets_app.
Qed.

(** The tries of [_CreateSubnetInAdditionalZone] add the one subnet that is
    returned. *)
Lemma create_in_first_zone_adds (popped : list string) (self : AwsRelationalDb)
    (w : World P) :
  let run := create_in_first_zone env popped self w in
  exists used evs,
    adds_subnets self w run used evs /\
    match outcome_of run with
    | Ret s => used = [s] /\ created_subnets evs = [s]
    | _ => used = [] /\ created_subnets evs = []
    end.
Proof.
  revert self w. induction popped as [| zone rest IH]; intros self w run.
  - exists [], []. unfold run, adds_subnets. cbn.
    rewrite with_subnets_nil, app_nil_r. repeat split. constructor.
  - unfold run. cbn [create_in_first_zone]. unfold try_except.
    destruct (_CreateSubnetInZone_adds zone self w) as [used [evs [Hadds Hout]]].
    cbv zeta in Hadds, Hout.
    destruct (_CreateSubnetInZone env zone self w) as [[[s | e |] self1] w1] eqn:Htry;
      cbn [outcome_of fst] in Hout.
    + exists used, evs. split; [exact Hadds |]. cbn [outcome_of fst].
      destruct Hout as [Hu [Hc _]]. now split.
    + destruct (IH self1 w1) as [used' [evs' [Hadds' Hout']]].
      exists (used ++ used'), (evs ++ evs'). split.
      * exact (adds_subnets_then self w _ _ _ _ _ _ Hadds Hadds').
      * destruct Hout as [-> Hc]. rewrite created_subnets_app, Hc. exact Hout'.
    + exists used, evs. split; [exact Hadds | exact Hout].
Qed.

Lemma _CreateSubnetInAdditionalZone_adds (self : AwsRelationalDb) (w : World P) :
  let run := _CreateSubnetInAdditionalZone env self w in
  exists used evs,
    adds_subnets self w run used evs /\
    match outcome_of run with
    | Ret s => used = [s] /\ created_subnets evs = [s]
    | _ => used = [] /\ created_subnets evs = []
    end.
Proof.
  intros run.
  assert (Hzones : adds_subnets self w (_GetNewZones env self w) []
                     [EvGetZonesInRegion (region self)]).
  { unfold adds_subnets. rewrite _GetNewZones_self, with_subnets_nil.
    repeat split; [| repeat constructor].
    unfold _GetNewZones. rewrite bind_attr. unfold bind, util_GetZonesInRegion.
    destruct (GetZonesInRegion env (region self) (prov w)) as [[e | all] p];
      [reflexivity |].
    cbn [attr lift]. destruct (fold_left _ (zones self) (inr all)); reflexivity. }
  assert (Hrun : run = match _GetNewZones env self w with
                        | (Ret zs, self1, w1) => create_in_first_zone env (rev zs) self1 w1
                        | (Raise e, self1, w1) => (Raise e, self1, w1)
                        | (OutOfFuel, self1, w1) => (OutOfFuel, self1, w1)
                        end) by reflexivity.
  rewrite Hrun. clear Hrun.
  destruct (_GetNewZones env self w) as [[[zs | e |] self1] w1].
  - destruct (create_in_first_zone_adds (rev zs) self1 w1) as [used [evs [Hadds Hout]]].
    exists ([] ++ used), ([EvGetZonesInRegion (region self)] ++ evs). split.
    + exact (adds_subnets_then self w _ _ _ _ _ _ Hzones Hadds).
    + rewrite created_subnets_app. exact Hout.
  - exists [], [EvGetZonesInRegion (region self)]. split; [exact Hzones | now split].
  - exists [], [EvGetZonesInRegion (region self)]. split; [exact Hzones | now split].
Qed.

Lemma for_each_cons_returns {A : Type} (x : A) (l : list A) (body : A -> M P unit)
    (self self1 : AwsRelationalDb) (w w1 : World P) :
  body x self w = (Ret tt, self1, w1) ->
  for_each (x :: l) body self w = for_each l body self1 w1.
Proof. intros H. cbn [for_each]. unfold bind. now rewrite H. Qed.

Lemma for_each_cons_stops {A : Type} (x : A) (l : list A) (body : A -> M P unit)
    (self : AwsRelationalDb) (w : World P) :
  outcome_of (body x self w) <> Ret tt ->
  for_each (x :: l) body self w = body x self w.
Proof.
  intros H. cbn [for_each]. unfold bind.
  destruct (body x self w) as [[[[] | e |] self1] w1]; try reflexivity.
  now contradiction H.
Qed.

(** The loop of [_CreateSubnetInAllZonesAssumeClientZoneExists] that returns
    uses one subnet for each zone, in order, and has created those of the
    zones other than the client's. *)
Lemma zones_loop_adds (client_zone : string) (zs : list string)
    (self : AwsRelationalDb) (w : World P) :
  subnet_zone (vm_subnet (client_vm self)) = client_zone ->
  let run :=
    for_each zs (fun zone =>
      if negb (String.eqb zone client_zone)
      then _CreateSubnetInZone env zone ;; ret tt
      else assign (fun self =>
             set_subnets_used_by_db
               (subnets_used_by_db self ++ [vm_subnet (client_vm self)]) self))
      self w in
  exists used evs,
    adds_subnets self w run used evs /\
    (outcome_of run = Ret tt ->
     map subnet_zone used = zs /\
     map subnet_zone (created_subnets evs)
     = filter (fun zone => negb (String.eqb zone client_zone)) zs).
Proof.
  revert self w. induction zs as [| zone zs IH]; intros self w Hclient run.
  - exists [], []. unfold run, adds_subnets. cbn.
    rewrite with_subnets_nil, app_nil_r. repeat split. constructor.
  - unfold run. clear run. cbv zeta in IH.
    match goal with |- context [for_each _ ?b] => set (body := b) in * end.
    cbn [filter]. destruct (String.eqb_spec zone client_zone) as [Hz | Hz]; cbn [negb].
    + set (self1 := set_subnets_used_by_db
                      (subnets_used_by_db self ++ [vm_subnet (client_vm self)]) self).
      assert (Hbody : body zone self w = (Ret tt, self1, w)).
      { unfold body. now rewrite (proj2 (String.eqb_eq _ _) Hz). }
      rewrite (for_each_cons_returns zone zs body self self1 w w Hbody).
      assert (Hstep : adds_subnets self w (@Ret unit tt, self1, w)
                        [vm_subnet (client_vm self)] []).
      { unfold adds_subnets. cbn. rewrite app_nil_r. repeat split; [constructor |].
        unfold self1, with_subnets. destruct self. cbn. now rewrite app_nil_r. }
      destruct (IH self1 w Hclient) as [used [evs [Hadds Hout]]].
      exists ([vm_subnet (client_vm self)] ++ used), ([] ++ evs). split.
      * exact (adds_subnets_then self w _ _ _ _ _ _ Hstep Hadds).
      * intros Hret. destruct (Hout Hret) as [Hu Hc]. cbn [app map].
        now rewrite Hu, Hc, Hclient, Hz.
    + destruct (_CreateSubnetInZone_adds zone self w) as [used [evs [Hadds Hout]]].
      cbv zeta in Hadds, Hout.
      assert (Hbody : body zone self w
                      = (_CreateSubnetInZone env zone ;; ret tt) self w).
      { unfold body. now rewrite (proj2 (String.eqb_neq _ _) Hz). }
      destruct (_CreateSubnetInZone env zone self w) as [[[s | e |] self1] w1] eqn:Htry;
        cbn [outcome_of fst] in Hout.
      * erewrite bind_returns in Hbody by exact Htry. unfold ret in Hbody.
        rewrite (for_each_cons_returns zone zs body self self1 w w1 Hbody).
        assert (Hc1 : subnet_zone (vm_subnet (client_vm self1)) = client_zone).
        { destruct Hadds as [_ [_ Hself]]. cbn [self_of fst snd] in Hself.
          rewrite Hself. exact Hclient. }
        destruct (IH self1 w1 Hc1) as [used' [evs' [Hadds' Hout']]].
        exists (used ++ used'), (evs ++ evs'). split.
        -- exact (adds_subnets_then self w _ _ _ _ _ _ Hadds Hadds').
        -- intros Hret. destruct (Hout' Hret) as [Hu Hc].
           destruct Hout as [-> [Hcs Hzone]].
           rewrite created_subnets_app, Hcs. cbn [app map].
           now rewrite Hu, Hc, Hzone.
      * erewrite bind_raises in Hbody by exact Htry.
        rewrite for_each_cons_stops by (rewrite Hbody; discriminate).
        rewrite Hbody. exists used, evs. split; [exact Hadds | discriminate].
      * unfold bind in Hbody. rewrite Htry in Hbody.
        rewrite for_each_cons_stops by (rewrite Hbody; discriminate).
        rewrite Hbody. exists used, evs. split; [exact Hadds | discriminate].
Qed.


Lemma adds_subnets_outcome {A B : Type} (self : AwsRelationalDb) (w : World P)
    (o : Outcome A) (o' : Outcome B) (self1 : AwsRelationalDb) (w1 : World P)
    (used : list Subnet) (evs : list Event) :
  adds_subnets self w (o, self1, w1) used evs ->
  adds_subnets self w (o', self1, w1) used evs.
Proof. intros H. exact H. Qed.

Lemma network_branch_adds (self : AwsRelationalDb) (w : World P) :
  let client := vm_subnet (client_vm self) in
  let eng := engine (spec self) in
  let branch : M P unit :=
    if str_in eng (_RDS_ENGINES env) then
      assign (fun self =>
        set_subnets_used_by_db
          (subnets_used_by_db self ++ [vm_subnet (client_vm self)]) self) ;;
      _CreateSubnetInAdditionalZone env ;; ret tt
    else if str_in eng (_AURORA_ENGINES env) then
      _CreateSubnetInAllZonesAssumeClientZoneExists env
    else
      raise (Exception ("Unknown how to create network for " +++ eng)) in
  exists used evs,
    adds_subnets self w (branch self w) used evs /\
    (outcome_of (branch self w) = Ret tt ->
     if str_in eng (_RDS_ENGINES env)
     then exists s, created_subnets evs = [s] /\ used = [client; s]
     else map subnet_zone used = zones self /\
          map subnet_zone (created_subnets evs)
          = filter (fun zone => negb (String.eqb zone (subnet_zone client)))
              (zones self)).
Proof.
  intros client eng branch. unfold branch.
  destruct (str_in eng (_RDS_ENGINES env)).
  - rewrite bind_assign.
    set (self1 := set_subnets_used_by_db (subnets_used_by_db self ++ [client]) self).
    assert (Hstep : adds_subnets self w (@Ret unit tt, self1, w) [client] []).
    { unfold adds_subnets. cbn. rewrite app_nil_r. repeat split; [constructor |].
      unfold self1, with_subnets. destruct self. cbn. now rewrite app_nil_r. }
    destruct (_CreateSubnetInAdditionalZone_adds self1 w) as [used [evs [Hadds Hout]]].
    cbv zeta in Hadds, Hout. unfold bind.
    change (_CreateSubnetInAdditionalZone env _ w)
      with (_CreateSubnetInAdditionalZone env self1 w).
    destruct (_CreateSubnetInAdditionalZone env self1 w) as [[[s | e |] self2] w2];
      cbn [outcome_of fst] in Hout; cbn [ret];
      exists ([client] ++ used), ([] ++ evs);
      (split; [exact (adds_subnets_then self w _ _ _ _ _ _ Hstep
                        (adds_subnets_outcome _ _ _ _ _ _ _ _ Hadds)) |]);
      try discriminate.
    intros _. destruct Hout as [-> Hc]. now exists s.
  - destruct (str_in eng (_AURORA_ENGINES env)).
    + unfold _CreateSubnetInAllZonesAssumeClientZoneExists. rewrite !bind_attr.
      exact (zones_loop_adds (subnet_zone client) (zones self) self w eq_refl).
    + exists [], []. unfold adds_subnets. cbn.
      rewrite with_subnets_nil, app_nil_r. split; [repeat split; constructor |].
      discriminate.
Qed.


(** The network setup that returns has created subnets and then issued its
    two commands, with success: for an RDS engine one subnet, used beside
    the client's; for an Aurora engine a subnet in every zone other than the
    client's, so that a subnet is used in every zone. *)
Lemma _SetupNetworking_returned (self : AwsRelationalDb) (w : World P) :
  let run := _SetupNetworking env self w in
  let self1 := self_of run in
  let client := vm_subnet (client_vm self) in
  outcome_of run = Ret tt ->
  exists used subnet_events,
    events_since w (world_of run)
    = subnet_events ++
      [ EvIssueCommand
          (create_db_subnet_group_cmd env (region self) (subnets_used_by_db self1)) true;
        EvIssueCommand
          (authorize_ingress_cmd env (region self) (security_group_id self1)) true ] /\
    Forall (fun e => is_subnet_event e = true) subnet_events /\
    subnets_used_by_db self1 = subnets_used_by_db self ++ used /\
    subnets_owned_by_db self1
    = subnets_owned_by_db self ++ created_subnets subnet_events /\
    (if str_in (engine (spec self)) (_RDS_ENGINES env)
     then exists s, created_subnets subnet_events = [s] /\ used = [client; s]
     else map subnet_zone used = zones self /\
          map subnet_zone (created_subnets subnet_events)
          = filter (fun zone => negb (String.eqb zone (subnet_zone client)))
              (zones self)).
Proof.
  intros run self1 client Hret.
  pose proof (eq_refl run) as Hrun. unfold run at 2 in Hrun.
  unfold _SetupNetworking in Hrun. rewrite bind_attr in Hrun.
  destruct (network_branch_adds self w) as [used [evs [Hadds Hkind]]].
  cbv zeta in Hadds, Hkind.
  match type of Hrun with
  | _ = bind ?branch _ _ _ => destruct (branch self w) as [[o s1] w1] eqn:Hb
  end.
  destruct Hadds as [Hlog [Hevs Hself]]. cbn [self_of world_of fst snd] in Hlog, Hself.
  assert (Hrg : region s1 = region self) by now rewrite Hself.
  unfold bind at 1 in Hrun. rewrite Hb in Hrun.
  destruct o as [[] | e |]; [| rewrite Hrun in Hret; discriminate Hret
                            | rewrite Hrun in Hret; discriminate Hret].
  specialize (Hkind eq_refl).
  rewrite bind_attr in Hrun. unfold _CreateDbSubnetGroup in Hrun.
  cbv zeta in Hrun. rewrite !bind_assoc, bind_attr in Hrun.
  change (argv (AWS_PREFIX env) ++ argv _ ++ map subnet_id (subnets_used_by_db s1) ++ _)
    with (create_db_subnet_group_cmd env (region s1) (subnets_used_by_db s1)) in Hrun.
  set (group := create_db_subnet_group_cmd env (region s1) (subnets_used_by_db s1)) in *.
  rewrite bind_assoc in Hrun. unfold bind at 1 in Hrun.
  rewrite IssueCommand_checked in Hrun.
  destruct (Z.eqb (retcode (reply_to env group w1)) 0);
    [| rewrite Hrun in Hret; discriminate Hret].
  rewrite bind_assoc, bind_assign, bind_assign, bind_attr, bind_attr in Hrun.
  cbn [security_group_id set_security_group_id region set_db_subnet_group_name
       client_vm] in Hrun.
  change (argv (AWS_PREFIX env) ++ argv _ ++ [?sg] ++ _)
    with (authorize_ingress_cmd env (region s1) sg) in Hrun.
  set (ingress := authorize_ingress_cmd env (region s1)
                    (Some (vpc_default_security_group_id (client_vm s1)))) in *.
  unfold bind in Hrun. rewrite IssueCommand_checked in Hrun.
  destruct (Z.eqb (retcode (reply_to env ingress (after_command env group true w1))) 0);
    [| rewrite Hrun in Hret; discriminate Hret].
  unfold ret in Hrun.
  exists used, evs.
  unfold self1. rewrite Hrun. cbn [self_of world_of fst snd].
  cbn [subnets_used_by_db subnets_owned_by_db security_group_id set_security_group_id
       set_db_subnet_group_name].
  split; [| split; [exact Hevs | split; [| split; [| exact Hkind]]]].
  - rewrite <- Hrg. fold group ingress.
    apply events_since_app. rewrite !log_after_command, Hlog, <- !app_assoc.
    reflexivity.
  - now rewrite Hself.
  - now rewrite Hself.
Qed.


End SetupOrder.

Section CreationOrder.

Context {P : Type} (env : Env P).

Lemma _CreateDependencies_returned (self : AwsRelationalDb) (w : World P) :
  is_managed_db self = true ->
  let deps := _CreateDependencies env self w in
  let self1 := self_of deps in
  let client := vm_subnet (client_vm self) in
  outcome_of deps = Ret tt ->
  exists used subnet_events,
    events_since w (world_of deps)
    = subnet_events ++
      [ EvIssueCommand
          (create_db_subnet_group_cmd env (region self) (subnets_used_by_db self1)) true;
        EvIssueCommand
          (authorize_ingress_cmd env (region self) (security_group_id self1)) true ] /\
    Forall (fun e => is_subnet_event e = true) subnet_events /\
    subnets_used_by_db self1 = subnets_used_by_db self ++ used /\
    subnets_owned_by_db self1
    = subnets_owned_by_db self ++ created_subnets subnet_events /\
    (if str_in (engine (spec self)) (_RDS_ENGINES env)
     then exists s, created_subnets subnet_events = [s] /\ used = [client; s]
     else map subnet_zone used = zones self /\
          map subnet_zone (created_subnets subnet_events)
          = filter (fun zone => negb (String.eqb zone (subnet_zone client)))
              (zones self)).
Proof.
  intros Hm deps self1 client Hret.
  assert (Hdeps : deps = _SetupNetworking env self w).
  { unfold deps in *. unfold _CreateDependencies in *. rewrite bind_attr, Hm in *.
    unfold _AssertClientAndDbInSameRegion in *. rewrite bind_assoc, bind_attr in *.
    rewrite bind_assoc, bind_attr in *.
    destruct (negb (vm_region (client_vm self) =? region self)%string).
    - discriminate Hret.
    - now rewrite bind_ret. }
  unfold self1. rewrite Hdeps in *. now apply _SetupNetworking_returned.
Qed.

(** The creation of the instances that returns has issued a command. *)
Lemma _CreateAwsSqlInstance_returned (self : AwsRelationalDb) (w : World P) :
  outcome_of (_CreateAwsSqlInstance env self w) = Ret tt ->
  events_since w (world_of (_CreateAwsSqlInstance env self w)) <> [].
Proof.
  unfold _CreateAwsSqlInstance. rewrite !bind_attr.
  destruct (str_in (engine (spec self)) (_RDS_ENGINES env)).
  - rewrite bind_attr, bind_assign, !bind_attr. cbv zeta.
    match goal with
    | |- context [IssueCommand env ?c true] => set (cmd := c)
    end.
    unfold bind. rewrite IssueCommand_checked. intros _.
    destruct (Z.eqb (retcode (reply_to env cmd _)) 0); cbn [world_of snd ret];
      erewrite events_since_app by apply log_after_command; discriminate.
  - destruct (str_in (engine (spec self)) (_AURORA_ENGINES env)); [| discriminate].
    rewrite bind_attr.
    destruct (negb (Bool.eqb _ _)); [discriminate |].
    rewrite !bind_attr.
    destruct (spec_zones (spec self)) as [[| z zs] |]; try discriminate.
    cbn [lift]. rewrite bind_ret, bind_assign.
    match goal with
    | |- context [bind (IssueCommand env ?c true) _ ?s w] =>
        set (cmd := c);
        pose proof (IssueCommand_checked env cmd s w) as Hissue
    end.
    set (w1 := after_command env cmd true w) in *.
    destruct (Z.eqb (retcode (reply_to env cmd w)) 0).
    + erewrite bind_returns by exact Hissue. intros _.
      match goal with
      | |- events_since w (world_of (?m ?s w1)) <> [] =>
          assert (Hst : stable (extends_with (fun _ : Event => True) w1) m);
            [| destruct (Hst s w1 (extends_with_refl _ _ s)) as [evs [Hlog _]] ]
      end.
      { stable_steps; try apply extends_with_assign.
        apply stable_IssueCommand; [apply extends_with_blind |].
        now apply extends_with_accepts. }
      erewrite events_since_app
        by (rewrite Hlog; unfold w1; rewrite log_after_command, <- app_assoc;
            reflexivity).
      discriminate.
    + erewrite bind_raises by exact Hissue. discriminate.
Qed.

End CreationOrder.

Section ParameterGroup.

Context {P : Type} (env : Env P).

Variable self0 : AwsRelationalDb.
Variable w0 : World P.

Lemma unchanged_blind : blind (unchanged self0 w0).
Proof.
  intros self w w' Hlog Hobj [Hself Hext]. split; [exact Hself |].
  now apply (extends_with_blind _ w0 self w w' Hlog Hobj).
Qed.

Lemma unchanged_IssueCommand (cmd : list arg) (flag : bool) :
  stable (unchanged self0 w0) (IssueCommand env cmd flag).
Proof.
  apply stable_IssueCommand; [apply unchanged_blind |].
  intros self w [Hself Hext]. split; [exact Hself |]. now apply extends_with_accepts.
Qed.

Lemma unchanged_of_only_polled {A} (m : M P A) :
  (forall self w, stable (only_polled env self w) m) ->
  stable (unchanged self0 w0) m.
Proof.
  intros Hm self w [Hself [evs [Hlog _]]].
  destruct (Hm self w self w (conj eq_refl (extends_with_refl _ _ self)))
    as [Hself' [pevs [Hplog _]]].
  split; [congruence |].
  exists (evs ++ pevs). split; [| now apply Forall_forall].
  now rewrite Hplog, Hlog, <- app_assoc.
Qed.

Lemma unchanged__Reboot (fuel : nat) : stable (unchanged self0 w0) (_Reboot env fuel).
Proof.
  unfold _Reboot. stable_steps.
  - apply unchanged_of_only_polled. intros self w.
    apply only_polled__IsInstanceReady.
  - apply unchanged_IssueCommand.
  - apply unchanged_of_only_polled. intros self w.
    apply only_polled__IsInstanceReady.
Qed.

End ParameterGroup.

Section ParameterGroupOrder.

Context {P : Type} (env : Env P).

(** [_ApplyManagedDbFlags] names the parameter group, asks for its creation
    and then attaches it to the instance. *)
Lemma _ApplyManagedDbFlags_begins (fuel : nat) (self : AwsRelationalDb) (w : World P)
    (family : string) :
  db_flags (spec self) <> [] ->
  _GetParameterGroupFamily env self = inr family ->
  let name := "pkb-parameter-group-" +++ run_uri env in
  let create := create_db_parameter_group_cmd env (region self) name family in
  let attach := attach_parameter_group_cmd env (region self) (instance_id self) name in
  let applied := _ApplyManagedDbFlags env fuel self w in
  self_of applied = set_parameter_group (Some name) self /\
  (exists rest, events_since w (world_of applied) = EvIssueCommand create true :: rest) /\
  (retcode (reply_to env create w) = 0 ->
   exists rest,
     events_since w (world_of applied)
     = [EvIssueCommand create true; EvIssueCommand attach true] ++ rest).
Proof.
  intros Hflags Hfamily name create attach applied.
  set (s2 := set_parameter_group (Some name) self).
  set (w1 := after_command env create true w).
  set (w2 := after_command env attach true w1).
  assert (Hw1 : log w1 = log w ++ [EvIssueCommand create true])
    by apply log_after_command.
  assert (Hw2 : log w2 = log w ++ [EvIssueCommand create true; EvIssueCommand attach true]).
  { unfold w2. rewrite log_after_command, Hw1, <- app_assoc. reflexivity. }
  assert (Hrun :
    applied = (Raise (IssueCommandError (stderr (reply_to env create w))), s2, w1) /\
    retcode (reply_to env create w) <> 0 \/
    applied = (Raise (IssueCommandError (stderr (reply_to env attach w1))), s2, w2) /\
    retcode (reply_to env create w) = 0 \/
    (exists evs, self_of applied = s2 /\ log (world_of applied) = log w2 ++ evs) /\
    retcode (reply_to env create w) = 0).
  { unfold applied, _ApplyManagedDbFlags. rewrite bind_attr.
    destruct (db_flags (spec self)) as [| flag flags] eqn:Eflags;
      [now contradiction Hflags |].
    assert (Hf2 : _GetParameterGroupFamily env s2 = inr family) by exact Hfamily.
    rewrite bind_assign. fold name. fold s2. rewrite bind_attr.
    rewrite (bind_read_returns _ _ _ _ family Hf2), bind_attr.
    cbv zeta. cbn [parameter_group s2 set_parameter_group fmt_s region].
    fold s2.
    change (argv (AWS_PREFIX env) ++ argv ("rds" :: "create-db-parameter-group" :: _))
      with create.
    pose proof (IssueCommand_checked env create (set_parameter_group (Some name) self) w)
      as Hissue.
    fold s2 w1 in Hissue. fold s2.
    destruct (Z.eqb_spec (retcode (reply_to env create w)) 0) as [Hc | Hc].
    - erewrite bind_returns by exact Hissue. rewrite bind_attr.
      cbn [instance_id s2 set_parameter_group].
      change (argv (AWS_PREFIX env) ++ argv ("rds" :: "modify-db-instance" :: _))
        with attach.
      pose proof (IssueCommand_checked env attach s2 w1) as Hattach. fold w2 in Hattach.
      destruct (Z.eqb (retcode (reply_to env attach w1)) 0).
      + right. right. split; [| exact Hc].
        erewrite bind_returns by exact Hattach.
        match goal with
        | |- exists evs, self_of (?m s2 w2) = s2 /\ _ =>
            assert (Hst : stable (unchanged s2 w2) m)
        end.
        { stable_steps.
          - match goal with
            | |- stable _ (match ?l with _ => _ end) =>
                destruct l as [| key [| value [| ]]]
            end; stable_steps; apply unchanged_IssueCommand.
          - apply unchanged__Reboot. }
        destruct (Hst s2 w2 (conj eq_refl (extends_with_refl _ _ s2)))
          as [Hs [evs [Hlog _]]].
        exists evs. split; assumption.
      + right. left. split; [| exact Hc].
        now erewrite bind_raises by exact Hattach.
    - left. split; [| exact Hc]. now erewrite bind_raises by exact Hissue. }
  destruct Hrun as [[Hrun Hc] | [[Hrun Hc] | [[evs [Hs Hlog]] Hc]]].
  - rewrite Hrun. cbn [self_of world_of fst snd]. split; [reflexivity |]. split.
    + exists []. now apply events_since_app.
    + intros Hc'. contradiction.
  - rewrite Hrun. cbn [self_of world_of fst snd]. split; [reflexivity |]. split.
    + eexists. apply events_since_app. rewrite Hw2. reflexivity.
    + intros _. exists []. now apply events_since_app.
  - split; [exact Hs |]. split.
    + eexists. apply events_since_app. rewrite Hlog, Hw2, <- app_assoc. reflexivity.
    + intros _. exists evs. apply events_since_app.
      rewrite Hlog, Hw2, <- app_assoc. reflexivity.
Qed.

End ParameterGroupOrder.

Section LifeCycleOrderInFull.

Context {P : Type} (env : Env P).

(** C6, as the code has it.  In the life cycle of a managed database the
    dependencies come first at creation and last at deletion.  The events of
    [Create] are those of [_CreateDependencies], which are network-setup
    events, followed by those of [_Create], which are instance-creation
    commands.  When [_CreateDependencies] does not return, no creation
    command is issued; when it returns, subnets have been created and then
    the db subnet group, of the subnets the database uses, and the
    security-group rule, with success, in that order, as its last two
    events.  The subnets created are those the database comes to own: for an
    RDS engine one subnet, used beside the client's; for an Aurora engine
    one in every zone other than the client's, a subnet being used in every
    zone.  When [Create] returns at least one creation command has been
    issued.  The events of [Delete] are the delete
    commands of every recorded instance, in the order they were recorded,
    and of the cluster, followed by the teardown: the subnet group, then the
    first so many owned subnets, then the parameter group, all of it when no
    [Delete()] of a subnet raises.  No event is of both kinds on either
    side.  The parameter group is created by [_ApplyManagedDbFlags], which
    then attaches it to the instance. *)
Theorem dependencies_first_and_last (self : AwsRelationalDb) (w : World P) :
  is_managed_db self = true ->
  let deps := _CreateDependencies env self w in
  let self1 := self_of deps in
  let created := Create env self w in
  let setup := events_since w (world_of deps) in
  let creation := events_since (world_of deps) (world_of created) in
  let deleted := Delete env self w in
  let owned := subnets_owned_by_db self in
  let client := vm_subnet (client_vm self) in
  let group_delete :=
    EvIssueCommand
      (delete_db_subnet_group_cmd env (region self) (db_subnet_group_name self)) false in
  events_since w (world_of created) = setup ++ creation /\
  Forall (fun e => is_network_setup env e = true) setup /\
  Forall (fun e => is_instance_creation env e = true) creation /\
  (outcome_of deps <> Ret tt ->
   creation = [] /\ outcome_of created = outcome_of deps) /\
  (outcome_of deps = Ret tt ->
   exists used subnet_events,
     setup
     = subnet_events ++
       [ EvIssueCommand
           (create_db_subnet_group_cmd env (region self) (subnets_used_by_db self1))
           true;
         EvIssueCommand
           (authorize_ingress_cmd env (region self) (security_group_id self1)) true ] /\
     Forall (fun e => is_subnet_event e = true) subnet_events /\
     subnets_used_by_db self1 = subnets_used_by_db self ++ used /\
     subnets_owned_by_db self1
     = subnets_owned_by_db self ++ created_subnets subnet_events /\
     (if str_in (engine (spec self)) (_RDS_ENGINES env)
      then exists s, created_subnets subnet_events = [s] /\ used = [client; s]
      else map subnet_zone used = zones self /\
           map subnet_zone (created_subnets subnet_events)
           = filter (fun zone => negb (String.eqb zone (subnet_zone client)))
               (zones self))) /\
  (outcome_of created = Ret tt -> creation <> []) /\
  (exists k pg,
     events_since w (world_of deleted)
     = instance_delete_events env self
       ++ group_delete :: map EvSubnetDelete (firstn k owned) ++ pg /\
     (pg = [] \/ pg = parameter_group_events env self)) /\
  (deletes_return env owned
     (after_subnet_group_delete env self (world_of (_Delete env self w))) ->
   outcome_of deleted = Ret tt /\
   events_since w (world_of deleted)
   = instance_delete_events env self ++ dependency_teardown_events env self) /\
  Forall (fun e => is_instance_deletion env e = true) (instance_delete_events env self) /\
  Forall (fun e => is_dependency_teardown env e = true)
    (dependency_teardown_events env self) /\
  (forall e, is_network_setup env e = true -> is_instance_creation env e = false) /\
  (forall e, is_dependency_teardown env e = true -> is_instance_deletion env e = false) /\
  (forall (fuel : nat) (self' : AwsRelationalDb) (w' : World P) (family : string),
     db_flags (spec self') <> [] ->
     _GetParameterGroupFamily env self' = inr family ->
     let name := "pkb-parameter-group-" +++ run_uri env in
     let create := create_db_parameter_group_cmd env (region self') name family in
     let attach :=
       attach_parameter_group_cmd env (region self') (instance_id self') name in
     let applied := _ApplyManagedDbFlags env fuel self' w' in
     self_of applied = set_parameter_group (Some name) self' /\
     (exists rest,
        events_since w' (world_of applied) = EvIssueCommand create true :: rest) /\
     (retcode (reply_to env create w') = 0 ->
      exists rest,
        events_since w' (world_of applied)
        = [EvIssueCommand create true; EvIssueCommand attach true] ++ rest)).
Proof.
  intros Hm deps self1 created setup creation deleted owned client group_delete.
  destruct (_CreateDependencies_emits env self w) as [evs [Hlog Hsetup]].
  fold deps in Hlog.
  pose proof (_CreateDependencies_keeps_managed env true self w Hm) as Hm1.
  fold deps self1 in Hm1.
  assert (Hsetup_eq : setup = evs) by now apply events_since_app.
  assert (Hcreated : created = match outcome_of deps with
                               | Ret _ => _CreateAwsSqlInstance env self1 (world_of deps)
                               | Raise e => (Raise e, self1, world_of deps)
                               | OutOfFuel => (OutOfFuel, self1, world_of deps)
                               end).
  { unfold created, Create, bind. fold deps. rewrite (triple_eta deps).
    cbn [self_of world_of outcome_of fst snd]. fold self1.
    destruct (outcome_of deps) as [[] | e |]; try reflexivity.
    unfold _Create. now rewrite bind_attr, Hm1. }
  assert (Hcreation : exists cevs,
            log (world_of created) = log (world_of deps) ++ cevs /\
            Forall (fun e => is_instance_creation env e = true) cevs /\
            (outcome_of deps <> Ret tt -> cevs = [])).
  { rewrite Hcreated. destruct (outcome_of deps) as [[] | e |].
    - destruct (_CreateAwsSqlInstance_emits env self1 (world_of deps))
        as [cevs [Hlog2 Hc]].
      exists cevs. repeat split; try assumption. intros H. now contradiction H.
    - exists []. cbn [world_of snd]. rewrite app_nil_r.
      repeat split; constructor.
    - exists []. cbn [world_of snd]. rewrite app_nil_r.
      repeat split; constructor. }
  destruct Hcreation as [cevs [Hlog2 [Hcevs Hnone]]].
  assert (Hcreation_eq : creation = cevs) by now apply events_since_app.
  split.
  { rewrite Hsetup_eq, Hcreation_eq. apply events_since_app.
    now rewrite Hlog2, Hlog, app_assoc. }
  split; [now rewrite Hsetup_eq |].
  split; [now rewrite Hcreation_eq |].
  split.
  { intros Hne. split; [rewrite Hcreation_eq; now apply Hnone |].
    rewrite Hcreated. destruct (outcome_of deps) as [[] | e |];
      [now contradiction Hne | reflexivity | reflexivity]. }
  split; [intros Hret; now apply _CreateDependencies_returned |].
  split.
  { intros Hret. rewrite Hcreated in Hret. unfold creation. rewrite Hcreated.
    destruct (outcome_of deps) as [[] | e |]; try discriminate Hret.
    now apply _CreateAwsSqlInstance_returned. }
  assert (Hdeleted : deleted
                     = _DeleteDependencies env self (world_of (_Delete env self w))).
  { unfold deleted, Delete, bind. now rewrite (_Delete_managed env self w Hm). }
  assert (Hw1 : log (world_of (_Delete env self w))
                = log w ++ instance_delete_events env self).
  { rewrite (_Delete_managed env self w Hm). cbn [world_of snd].
    rewrite log_after_cluster_delete, log_after_instance_deletes.
    unfold instance_delete_events. now rewrite <- app_assoc. }
  split.
  { destruct (_DeleteDependencies_events env self (world_of (_Delete env self w)) Hm)
      as [k [pg [Hev Hpg]]].
    exists k, pg. split; [| exact Hpg].
    rewrite Hdeleted. apply events_since_app.
    rewrite Hev, Hw1, <- app_assoc. reflexivity. }
  split.
  { intros Hret. rewrite Hdeleted.
    rewrite (_DeleteDependencies_returns env self _ Hm Hret).
    cbn [outcome_of world_of fst snd]. split; [reflexivity |].
    apply events_since_app.
    rewrite log_after_parameter_group_delete, log_after_subnet_deletes,
      log_after_subnet_group_delete, Hw1.
    unfold dependency_teardown_events. now rewrite <- !app_assoc. }
  split; [apply instance_delete_events_are_deletions |].
  split.
  { unfold dependency_teardown_events. apply Forall_app. split.
    - constructor; [| constructor].
      unfold is_dependency_teardown, delete_db_subnet_group_cmd.
      cbn [argv map app]. now rewrite runs_operation_prefixed.
    - apply Forall_app. split.
      + apply Forall_forall. intros e He. apply in_map_iff in He.
        now destruct He as [s [<- _]].
      + apply parameter_group_events_are_teardown. }
  split; [apply setup_is_not_creation |].
  split; [apply teardown_is_not_deletion |].
  intros fuel self' w' family Hflags Hfamily.
  exact (_ApplyManagedDbFlags_begins env fuel self' w' family Hflags Hfamily).
Qed.

End LifeCycleOrderInFull.

(** ** Making the instance multi-zone *)

Section MultiZone.

Context {P : Type} (env : Env P).

Lemma sequence_raise {A B} (e : Exn) (k : A -> M P B) (self : AwsRelationalDb)
    (w : World P) :
  (x <- raise e ;; k x) self w = (Raise e, self, w).
Proof. reflexivity. Qed.



End MultiZone.

(** ** The further properties on the scripted provider *)

Lemma GetDefaultEngineVersion_table_witness :
  exists v, GetDefaultEngineVersion Demo.env "postgres" = inr v.
Proof.
  apply (GetDefaultEngineVersion_table Demo.env "postgres").
  simpl. auto 10.
Defined.

Lemma unknown_engine_raises_at_once_witness :
  let self := Demo.a_db "oracle" false true None in
  let w := Demo.a_world [] in
  _SetupNetworking Demo.env self w
  = (Raise (Exception "Unknown how to create network for oracle"), self, w).
Proof.
  intros self w.
  apply (unknown_engine_raises_at_once Demo.env self w);
    simpl; intuition discriminate.
Defined.

Lemma _CreateDependencies_guards_witness :
  let self := __init__ Demo.env (Demo.a_spec "mysql" false None) true
                Busy.a_far_vm (Demo.a_vm "10.0.0.6") in
  let w := Demo.a_world [] in
  _CreateDependencies Demo.env self w
  = (Raise (AwsRelationalDbCrossRegionError
       "client_vm and relational_db server must be in the same region"), self, w).
Proof.
  intros self w.
  apply (_CreateDependencies_guards Demo.env self w).
  - reflexivity.
  - simpl. discriminate.
Defined.

Lemma _CreateAwsSqlInstance_zone_count_mismatch_witness :
  let self := Demo.a_db "aurora-mysql" true true (Some ["us-east-1a"]) in
  let w := Demo.a_world [] in
  exists msg, _CreateAwsSqlInstance Demo.env self w = (Raise (Exception msg), self, w).
Proof.
  intros self w.
  apply (_CreateAwsSqlInstance_zone_count_mismatch Demo.env self w).
  - simpl. intuition discriminate.
  - simpl. auto.
  - simpl. discriminate.
Defined.

Lemma _FailoverHA_other_cases_witness :
  let self := set_all_instance_ids ["pkb-db-instance-7a1b"] Demo.a_cluster in
  let w := Demo.a_world [] in
  _FailoverHA Demo.env self w = (Raise IndexError, self, w).
Proof.
  intros self w.
  apply (_FailoverHA_other_cases Demo.env self w).
  - simpl. intuition discriminate.
  - simpl. auto.
  - simpl. lia.
Defined.

Lemma _CreateAwsSqlInstance_records_first_witness :
  let self := Demo.a_db "mysql" false true None in
  let run := _CreateAwsSqlInstance Demo.env self (Demo.a_world []) in
  outcome_of run = Raise (IssueCommandError "DBInstanceNotFound") /\
  all_instance_ids (self_of run) = [instance_id self].
Proof.
  intros self run. split; [reflexivity |].
  apply (_CreateAwsSqlInstance_records_first Demo.env self (Demo.a_world [])).
  simpl. auto.
Defined.

Lemma _CreateAwsSqlInstance_cluster_identifiers_witness :
  let self := Demo.a_db "aurora-mysql" true true (Some ["us-east-1a"; "us-east-1b"]) in
  let w := Demo.a_world [Demo.says "{}"; Demo.says "{}"; Demo.says "{}"] in
  let defaulted := Demo.a_db "aurora-mysql" false true None in
  all_instance_ids (self_of (_CreateAwsSqlInstance Demo.env self w))
  = ["pkb-db-instance-7a1b"; "pkb-db-instance-7a1b-us-east-1b"] /\
  _CreateAwsSqlInstance Demo.env defaulted w = (Raise TypeError, defaulted, w).
Proof.
  intros self w defaulted.
  assert (Hrds : forall ha zs,
            ~ In (engine (spec (Demo.a_db "aurora-mysql" ha true zs)))
                 (_RDS_ENGINES Demo.env))
    by (intros ha zs; simpl; intuition discriminate).
  assert (Haurora : forall ha zs,
            In (engine (spec (Demo.a_db "aurora-mysql" ha true zs)))
               (_AURORA_ENGINES Demo.env))
    by (intros ha zs; simpl; auto).
  split.
  - apply (_CreateAwsSqlInstance_cluster_identifiers Demo.env self w
             (Hrds _ _) (Haurora _ _) eq_refl).
    reflexivity.
  - exact (_CreateAwsSqlInstance_cluster_identifiers Demo.env defaulted w
             (Hrds _ _) (Haurora _ _) eq_refl).
Defined.

Lemma unmanaged_create_exists_delete_witness :
  let self := Demo.a_db "mysql" false false None in
  let w := Demo.a_world [] in
  let created := _Create Demo.env self w in
  outcome_of created = Ret tt /\
  _Exists Demo.env (self_of created) w = (Ret (JBool true), self_of created, w).
Proof.
  intros self w created.
  destruct (unmanaged_create_exists_delete Demo.env self w w w 3306)
    as [H1 [_ [_ [H2 _]]]].
  - reflexivity.
  - reflexivity.
  - intros c s. reflexivity.
  - split; [exact H1 | exact H2].
Defined.

Lemma _GetPortsForWriterInstance_not_described_witness :
  let self := Demo.an_instance "mysql" false in
  outcome_of (_GetPortsForWriterInstance Demo.env "pkb-db-instance-7a1b" self
                (Demo.a_world []))
  = Raise TypeError.
Proof.
  intros self.
  destruct (_GetPortsForWriterInstance_not_described Demo.env self (Demo.a_world [])
              "pkb-db-instance-7a1b") as [_ [_ H]].
  - simpl. discriminate.
  - rewrite H. reflexivity.
Defined.

Lemma _SavePrimaryAndSecondaryZones_aurora_witness :
  let run := _SavePrimaryAndSecondaryZones Demo.env JNull Demo.a_cluster
               (Demo.a_world []) in
  world_of run = Demo.a_world [] /\
  secondary_zone (self_of run) = JStr "us-east-1b".
Proof.
  intros run.
  destruct (_SavePrimaryAndSecondaryZones_aurora Demo.env Demo.a_cluster
              (Demo.a_world []) JNull) as [H _].
  - simpl. auto.
  - split; [exact H | reflexivity].
Defined.

Lemma _SavePrimaryAndSecondaryZones_fallback_witness :
  let self := Demo.an_instance "mysql" true in
  let json := Demo.instance_doc "available" (JDict []) "in-sync" in
  outcome_of (_SavePrimaryAndSecondaryZones Demo.env json self (Demo.a_world []))
  = Raise IndexError.
Proof.
  intros self json.
  pose proof (_SavePrimaryAndSecondaryZones_fallback Demo.env self (Demo.a_world [])
                json) as H.
  erewrite H.
  - reflexivity.
  - simpl. intuition discriminate.
  - reflexivity.
  - reflexivity.
  - reflexivity.
  - reflexivity.
Defined.

Lemma _DeleteDependencies_stops_at_raising_subnet_witness :
  let self := set_subnets_owned_by_db [Demo.client_subnet; Demo.client_subnet]
                (Demo.an_instance "mysql" false) in
  outcome_of (_DeleteDependencies Busy.env self (Demo.a_world []))
  = Raise (ExternalError "DependencyViolation").
Proof.
  intros self.
  apply (_DeleteDependencies_stops_at_raising_subnet Busy.env self (Demo.a_world [])
           Demo.client_subnet [Demo.client_subnet]).
  - reflexivity.
  - reflexivity.
  - reflexivity.
Defined.

Lemma status_checks_change_nothing_witness :
  let self := Demo.an_instance "mysql" false in
  let w := Demo.a_world [Demo.says "creating"; Demo.says "available"] in
  self_of (_IsReady Demo.env 10 IS_READY_TIMEOUT self w) = self /\
  Forall (fun e => is_poll_event Demo.env e = true)
    (events_since w (world_of (_IsReady Demo.env 10 IS_READY_TIMEOUT self w))).
Proof.
  intros self w.
  apply (status_checks_change_nothing Demo.env self w 10 "pkb-db-instance-7a1b"
           IS_READY_TIMEOUT).
  reflexivity.
Defined.

Lemma _IsDeleting_cases_witness :
  let w := Demo.a_world [Demo.says "available"; Demo.says "no-instances"] in
  let writer :=
    describe_db_instances_cmd Demo.env "us-east-1" "pkb-db-instance-7a1b" in
  let reader :=
    describe_db_instances_cmd Demo.env "us-east-1" "pkb-db-instance-7a1b-us-east-1b" in
  _IsDeleting Demo.env Demo.a_cluster w
  = (Raise IndexError, Demo.a_cluster,
     after_command Demo.env reader false (after_command Demo.env writer false w)).
Proof.
  intros w writer reader.
  destruct (_IsDeleting_cases Demo.env Demo.a_cluster w) as [_ [_ H]].
  assert (Hnone : none_deleting Demo.env (region Demo.a_cluster)
                    ["pkb-db-instance-7a1b"] w).
  { intros k id Hk. destruct k as [| k]; [| destruct k; discriminate Hk].
    injection Hk as <-. eexists. split; [reflexivity |]. right.
    eexists. split; reflexivity. }
  destruct (H ["pkb-db-instance-7a1b"] "pkb-db-instance-7a1b-us-east-1b" []
              eq_refl Hnone) as [_ Hread].
  destruct (Hread (JDict [ ("DBInstances", JList []) ]) eq_refl eq_refl) as [_ Hraise].
  exact (Hraise IndexError eq_refl).
Defined.

Lemma _Reboot_cases_witness :
  let self := Demo.an_instance "mysql" false in
  let w := Demo.a_world [Demo.slowly 3600 "creating"] in
  outcome_of (_Reboot Demo.env 10 self w)
  = Raise (Exception "Instance is not in a state that can reboot").
Proof.
  intros self w.
  destruct (_Reboot_cases Demo.env self w 10) as [_ [H _]].
  destruct (H eq_refl) as [H' _]. rewrite H'. reflexivity.
Defined.

Lemma _GetNewZones_takes_the_zones_out_witness :
  let self := Demo.a_db "mysql" true true (Some ["us-east-1b"]) in
  Permutation (zones self ++ ["us-east-1a"; "us-east-1c"])
    ["us-east-1a"; "us-east-1b"; "us-east-1c"].
Proof.
  intros self.
  destruct (_GetNewZones_takes_the_zones_out Demo.env self (Demo.a_world [])
              ["us-east-1a"; "us-east-1b"; "us-east-1c"] eq_refl) as [_ [_ [H _]]].
  apply H. reflexivity.
Defined.


Lemma _PostCreate_unmanaged_witness :
  let self := Demo.a_db "mysql" false false None in
  let r := _PostCreate Demo.env 0 self (Demo.a_world []) in
  port (self_of r) = Some 3306 /\ outcome_of r = Ret tt.
Proof.
  intros self r.
  pose proof (_PostCreate_unmanaged Demo.env self (Demo.a_world []) 0 eq_refl eq_refl)
    as H.
  simpl in H. destruct H as [H _].
  split; [| reflexivity].
  unfold r. rewrite H. reflexivity.
Defined.

Lemma _PostCreate_without_modification_witness :
  let self := Demo.an_instance "mysql" false in
  let w := Demo.a_world [Demo.says "available"; Demo.says "available"] in
  Forall (fun e => is_describe_or_install Demo.env e = true)
    (events_since (world_of (super_PostCreate Demo.env self w))
       (world_of (_PostCreate Demo.env 0 self w))) /\
  outcome_of (_PostCreate Demo.env 0 self w) = Ret tt.
Proof.
  intros self w. split; [| reflexivity].
  apply (_PostCreate_without_modification Demo.env self w 0).
  - reflexivity.
  - reflexivity.
  - left. reflexivity.
Defined.

(** ** The life cycle on the scripted provider *)

Lemma dependencies_first_and_last_witness :
  let self := Demo.a_db "mysql" false true None in
  let w := Demo.a_world [Demo.says ""; Demo.says ""; Demo.says ""] in
  let deps := _CreateDependencies Demo.env self w in
  let created := Create Demo.env self w in
  outcome_of created = Ret tt /\
  operations Demo.env (events_since w (world_of created))
  = ["create-db-subnet-group"; "authorize-security-group-ingress"; "create-db-instance"] /\
  (exists used subnet_events,
     events_since w (world_of deps)
     = subnet_events ++
       [ EvIssueCommand
           (create_db_subnet_group_cmd Demo.env (region self)
              (subnets_used_by_db (self_of deps))) true;
         EvIssueCommand
           (authorize_ingress_cmd Demo.env (region self)
              (security_group_id (self_of deps))) true ] /\
     Forall (fun e => is_subnet_event e = true) subnet_events /\
     subnets_used_by_db (self_of deps) = subnets_used_by_db self ++ used /\
     subnets_owned_by_db (self_of deps)
     = subnets_owned_by_db self ++ created_subnets subnet_events /\
     exists s, created_subnets subnet_events = [s] /\
               used = [vm_subnet (client_vm self); s]) /\
  events_since (world_of deps) (world_of created) <> [].
Proof.
  intros self w deps created.
  destruct (dependencies_first_and_last Demo.env self w eq_refl)
    as [_ [_ [_ [_ [Hsetup [Hcreation _]]]]]].
  split; [reflexivity |]. split; [reflexivity |].
  split; [apply Hsetup; reflexivity | apply Hcreation; reflexivity].
Defined.

(** C6 as stated does not hold of the parameter group: deletion is not
    creation inverted.  A database with a flag is created, its flag is
    applied and it is deleted, every command succeeding.  The parameter
    group is created after the instance, which is then made to use it, and
    it is deleted after the instance as well, as the last thing. *)
Lemma parameter_group_is_not_mirrored :
  let w0 := Demo.a_world [ Demo.says ""; Demo.says ""; Demo.says ""; Demo.says "";
                           Demo.says ""; Demo.says ""; Demo.says "available";
                           Demo.says ""; Demo.says "available";
                           Demo.says ""; Demo.says ""; Demo.says "" ] in
  let created := Create Demo.env Tuned.a_db w0 in
  let applied := _ApplyManagedDbFlags Demo.env 10 (self_of created) (world_of created) in
  let deleted := Delete Demo.env (self_of applied) (world_of applied) in
  outcome_of created = Ret tt /\
  outcome_of applied = Ret tt /\
  outcome_of deleted = Ret tt /\
  operations Demo.env (events_since w0 (world_of deleted))
  = [ "create-db-subnet-group"; "authorize-security-group-ingress";
      "create-db-instance";
      "create-db-parameter-group"; "modify-db-instance"; "modify-db-parameter-group";
      "describe-db-instances"; "reboot-db-instance"; "describe-db-instances";
      "delete-db-instance";
      "delete-db-subnet-group"; "delete-db-parameter-group" ].
Proof. repeat split. Qed.

